(** * Anti-spoofing scoring and alert escalation: a shallow embedding

    The Python services of the repository ([spoof_alerting.py],
    [liveness_detection.py], [deepfake_detection.py]), its video utilities
    ([video_processor.py]) and the verification endpoint of [app.py] are
    embedded as Rocq functions.  Python floats are idealised as real numbers ([R]): the
    arithmetic, the comparisons against thresholds, [np.clip], [min], [max],
    [np.linalg.norm], [np.var] and [np.std] are their exact real
    counterparts (so infinities and rounding are outside the model, and so
    is NaN but for the centroid of a landmark array without rows).
    Mutable attributes of the service objects become fields of an explicit
    state record that every method takes and returns.  Calls into OpenCV and
    MediaPipe are parameters of the development. *)

From Stdlib Require Import Reals Lra Lia.
From stdpp Require Import base decidable option list strings gmap.

Open Scope string_scope.

(** ** Python values and comparisons *)

#[global] Instance Rlt_decision (x y : R) : Decision (x < y)%R := Rlt_dec x y.
#[global] Instance Rgt_decision (x y : R) : Decision (x > y)%R := Rgt_dec x y.
#[global] Instance Rle_decision (x y : R) : Decision (x <= y)%R := Rle_dec x y.
#[global] Instance Rge_decision (x y : R) : Decision (x >= y)%R := Rge_dec x y.

(** [x > y], [x < y], [x >= y] on floats, as Python evaluates them. *)
Definition Rgtb (x y : R) : bool := bool_decide (x > y)%R.
Definition Rltb (x y : R) : bool := bool_decide (x < y)%R.
Definition Rgeb (x y : R) : bool := bool_decide (x >= y)%R.

(** The values a dictionary of indicators holds: flags and numbers.  In
    Python [bool] is a subtype of [int], so a flag takes part in arithmetic
    and comparisons as [0] or [1]. *)
Inductive pyval : Type :=
  | PyBool (b : bool)
  | PyFloat (r : R).

Definition py_num (v : pyval) : R :=
  match v with
  | PyBool true => 1
  | PyBool false => 0
  | PyFloat r => r
  end.

#[global] Instance Req_decision (x y : R) : Decision (x = y) := Req_dec_T x y.

(** Truthiness, as [if v:] and [not v] test it. *)
Definition py_truthy (v : pyval) : bool :=
  match v with
  | PyBool b => b
  | PyFloat r => negb (bool_decide (r = 0%R))
  end.

(** [d.get(key, dflt)] *)
Definition dict_get (d : gmap string pyval) (key : string) (dflt : pyval) : pyval :=
  default dflt (d !! key).

(** [sum(values)] of a list of flags and numbers. *)
Definition py_sum (vs : list pyval) : R :=
  foldr (fun v acc => (py_num v + acc)%R) 0%R vs.

(** [np.clip(x, lo, hi)] *)
Definition clip (x lo hi : R) : R := Rmin (Rmax x lo) hi.

(** ** The alerting service ([spoof_alerting.py]) *)

Module Alerting.

Inductive AlertSeverity : Type := LOW | MEDIUM | HIGH | CRITICAL.

Inductive AlertType : Type :=
  | DEEPFAKE_DETECTED
  | LIVENESS_FAILED
  | UNUSUAL_GEOMETRY
  | TEXTURE_ANOMALY
  | BLINK_PATTERN_ANOMALY
  | TEMPORAL_INCONSISTENCY
  | FACE_NOT_DETECTED
  | MULTIPLE_FACES.

(** The aggregate dictionaries handed to the adjudicator.  Every key is read
    with [.get(key, default)], so a key may be absent. *)
Record DeepfakeAnalysis : Type := {
  da_deepfake_score : option R;
  da_face_detected : option bool;
  da_indicators : option (gmap string pyval)
}.

Record LivenessAnalysis : Type := {
  la_liveness_score : option R;
  la_face_detected : option bool
}.

(** The free-form [details] payload of an alert. *)
Inductive Details : Type :=
  | DeepfakeDetails (a : DeepfakeAnalysis)
  | LivenessDetails (a : LivenessAnalysis)
  | PlainDetails (d : list (string * string)).

Record Alert : Type := {
  alert_id : string;
  alert_type : AlertType;
  severity : AlertSeverity;
  timestamp : string;
  user_id : option string;
  session_id : string;
  message : string;
  details : Details;
  status : string;
  acknowledged_at : option string;
  acknowledged_by : option string
}.

(** The mutable part of [SpoofAlertingService]: the alert history, the queue
    feeding the dispatch worker, and the number of clock readings taken so
    far.  The queue and the history share the alert objects, so the queue
    holds references: positions in the history. *)
Record Service : Type := {
  alerts : list Alert;
  alert_queue : list nat;
  clock : nat
}.

(** [SpoofAlertingService.__init__] *)
Definition init : Service :=
  {| alerts := []; alert_queue := []; clock := 0 |}.

(** [self.thresholds] *)
Definition threshold_deepfake_score : R := 0.6.
Definition threshold_liveness_score : R := 0.5.

(** [determine_alert_severity] *)
Definition critical_indicators (deepfake_score liveness_score : R)
    (indicators : gmap string pyval) : list pyval :=
  [ PyBool (Rgtb deepfake_score 0.85);
    PyBool (Rltb liveness_score 0.2);
    PyBool (Rgtb (py_num (dict_get indicators "blink_pattern_anomaly" (PyFloat 0))) 0.8);
    PyBool (Rgtb (py_num (dict_get indicators "texture_anomaly" (PyFloat 0))) 0.9);
    dict_get indicators "face_not_detected" (PyBool false) ].

Definition high_indicators (deepfake_score liveness_score : R)
    (indicators : gmap string pyval) : list pyval :=
  [ PyBool (Rgtb deepfake_score 0.7);
    PyBool (Rltb liveness_score 0.35);
    PyBool (Rgtb (py_num (dict_get indicators "texture_anomaly" (PyFloat 0))) 0.7);
    PyBool (Rgtb (py_num (dict_get indicators "geometry_inconsistency" (PyFloat 0))) 0.8) ].

Definition medium_indicators (deepfake_score liveness_score : R)
    (indicators : gmap string pyval) : list pyval :=
  [ PyBool (Rgtb deepfake_score 0.55);
    PyBool (Rltb liveness_score 0.5);
    PyBool (Rgtb (py_num (dict_get indicators "temporal_anomaly" (PyFloat 0))) 0.6) ].

Definition determine_alert_severity (deepfake_score liveness_score : R)
    (indicators : gmap string pyval) : AlertSeverity :=
  if Rgeb (py_sum (critical_indicators deepfake_score liveness_score indicators)) 2
     || Rgtb deepfake_score 0.85
  then CRITICAL
  else if Rgeb (py_sum (high_indicators deepfake_score liveness_score indicators)) 2
          || Rgtb deepfake_score 0.75
  then HIGH
  else if Rgeb (py_sum (medium_indicators deepfake_score liveness_score indicators)) 1
  then MEDIUM
  else LOW.

Section Service.

(** [datetime.now().isoformat()]: the text of the [n]-th clock reading. *)
Variable now_iso : nat -> string.

(** The [{score:.2f}] rendering of a float inside a message. *)
Variable fmt2 : R -> string.

(** [create_alert]: two clock readings (identifier, timestamp), then the
    alert goes on the queue and at the end of the history. *)
Definition create_alert (s : Service) (ty : AlertType) (sid : string)
    (sev : AlertSeverity) (msg : string) (det : Details)
    (uid : option string) : Service * Alert :=
  let alert :=
    {| alert_id := sid ++ "_" ++ now_iso (clock s);
       alert_type := ty;
       severity := sev;
       timestamp := now_iso (S (clock s));
       user_id := uid;
       session_id := sid;
       message := msg;
       details := det;
       status := "active";
       acknowledged_at := None;
       acknowledged_by := None |} in
  ({| alerts := alerts s ++ [alert];
      alert_queue := alert_queue s ++ [length (alerts s)];
      clock := S (S (clock s)) |}, alert).

(** The dictionary [evaluate_verification_result] returns. *)
Record VerificationResult : Type := {
  vr_session_id : string;
  vr_user_id : option string;
  vr_verified : bool;
  vr_alerts : list Alert;
  vr_recommendations : list string;
  vr_status : option string
}.

(** [evaluate_verification_result] *)
Definition evaluate_verification_result (s : Service) (sid : string)
    (uid : option string) (deepfake_analysis : DeepfakeAnalysis)
    (liveness_analysis : LivenessAnalysis) : Service * VerificationResult :=
  let deepfake_score := default 0%R (da_deepfake_score deepfake_analysis) in
  let liveness_score := default 0%R (la_liveness_score liveness_analysis) in
  let r0 :=
    {| vr_session_id := sid; vr_user_id := uid; vr_verified := false;
       vr_alerts := []; vr_recommendations := []; vr_status := None |} in
  (* Check for deepfake *)
  let '(s1, r1) :=
    if Rgtb deepfake_score threshold_deepfake_score then
      let sev := determine_alert_severity deepfake_score liveness_score
                   (default ∅ (da_indicators deepfake_analysis)) in
      let '(s', alert) :=
        create_alert s DEEPFAKE_DETECTED sid sev
          ("Potential deepfake detected with score " ++ fmt2 deepfake_score)
          (DeepfakeDetails deepfake_analysis) uid in
      (s', {| vr_session_id := vr_session_id r0; vr_user_id := vr_user_id r0;
              vr_verified := vr_verified r0;
              vr_alerts := vr_alerts r0 ++ [alert];
              vr_recommendations :=
                vr_recommendations r0 ++ ["REJECT - Deepfake indicators detected"];
              vr_status := vr_status r0 |})
    else (s, r0) in
  (* Check for liveness *)
  let '(s2, r2) :=
    if Rltb liveness_score threshold_liveness_score then
      let '(s', alert) :=
        create_alert s1 LIVENESS_FAILED sid HIGH
          ("Liveness check failed with score " ++ fmt2 liveness_score)
          (LivenessDetails liveness_analysis) uid in
      (s', {| vr_session_id := vr_session_id r1; vr_user_id := vr_user_id r1;
              vr_verified := vr_verified r1;
              vr_alerts := vr_alerts r1 ++ [alert];
              vr_recommendations :=
                vr_recommendations r1 ++ ["REJECT - Liveness verification failed"];
              vr_status := vr_status r1 |})
    else (s1, r1) in
  (* Check for face detection *)
  let '(s3, r3) :=
    if negb (default false (da_face_detected deepfake_analysis)) then
      let '(s', alert) :=
        create_alert s2 FACE_NOT_DETECTED sid MEDIUM
          "Face could not be detected in video"
          (PlainDetails [("reason", "no_face_detected")]) uid in
      (s', {| vr_session_id := vr_session_id r2; vr_user_id := vr_user_id r2;
              vr_verified := vr_verified r2;
              vr_alerts := vr_alerts r2 ++ [alert];
              vr_recommendations :=
                vr_recommendations r2 ++ ["REJECT - Face not detected"];
              vr_status := vr_status r2 |})
    else (s2, r2) in
  (* Determine overall verification status *)
  match vr_alerts r3 with
  | _ :: _ =>
      (s3, {| vr_session_id := vr_session_id r3; vr_user_id := vr_user_id r3;
              vr_verified := false;
              vr_alerts := vr_alerts r3;
              vr_recommendations := vr_recommendations r3;
              vr_status := Some "FAILED" |})
  | [] =>
      (s3, {| vr_session_id := vr_session_id r3; vr_user_id := vr_user_id r3;
              vr_verified := true;
              vr_alerts := vr_alerts r3;
              vr_recommendations :=
                vr_recommendations r3 ++ ["APPROVE - Identity verification passed"];
              vr_status := Some "PASSED" |})
  end.

(** [acknowledge_alert]: the loop over [self.alerts] stops at the first
    alert whose identifier matches and rewrites it in place. *)
Definition acknowledge (a : Alert) (at_ : string) (who : string) : Alert :=
  {| alert_id := alert_id a; alert_type := alert_type a;
     severity := severity a; timestamp := timestamp a;
     user_id := user_id a; session_id := session_id a;
     message := message a; details := details a;
     status := "acknowledged";
     acknowledged_at := Some at_;
     acknowledged_by := Some who |}.

Fixpoint acknowledge_in (l : list Alert) (id at_ who : string)
    : option (list Alert) :=
  match l with
  | [] => None
  | a :: rest =>
      if bool_decide (alert_id a = id)
      then Some (acknowledge a at_ who :: rest)
      else option_map (cons a) (acknowledge_in rest id at_ who)
  end.

Definition acknowledge_alert (s : Service) (id : string) (who : string)
    : Service * bool :=
  match acknowledge_in (alerts s) id (now_iso (clock s)) who with
  | Some l =>
      ({| alerts := l; alert_queue := alert_queue s; clock := S (clock s) |},
       true)
  | None => (s, false)
  end.

(** [get_active_alerts] *)
Definition get_active_alerts (s : Service) : list Alert :=
  filter (fun a => status a = "active") (alerts s).

End Service.

End Alerting.

(** ** Arrays: landmark points and grayscale images *)

(** One row [[x, y, z]] of a landmark array. *)
Definition Point : Type := (R * R * R)%type.

Definition psub (p q : Point) : Point :=
  let '(px, py, pz) := p in
  let '(qx, qy, qz) := q in
  (px - qx, py - qy, pz - qz)%R.

(** [np.linalg.norm] of a row. *)
Definition norm (p : Point) : R :=
  let '(x, y, z) := p in sqrt (x * x + y * y + z * z).

Definition Rsum (l : list R) : R := foldr Rplus 0%R l.

(** [np.mean] of a one-dimensional array. *)
Definition mean (l : list R) : R := (Rsum l / INR (length l))%R.

(** [np.var] and [np.std] (population variance, [ddof = 0]). *)
Definition var (l : list R) : R :=
  mean (map (fun x => (x - mean l) * (x - mean l))%R l).

Definition std (l : list R) : R := sqrt (var l).

(** [np.mean(landmarks, axis=0)].  The mean of an array without rows is NaN
    in every component ([None]); NumPy warns and does not raise. *)
Definition centroid (l : list Point) : option Point :=
  match l with
  | [] => None
  | _ =>
      Some (mean (map (fun p => fst (fst p)) l),
            mean (map (fun p => snd (fst p)) l),
            mean (map snd l))
  end.

(** [landmarks[indices]]: fancy indexing raises [IndexError] ([None]) when
    an index is out of range. *)
Definition fancy_index (l : list Point) (indices : list nat) : option (list Point) :=
  mapM (fun i => l !! i) indices.

(** A single-channel 8-bit image, as its rows of pixel intensities. *)
Definition Gray : Type := list (list N).

Definition pixel (n : N) : R := IZR (Z.of_N n).

(** [cv2.absdiff] of two 8-bit images; raises ([None]) unless the shapes
    agree. *)
Definition absdiff_row (a b : list N) : list N :=
  zip_with (fun x y => (N.max x y - N.min x y)%N) a b.

Fixpoint absdiff (a b : Gray) : option Gray :=
  match a, b with
  | [], [] => Some []
  | r :: a', r' :: b' =>
      if bool_decide (length r = length r')
      then option_map (cons (absdiff_row r r')) (absdiff a' b')
      else None
  | _, _ => None
  end.

Fixpoint insert_sorted (x : N) (l : list N) : list N :=
  match l with
  | [] => [x]
  | y :: l' => if (x <=? y)%N then x :: l else y :: insert_sorted x l'
  end.

Definition sort_pixels (l : list N) : list N := foldr insert_sorted [] l.

(** [np.median] of an image: the middle of the sorted pixels, or the mean of
    the two middle ones. *)
Definition median (g : Gray) : R :=
  let s := sort_pixels (concat g) in
  let n := length s in
  if Nat.even n
  then ((pixel (nth (n / 2 - 1) s 0%N) + pixel (nth (n / 2) s 0%N)) / 2)%R
  else pixel (nth (n / 2) s 0%N).

(** [np.mean] of an image. *)
Definition mean_gray (g : Gray) : R := mean (map pixel (concat g)).

(** [np.mean(gray, axis=0)]: one mean per column. *)
Definition column_means (g : Gray) : list R :=
  match g with
  | [] => []
  | r :: _ =>
      map (fun j => mean (map (fun row => pixel (nth j row 0%N)) g))
          (seq 0 (length r))
  end.

(** A face rectangle [(x, y, w, h)]. *)
Definition Rect : Type := (Z * Z * Z * Z)%type.

(** ** The liveness detector ([liveness_detection.py]) *)

Module Liveness.

(** [self.prev_frame_landmarks] holds the previous landmark array when set
    by [detect_head_movement], and the previous grayscale frame when set by
    [detect_motion_in_frame]. *)
Inductive PrevFrame : Type :=
  | PrevLandmarks (l : list Point)
  | PrevGray (g : Gray).

(** The attributes [process_frame] reads or writes ([challenge_history],
    [blink_counter] and [eye_closed_frames] are only ever reset). *)
Record Detector : Type := {
  confidence_threshold : R;
  use_mediapipe : bool;
  prev_frame_landmarks : option PrevFrame
}.

(** [LivenessDetector.__init__], with [confidence_threshold] defaulting to
    [0.7]. *)
Definition init (threshold : R) (mediapipe : bool) : Detector :=
  {| confidence_threshold := threshold;
     use_mediapipe := mediapipe;
     prev_frame_landmarks := None |}.

Definition default_confidence_threshold : R := 0.7.

(** [LivenessDetector()]: the constructor called without an argument. *)
Definition init_default (mediapipe : bool) : Detector :=
  init default_confidence_threshold mediapipe.

Definition LEFT_EYE : list nat := [362; 385; 387; 263; 373; 380]%nat.
Definition RIGHT_EYE : list nat := [33; 160; 158; 133; 153; 144]%nat.
Definition EAR_THRESHOLD : R := 0.15.
Definition MOVEMENT_THRESHOLD : R := 15.0.
Definition MOUTH_TOP : nat := 13.
Definition MOUTH_BOTTOM : nat := 14.
Definition MOUTH_THRESHOLD : R := 20.0.

(** The nested [eye_aspect_ratio]; indexing past the six points raises. *)
Definition eye_aspect_ratio (eye_points : list Point) : option R :=
  match eye_points with
  | [p0; p1; p2; p3; p4; p5] =>
      let A := norm (psub p1 p5) in
      let B := norm (psub p2 p4) in
      let C := norm (psub p0 p3) in
      Some (if Rgtb C 0 then (A + B) / (2.0 * C) else 0)%R
  | _ => None
  end.

(** [detect_blink]; the bare [except:] turns any failure into
    [(False, 0.0)]. *)
Definition detect_blink (landmarks : option (list Point)) : bool * R :=
  match landmarks with
  | None => (false, 0.0%R)
  | Some lm =>
      if bool_decide (length lm = 0%nat) then (false, 0.0%R)
      else if bool_decide (length lm < 400)%nat then (false, 0.0%R)
      else
        match
          left_eye_points ← fancy_index lm LEFT_EYE;
          right_eye_points ← fancy_index lm RIGHT_EYE;
          left_ear ← eye_aspect_ratio left_eye_points;
          right_ear ← eye_aspect_ratio right_eye_points;
          Some ((left_ear + right_ear) / 2.0)%R
        with
        | Some avg_ear =>
            let is_blink := Rltb avg_ear EAR_THRESHOLD in
            let confidence := if is_blink then (1.0 - avg_ear)%R else 0.0%R in
            (is_blink, Rmin confidence 1.0)
        | None => (false, 0.0%R)
        end
  end.

(** The [details] dictionary of [detect_head_movement]. *)
Inductive MoveDetails : Type :=
  | Reason (reason : string)
  | Displacement (displacement : R) (movement_types : list string)
  | NanDisplacement.

(** [np.mean(self.prev_frame_landmarks, axis=0)], then broadcast against a
    three-component centroid: a landmark array gives its centroid (NaN,
    the inner [None], when it has no rows); a grayscale frame gives one
    mean per column, which broadcasts only when the frame is one or three
    pixels wide and raises (the outer [None]) otherwise. *)
Definition prev_centroid (prev : PrevFrame) : option (option Point) :=
  match prev with
  | PrevLandmarks l => Some (centroid l)
  | PrevGray g =>
      match column_means g with
      | [a] => Some (Some (a, a, a))
      | [a; b; c] => Some (Some (a, b, c))
      | _ => None
      end
  end.

(** [detect_head_movement] *)
Definition detect_head_movement (d : Detector)
    (current_landmarks : option (list Point))
    : Detector * (bool * R * MoveDetails) :=
  match current_landmarks with
  | None => (d, (false, 0.0%R, Reason "no_landmarks"))
  | Some cur =>
      match prev_frame_landmarks d with
      | None =>
          ({| confidence_threshold := confidence_threshold d;
              use_mediapipe := use_mediapipe d;
              prev_frame_landmarks := Some (PrevLandmarks cur) |},
           (false, 0.0%R, Reason "no_previous_frame"))
      | Some prev =>
          match prev_centroid prev with
          | Some prev_centroid_ =>
              let d' :=
                {| confidence_threshold := confidence_threshold d;
                   use_mediapipe := use_mediapipe d;
                   prev_frame_landmarks := Some (PrevLandmarks cur) |} in
              match centroid cur, prev_centroid_ with
              | Some curr_centroid, Some pc =>
                  let displacement := norm (psub curr_centroid pc) in
                  let movement_detected :=
                    Rgtb displacement MOVEMENT_THRESHOLD in
                  let confidence :=
                    if movement_detected
                    then Rmin (displacement / MOVEMENT_THRESHOLD) 1.0
                    else 0.0%R in
                  (d',
                   (movement_detected, confidence,
                    Displacement displacement
                      (if movement_detected then ["head_movement"] else [])))
              | _, _ =>
                  (* a NaN displacement exceeds no threshold *)
                  (d', (false, 0.0%R, NanDisplacement))
              end
          | None => (d, (false, 0.0%R, Reason "processing_error"))
          end
      end
  end.

(** [detect_mouth_open] *)
Definition detect_mouth_open (landmarks : option (list Point)) : bool * R :=
  match landmarks with
  | None => (false, 0.0%R)
  | Some lm =>
      if bool_decide (length lm < 400)%nat then (false, 0.0%R)
      else
        match lm !! MOUTH_TOP, lm !! MOUTH_BOTTOM with
        | Some mouth_top, Some mouth_bottom =>
            let mouth_distance := norm (psub mouth_bottom mouth_top) in
            let mouth_open := Rgtb mouth_distance MOUTH_THRESHOLD in
            let confidence :=
              if mouth_open
              then Rmin (mouth_distance / MOUTH_THRESHOLD) 1.0
              else 0.0%R in
            (mouth_open, Rmin confidence 1.0)
        | _, _ => (false, 0.0%R)
        end
  end.

(** The three per-check entries of the [detections] dictionary. *)
Record Detection : Type := { detected : bool; confidence : R }.

Inductive Detections : Type :=
  | NoDetections
  | ErrorDetections
  | Checks (blink : Detection) (head_movement : Detection)
           (move_details : MoveDetails) (mouth_open : Detection).

Record FrameResult : Type := {
  face_detected : bool;
  liveness_score : R;
  is_likely_live : option bool;
  detections : Detections
}.

Section Frames.

(** The decoded frames and what OpenCV and MediaPipe report about them. *)
Variable Frame : Type.

(** [frame.size] *)
Variable frame_size : Frame -> N.

(** [cv2.cvtColor(frame, cv2.COLOR_BGR2GRAY)]; [None] when OpenCV raises. *)
Variable gray_of : Frame -> option Gray.

(** Whether [cv2.cvtColor(frame, cv2.COLOR_BGR2RGB)] returns; [false] when
    OpenCV raises.  Nothing is assumed to relate it to [gray_of]. *)
Variable rgb_converts : Frame -> bool.

(** [detect_faces_cascade]: the rectangles kept from the Haar cascade (its
    own [try] returns the empty list on failure). *)
Variable detect_faces_cascade : Frame -> list Rect.

(** [face_mesh.process(frame_rgb)]: the normalised landmark rows of the
    first face, [None] when no face mesh is found or MediaPipe raises. *)
Variable face_mesh_landmarks : Frame -> option (list Point).

(** [detect_motion_in_frame] *)
Definition detect_motion_in_frame (d : Detector) (frame : Frame) : Detector * R :=
  match gray_of frame with
  | None => (d, 0.1%R)
  | Some gray =>
      match prev_frame_landmarks d with
      | None =>
          ({| confidence_threshold := confidence_threshold d;
              use_mediapipe := use_mediapipe d;
              prev_frame_landmarks := Some (PrevGray gray) |}, 0.2%R)
      | Some (PrevGray prev) =>
          match absdiff gray prev with
          | Some frame_diff =>
              let motion_magnitude := median frame_diff in
              let motion_score := Rmin (motion_magnitude / 50.0) 1.0 in
              ({| confidence_threshold := confidence_threshold d;
                  use_mediapipe := use_mediapipe d;
                  prev_frame_landmarks := Some (PrevGray gray) |}, motion_score)
          | None => (d, 0.1%R)
          end
      | Some (PrevLandmarks _) => (d, 0.1%R)
      end
  end.

(** [process_frame] *)
Definition process_frame (d : Detector) (frame : option Frame)
    : Detector * FrameResult :=
  let empty_result :=
    {| face_detected := false; liveness_score := 0.0%R;
       is_likely_live := None; detections := NoDetections |} in
  match frame with
  | None => (d, empty_result)
  | Some frame =>
      if bool_decide (frame_size frame = 0%N) then (d, empty_result)
      else
        let faces := detect_faces_cascade frame in
        let face_detected_ := bool_decide (0 < length faces)%nat in
        match rgb_converts frame with
        | false =>
            (d, {| face_detected := false; liveness_score := 0.0%R;
                   is_likely_live := None; detections := ErrorDetections |})
        | true =>
            let landmarks :=
              if use_mediapipe d then face_mesh_landmarks frame else None in
            let '(d', (blink_detected, blink_conf),
                  (move_detected, move_conf, move_details),
                  (mouth_open, mouth_conf)) :=
              match landmarks with
              | Some _ =>
                  let b := detect_blink landmarks in
                  let '(d1, m) := detect_head_movement d landmarks in
                  (d1, b, m, detect_mouth_open landmarks)
              | None =>
                  let '(d1, motion) := detect_motion_in_frame d frame in
                  (d1, (false, 0.0%R),
                   (false, motion, Reason "motion_fallback"),
                   (false, 0.0%R))
              end in
            let liveness_score_ :=
              (blink_conf * 0.3 + move_conf * 0.4 + mouth_conf * 0.3)%R in
            let liveness_score_ :=
              match landmarks with
              | None =>
                  if face_detected_ then Rmax liveness_score_ 0.5
                  else liveness_score_
              | Some _ => liveness_score_
              end in
            (d', {| face_detected := face_detected_;
                    liveness_score := liveness_score_;
                    is_likely_live :=
                      Some (Rgtb liveness_score_ (confidence_threshold d));
                    detections :=
                      Checks {| detected := blink_detected; confidence := blink_conf |}
                             {| detected := move_detected; confidence := move_conf |}
                             move_details
                             {| detected := mouth_open; confidence := mouth_conf |} |})
        end
  end.

End Frames.

End Liveness.

(** ** The deepfake detector ([deepfake_detection.py]) *)

(** [int(x)]: truncation toward zero. *)
Definition py_int (x : R) : Z :=
  if Rltb x 0 then (- Int_part (- x))%Z else Int_part x.

(** [np.min], [np.max]: raise ([None]) on an empty array. *)
Definition np_min (l : list R) : option R :=
  match l with
  | [] => None
  | x :: t => Some (foldl Rmin x t)
  end.

Definition np_max (l : list R) : option R :=
  match l with
  | [] => None
  | x :: t => Some (foldl Rmax x t)
  end.

(** [l[i:j]] *)
Definition slice {A : Type} (i j : nat) (l : list A) : list A :=
  drop i (take j l).

(** [scipy.signal.correlate(x, y, mode='full')] of two sequences of one
    length: entry [k] is the sum over [l] of [x[l] * y[l - k + len(y) - 1]],
    the terms whose index falls outside [y] being absent. *)
Definition correlate_full (x y : list R) : list R :=
  map (fun k : nat =>
         Rsum (imap (fun (l : nat) (xl : R) =>
                       let idx := (Z.of_nat l - Z.of_nat k + Z.of_nat (length y) - 1)%Z in
                       if bool_decide (0 <= idx)%Z
                       then (xl * nth (Z.to_nat idx) y 0)%R
                       else 0%R) x))
      (seq 0 (length x + length y - 1)).

Module Deepfake.

Definition LEFT_EYE : list nat := [362; 385; 387; 263; 373; 380]%nat.
Definition RIGHT_EYE : list nat := [33; 160; 158; 133; 153; 144]%nat.
Definition EAR_THRESHOLD : R := 0.15.

(** The nested [eye_aspect_ratio] of [analyze_blink_patterns]. *)
Definition eye_aspect_ratio (eye_points : list Point) : option R :=
  match eye_points with
  | [p0; p1; p2; p3; p4; p5] =>
      let A := norm (psub p1 p5) in
      let B := norm (psub p2 p4) in
      let C := norm (psub p0 p3) in
      Some (if Rgtb C 0 then (A + B) / (2.0 * C) else 0)%R
  | _ => None
  end.

(** The bounded histories: [history.append(x)], then [history.pop(0)] once
    when the length exceeds [history_size]. *)
Definition push_history {A : Type} (history_size : Z) (history : list A) (x : A)
    : list A :=
  let appended := (history ++ [x])%list in
  if bool_decide (history_size < Z.of_nat (length appended))%Z
  then drop 1 appended
  else appended.

(** [_calculate_blink_rate] *)
Fixpoint count_blinks (was_closed : bool) (history : list R) : nat :=
  match history with
  | [] => 0
  | ear :: rest =>
      let is_closed := Rltb ear EAR_THRESHOLD in
      ((if was_closed && negb is_closed then 1 else 0)
       + count_blinks is_closed rest)%nat
  end.

Definition _calculate_blink_rate (blink_history : list R) : R :=
  if bool_decide (length blink_history < 10)%nat then 0.0%R
  else (INR (count_blinks false blink_history) / INR (length blink_history)
        * 60 * 30 / 60)%R.

(** [_detect_blink_pattern_anomaly]; [None] stands for an exception
    ([np.max] of an empty slice). *)
Definition _detect_blink_pattern_anomaly (blink_history : list R) : option R :=
  if bool_decide (length blink_history < 20)%nat then Some 0.0%R
  else
    let history_array := blink_history in
    if Rltb (std history_array) 1e-6 then Some 1.0%R
    else
      let correlation := correlate_full history_array history_array in
      let correlation := drop (length correlation / 2) correlation in
      let correlation :=
        map (fun c => (c / nth 0 correlation 0)%R) correlation in
      periodicity_score ←
        np_max (slice 10 (Nat.min 50 (length correlation)) correlation);
      Some (clip (periodicity_score - 0.5) 0 1).

(** [_detect_blink_duration_anomaly]: the loop collects the length of every
    completed run of closed-eye samples. *)
Fixpoint blink_runs (in_blink : bool) (duration : nat) (history : list R)
    : list nat :=
  match history with
  | [] => []
  | ear :: rest =>
      let is_closed := Rltb ear EAR_THRESHOLD in
      if is_closed then
        if negb in_blink then blink_runs true 1 rest
        else blink_runs in_blink (duration + 1) rest
      else
        if in_blink then duration :: blink_runs false 0 rest
        else blink_runs in_blink duration rest
  end.

Definition _detect_blink_duration_anomaly (blink_history : list R) : R :=
  if bool_decide (length blink_history < 10)%nat then 0.0%R
  else
    let blink_durations := blink_runs false 0 blink_history in
    match blink_durations with
    | [] => 0.0%R
    | _ =>
        let abnormal_count :=
          length (filter (fun n => (n < 2)%nat \/ (15 < n)%nat) blink_durations) in
        let anomaly_score :=
          (INR abnormal_count / INR (length blink_durations))%R in
        clip anomaly_score 0 1
    end.

(** One entry of [face_geometry_history]. *)
Record GeometryEntry : Type := {
  ge_face_height : R;
  ge_face_width : R;
  ge_mouth_width : R;
  ge_mouth_face_ratio : R;
  ge_width_height_ratio : R
}.

(** [_analyze_geometry_consistency] *)
Definition _analyze_geometry_consistency (face_geometry_history : list GeometryEntry)
    : R :=
  if bool_decide (length face_geometry_history < 5)%nat then 0.0%R
  else
    let ratios := map ge_width_height_ratio face_geometry_history in
    let consistency := std ratios in
    let anomaly := Rmax 0 (1.0 - consistency / 0.1) in
    clip anomaly 0 1.

(** What OpenCV measures on the cropped face region: the crop's shape, the
    variance of its Laplacian, the fraction of Canny edge pixels, the mean
    absolute difference to its median blur, the variance of each non-empty
    border strip, and the accumulated absolute DCT coefficients on the edges
    of its 8x8 blocks. *)
Record TextureMeasurements : Type := {
  tm_crop_shape : Z * Z;
  tm_laplacian_variance : R;
  tm_edge_density : R;
  tm_median_diff_mean : R;
  tm_border_variances : list R;
  tm_block_artifacts : R
}.

(** [_analyze_smoothness] *)
Definition _analyze_smoothness (m : TextureMeasurements) : R :=
  let smoothness := (1.0 - tm_median_diff_mean m / 255.0)%R in
  clip smoothness 0 1.

(** [_detect_boundary_artifacts] *)
Definition _detect_boundary_artifacts (m : TextureMeasurements) : R :=
  let '(h, w) := tm_crop_shape m in
  let border_size := Z.min (Z.min 20 (h / 5)) (w / 5) in
  if bool_decide (border_size < 5)%Z then 0.0%R
  else
    let border_variances := tm_border_variances m in
    let artifact_score :=
      match border_variances with
      | [] => 0.0%R
      | _ => (mean border_variances / 100.0)%R
      end in
    clip artifact_score 0 1.

(** [_detect_compression_artifacts] *)
Definition _detect_compression_artifacts (m : TextureMeasurements) : R :=
  let '(h, w) := tm_crop_shape m in
  let artifact_score := (tm_block_artifacts m / (IZR h * IZR w))%R in
  clip (artifact_score / 100.0) 0 1.

(** [_compute_texture_anomaly_score] *)
Definition _compute_texture_anomaly_score
    (laplacian_var edge_density smoothness boundary_artifacts : R) : R :=
  let texture_score :=
    ((1.0 - clip (laplacian_var / 1000.0) 0 1) * 0.3
     + (1.0 - edge_density) * 0.3
     + smoothness * 0.2
     + boundary_artifacts * 0.2)%R in
  clip texture_score 0 1.

(** The dictionaries the analyses return. *)
Record TextureAnalysis : Type := {
  ta_laplacian_variance : R;
  ta_edge_density : R;
  ta_smoothness_score : R;
  ta_boundary_artifacts_confidence : R;
  ta_compression_artifacts_confidence : R;
  ta_anomaly_score : R;
  ta_error : bool
}.

Record BlinkAnalysis : Type := {
  ba_current_ear : R;
  ba_blink_rate : R;
  ba_blink_pattern_anomaly : R;
  ba_blink_duration_anomaly : R
}.

Record GeometryAnalysis : Type := {
  ga_face_height : R;
  ga_face_width : R;
  ga_mouth_face_ratio : R;
  ga_width_height_ratio : R;
  ga_geometry_consistency_score : R
}.

Record TemporalAnalysis : Type := {
  ta_temporal_anomaly : R;
  ta_mean_frame_difference : option R;
  ta_frame_difference_variance : option R
}.

Inductive Indicators : Type :=
  | NoIndicators
  | ErrorIndicators
  | LimitedIndicators (texture : TextureAnalysis)
  | FullIndicators (texture : TextureAnalysis) (blink : BlinkAnalysis)
                   (geometry : GeometryAnalysis) (temporal : TemporalAnalysis).

Record FrameAnalysis : Type := {
  face_detected : bool;
  deepfake_score : R;
  is_likely_deepfake : option bool;
  indicators : Indicators
}.

(** The landmark bounding box of [process_frame], padded by a fifth of its
    width and clamped to the frame. *)
Definition face_region_of (shape : Z * Z) (landmarks : list Point) : option Rect :=
  let '(frame_h, frame_w) := shape in
  let x_coords := map (fun p => fst (fst p)) landmarks in
  let y_coords := map (fun p => snd (fst p)) landmarks in
  x_lo ← np_min x_coords;
  x_hi ← np_max x_coords;
  y_lo ← np_min y_coords;
  y_hi ← np_max y_coords;
  let x_min := py_int x_lo in
  let x_max := py_int x_hi in
  let y_min := py_int y_lo in
  let y_max := py_int y_hi in
  let padding := py_int (IZR (x_max - x_min) * 0.2) in
  let x_min := Z.max 0 (x_min - padding) in
  let y_min := Z.max 0 (y_min - padding) in
  let x_max := Z.min frame_w (x_max + padding) in
  let y_max := Z.min frame_h (y_max + padding) in
  Some (x_min, y_min, x_max - x_min, y_max - y_min)%Z.

Section Frames.

Variable Frame : Type.

(** [frame.size] and [frame.shape[:2]] (height, width). *)
Variable frame_size : Frame -> N.
Variable frame_shape : Frame -> Z * Z.

(** [cv2.cvtColor(frame, cv2.COLOR_BGR2GRAY)]; [None] when OpenCV raises. *)
Variable gray_of : Frame -> option Gray.

(** Whether [cv2.cvtColor(frame, cv2.COLOR_BGR2RGB)] returns; [false] when
    OpenCV raises.  Nothing is assumed to relate it to [gray_of]. *)
Variable rgb_converts : Frame -> bool.

(** [detect_faces_cascade]: the rectangles kept from the Haar cascade. *)
Variable detect_faces_cascade : Frame -> list Rect.

(** [face_mesh.process(frame_rgb)]: the normalised landmark rows of the
    first face, [None] when no face mesh is found or MediaPipe raises. *)
Variable face_mesh_landmarks : Frame -> option (list Point).

(** The OpenCV measurements on [frame[y:y+h, x:x+w]]; [None] when one of
    the OpenCV calls raises. *)
Variable measure_texture : Frame -> Rect -> option TextureMeasurements.

(** The attributes of [DeepfakeDetector] ([eye_gaze_history] is only ever
    reset). *)
Record Detector : Type := {
  history_size : Z;
  use_mediapipe : bool;
  frame_history : list Frame;
  blink_history : list R;
  face_geometry_history : list GeometryEntry
}.

(** [DeepfakeDetector.__init__], with [history_size] defaulting to [30]. *)
Definition init (size : Z) (mediapipe : bool) : Detector :=
  {| history_size := size; use_mediapipe := mediapipe;
     frame_history := []; blink_history := []; face_geometry_history := [] |}.


(** [reset] *)
Definition reset (d : Detector) : Detector :=
  {| history_size := history_size d; use_mediapipe := use_mediapipe d;
     frame_history := []; blink_history := []; face_geometry_history := [] |}.

(** [analyze_micro_textures] *)
Definition analyze_micro_textures (frame : Frame) (face_region : option Rect)
    : TextureAnalysis :=
  let region :=
    match face_region with
    | None =>
        let '(h, w) := frame_shape frame in
        (py_int (IZR w * 0.1), py_int (IZR h * 0.1),
         py_int (IZR w * 0.8), py_int (IZR h * 0.8))
    | Some r => r
    end in
  match measure_texture frame region with
  | Some m =>
      let smoothness := _analyze_smoothness m in
      let boundary_artifacts := _detect_boundary_artifacts m in
      let compression_artifacts := _detect_compression_artifacts m in
      {| ta_laplacian_variance := tm_laplacian_variance m;
         ta_edge_density := tm_edge_density m;
         ta_smoothness_score := smoothness;
         ta_boundary_artifacts_confidence := boundary_artifacts;
         ta_compression_artifacts_confidence := compression_artifacts;
         ta_anomaly_score :=
           _compute_texture_anomaly_score (tm_laplacian_variance m)
             (tm_edge_density m) smoothness boundary_artifacts;
         ta_error := false |}
  | None =>
      {| ta_laplacian_variance := 0.0; ta_edge_density := 0.0;
         ta_smoothness_score := 0.5;
         ta_boundary_artifacts_confidence := 0.0;
         ta_compression_artifacts_confidence := 0.0;
         ta_anomaly_score := 0.2;
         ta_error := true |}
  end.

(** [analyze_blink_patterns]; [None] in the second component stands for an
    exception, which leaves the histories as they were at that point. *)
Definition analyze_blink_patterns (d : Detector) (landmarks : list Point)
    : Detector * option BlinkAnalysis :=
  match
    left_eye ← fancy_index landmarks LEFT_EYE;
    right_eye ← fancy_index landmarks RIGHT_EYE;
    left_ear ← eye_aspect_ratio left_eye;
    right_ear ← eye_aspect_ratio right_eye;
    Some ((left_ear + right_ear) / 2.0)%R
  with
  | None => (d, None)
  | Some avg_ear =>
      let d' :=
        {| history_size := history_size d; use_mediapipe := use_mediapipe d;
           frame_history := frame_history d;
           blink_history := push_history (history_size d) (blink_history d) avg_ear;
           face_geometry_history := face_geometry_history d |} in
      (d',
       pattern ← _detect_blink_pattern_anomaly (blink_history d');
       Some {| ba_current_ear := avg_ear;
               ba_blink_rate := _calculate_blink_rate (blink_history d');
               ba_blink_pattern_anomaly := pattern;
               ba_blink_duration_anomaly :=
                 _detect_blink_duration_anomaly (blink_history d') |})
  end.

(** [analyze_face_geometry] *)
Definition analyze_face_geometry (d : Detector) (landmarks : list Point)
    : Detector * option GeometryAnalysis :=
  match landmarks !! 1%nat, landmarks !! 152%nat, landmarks !! 33%nat,
        landmarks !! 263%nat, landmarks !! 61%nat, landmarks !! 291%nat with
  | Some nose_tip, Some chin, Some left_eye, Some right_eye,
    Some left_mouth, Some right_mouth =>
      let face_height := norm (psub chin nose_tip) in
      let face_width := norm (psub right_eye left_eye) in
      let mouth_width := norm (psub right_mouth left_mouth) in
      let mouth_face_ratio := (mouth_width / (face_height + 1e-6))%R in
      let width_height_ratio := (face_width / (face_height + 1e-6))%R in
      let entry :=
        {| ge_face_height := face_height; ge_face_width := face_width;
           ge_mouth_width := mouth_width;
           ge_mouth_face_ratio := mouth_face_ratio;
           ge_width_height_ratio := width_height_ratio |} in
      let d' :=
        {| history_size := history_size d; use_mediapipe := use_mediapipe d;
           frame_history := frame_history d;
           blink_history := blink_history d;
           face_geometry_history :=
             push_history (history_size d) (face_geometry_history d) entry |} in
      (d',
       Some {| ga_face_height := face_height; ga_face_width := face_width;
               ga_mouth_face_ratio := mouth_face_ratio;
               ga_width_height_ratio := width_height_ratio;
               ga_geometry_consistency_score :=
                 _analyze_geometry_consistency (face_geometry_history d') |})
  | _, _, _, _, _, _ => (d, None)
  end.

(** The loop of [analyze_temporal_consistency] over consecutive frames of
    the history: the mean absolute grayscale difference of each pair. *)
Fixpoint frame_differences (prev : Frame) (rest : list Frame) : option (list R) :=
  match rest with
  | [] => Some []
  | curr :: rest' =>
      prev_gray ← gray_of prev;
      curr_gray ← gray_of curr;
      diff ← absdiff prev_gray curr_gray;
      diffs ← frame_differences curr rest';
      Some (mean_gray diff :: diffs)
  end.

(** [analyze_temporal_consistency] *)
Definition analyze_temporal_consistency (d : Detector) (frame : Frame)
    : Detector * option TemporalAnalysis :=
  let d' :=
    {| history_size := history_size d; use_mediapipe := use_mediapipe d;
       frame_history := push_history (history_size d) (frame_history d) frame;
       blink_history := blink_history d;
       face_geometry_history := face_geometry_history d |} in
  if bool_decide (length (frame_history d') < 3)%nat
  then (d', Some {| ta_temporal_anomaly := 0.0;
                    ta_mean_frame_difference := None;
                    ta_frame_difference_variance := None |})
  else
    (d',
     frame_diffs ←
       match frame_history d' with
       | [] => Some []
       | first :: rest => frame_differences first rest
       end;
     let anomaly_score :=
       if bool_decide (1 < length frame_diffs)%nat
       then clip (var frame_diffs / 1000.0) 0 1
       else 0.0%R in
     Some {| ta_temporal_anomaly := anomaly_score;
             ta_mean_frame_difference :=
               Some (match frame_diffs with [] => 0.0%R | _ => mean frame_diffs end);
             ta_frame_difference_variance :=
               Some (if bool_decide (0 < length frame_diffs)%nat
                     then var frame_diffs else 0.0%R) |}).

(** [process_frame]: the reachable path (the block after the first [except]
    clause of the source never runs). *)
Definition process_frame (d : Detector) (frame : option Frame)
    : Detector * FrameAnalysis :=
  let no_face :=
    {| face_detected := false; deepfake_score := 0.0%R;
       is_likely_deepfake := None; indicators := NoIndicators |} in
  let failed :=
    {| face_detected := false; deepfake_score := 0.0%R;
       is_likely_deepfake := None; indicators := ErrorIndicators |} in
  match frame with
  | None => (d, no_face)
  | Some frame =>
      if bool_decide (frame_size frame = 0%N) then (d, no_face)
      else if negb (bool_decide (0 < length (detect_faces_cascade frame))%nat)
      then (d, no_face)
      else
        match rgb_converts frame with
        | false => (d, failed)
        | true =>
            let landmarks :=
              if use_mediapipe d then
                let '(h, w) := frame_shape frame in
                (fun lm => map (fun p : Point =>
                                  let '(x, y, z) := p in
                                  (x * IZR w, y * IZR h, z)%R) lm)
                  <$> face_mesh_landmarks frame
              else None in
            match landmarks with
            | None =>
                let texture_analysis := analyze_micro_textures frame None in
                let deepfake_score_ :=
                  (ta_anomaly_score texture_analysis * 0.5 + 0.2)%R in
                (d, {| face_detected := true;
                       deepfake_score := clip deepfake_score_ 0 1;
                       is_likely_deepfake := Some (Rgtb deepfake_score_ 0.6);
                       indicators := LimitedIndicators texture_analysis |})
            | Some landmarks =>
                match face_region_of (frame_shape frame) landmarks with
                | None => (d, failed)
                | Some face_region =>
                    let texture_analysis :=
                      analyze_micro_textures frame (Some face_region) in
                    match analyze_blink_patterns d landmarks with
                    | (d1, None) => (d1, failed)
                    | (d1, Some blink_analysis) =>
                    match analyze_face_geometry d1 landmarks with
                    | (d2, None) => (d2, failed)
                    | (d2, Some geometry_analysis) =>
                    match analyze_temporal_consistency d2 frame with
                    | (d3, None) => (d3, failed)
                    | (d3, Some temporal_analysis) =>
                        let deepfake_score_ :=
                          (ta_anomaly_score texture_analysis * 0.35
                           + ba_blink_pattern_anomaly blink_analysis * 0.25
                           + ga_geometry_consistency_score geometry_analysis * 0.2
                           + ta_temporal_anomaly temporal_analysis * 0.2)%R in
                        (d3, {| face_detected := true;
                                deepfake_score := clip deepfake_score_ 0 1;
                                is_likely_deepfake := Some (Rgtb deepfake_score_ 0.5);
                                indicators :=
                                  FullIndicators texture_analysis blink_analysis
                                    geometry_analysis temporal_analysis |})
                    end end end
                end
            end
        end
  end.

(** A session: the uploaded frames go through [process_frame] one after
    the other, each on the state the previous one left. *)
Definition process_frames (d : Detector) (frames : list (option Frame)) : Detector :=
  foldl (fun d frame => fst (process_frame d frame)) d frames.

(** The three histories respect the configured capacity. *)
Definition bounded_histories (d : Detector) : Prop :=
  (Z.of_nat (length (blink_history d)) <= history_size d)%Z
  /\ (Z.of_nat (length (face_geometry_history d)) <= history_size d)%Z
  /\ (Z.of_nat (length (frame_history d)) <= history_size d)%Z.

End Frames.

End Deepfake.

(** ** Specification-level definitions *)

(** The cascade as the specification words it: each level counts how many
    of its indicators hold. *)
Definition holding (conditions : list bool) : nat :=
  length (filter (fun b => b = true) conditions).

Definition severity_cascade (deepfake_score liveness_score : R)
    (indicators : gmap string pyval) : Alerting.AlertSeverity :=
  let anomaly key := py_num (dict_get indicators key (PyFloat 0)) in
  let face_not_detected :=
    py_truthy (dict_get indicators "face_not_detected" (PyBool false)) in
  if Rgtb deepfake_score 0.85
     || bool_decide (2 <= holding
          [ Rgtb deepfake_score 0.85;
            Rltb liveness_score 0.2;
            Rgtb (anomaly "blink_pattern_anomaly") 0.8;
            Rgtb (anomaly "texture_anomaly") 0.9;
            face_not_detected ])%nat
  then Alerting.CRITICAL
  else if Rgtb deepfake_score 0.75
          || bool_decide (2 <= holding
               [ Rgtb deepfake_score 0.7;
                 Rltb liveness_score 0.35;
                 Rgtb (anomaly "texture_anomaly") 0.7;
                 Rgtb (anomaly "geometry_inconsistency") 0.8 ])%nat
  then Alerting.HIGH
  else if bool_decide (1 <= holding
               [ Rgtb deepfake_score 0.55;
                 Rltb liveness_score 0.5;
                 Rgtb (anomaly "temporal_anomaly") 0.6 ])%nat
  then Alerting.MEDIUM
  else Alerting.LOW.

(** How one call may change a history: not at all, or by one push. *)
Definition pushed_at_most_once {A : Type} (hs : Z) (before after : list A) : Prop :=
  after = before \/ exists x, after = Deepfake.push_history hs before x.

(** A value of the closed unit interval. *)
Definition in_unit (x : R) : Prop := (0 <= x <= 1)%R.

(** The texture dictionary holds unit-interval scores, measured or default. *)
Definition texture_scores_unit (t : Deepfake.TextureAnalysis) : Prop :=
  in_unit (Deepfake.ta_anomaly_score t)
  /\ in_unit (Deepfake.ta_smoothness_score t)
  /\ in_unit (Deepfake.ta_boundary_artifacts_confidence t)
  /\ in_unit (Deepfake.ta_compression_artifacts_confidence t).

(** The sum of the squares of a sequence. *)
Definition sumsq (l : list R) : R := Rsum (map (fun x => x * x)%R l).

(** The correlation of a sequence with itself at lag [k]: the sum over [i]
    of [a[i + k] * a[i]]. *)
Definition autocorrelation (a : list R) (k : nat) : R :=
  Rsum (zip_with Rmult (drop k a) a).

(** The peak of the normalised self-correlation over the lags from 10 up to
    but excluding [min(50, len(a))]. *)
Definition periodicity_peak (a : list R) : option R :=
  np_max (map (fun k => (autocorrelation a k / autocorrelation a 0)%R)
              (seq 10 (Nat.min 50 (length a) - 10))).

(** ** Sample data *)

(** An alert that an operator has already acknowledged. *)
Definition acknowledged_alert : Alerting.Alert :=
  {| Alerting.alert_id := "s_t0";
     Alerting.alert_type := Alerting.FACE_NOT_DETECTED;
     Alerting.severity := Alerting.MEDIUM;
     Alerting.timestamp := "t0";
     Alerting.user_id := None;
     Alerting.session_id := "s";
     Alerting.message := "Test alert";
     Alerting.details := Alerting.PlainDetails [];
     Alerting.status := "acknowledged";
     Alerting.acknowledged_at := Some "t1";
     Alerting.acknowledged_by := Some "operator-1" |}.

(** What OpenCV might measure on a softly textured face crop. *)
Definition soft_texture : Deepfake.TextureMeasurements :=
  {| Deepfake.tm_crop_shape := (384, 512)%Z;
     Deepfake.tm_laplacian_variance := 500;
     Deepfake.tm_edge_density := 0.1;
     Deepfake.tm_median_diff_mean := 0;
     Deepfake.tm_border_variances := [50; 50; 50; 50]%R;
     Deepfake.tm_block_artifacts := 0 |}.

(** A deployment without MediaPipe: one 640x480 frame on which the cascade
    finds a face and OpenCV measures [soft_texture]. *)
Definition cascade_only_frame : Deepfake.FrameAnalysis :=
  snd (Deepfake.process_frame unit
         (fun _ => 921600%N)
         (fun _ => (480, 640)%Z)
         (fun _ => Some [[0%N]])
         (fun _ => true)
         (fun _ => [(220, 140, 200, 200)%Z])
         (fun _ => None)
         (fun _ _ => Some soft_texture)
         (Deepfake.init unit 30 false)
         (Some tt)).

(** A face mesh of 468 landmarks, all at the centre of the frame. *)
Definition flat_landmarks : list Point := replicate 468 (0.5, 0.5, 0)%R.

(** Twenty blink samples, constant but for a ten-millionth on the first. *)
Definition nearly_flat_history : list R := 0.3000001%R :: replicate 19 0.3%R.

(** ** The alerting service: statistics, escalation and dispatch *)

Module Escalation.

Import Alerting.

#[global] Instance AlertSeverity_eq_dec : EqDecision AlertSeverity.
Proof. solve_decision. Defined.

#[global] Instance AlertType_eq_dec : EqDecision AlertType.
Proof. solve_decision. Defined.

(** The members of the two enumerations, in declaration order, and their
    values. *)
Definition all_severities : list AlertSeverity := [LOW; MEDIUM; HIGH; CRITICAL].

Definition all_alert_types : list AlertType :=
  [ DEEPFAKE_DETECTED; LIVENESS_FAILED; UNUSUAL_GEOMETRY; TEXTURE_ANOMALY;
    BLINK_PATTERN_ANOMALY; TEMPORAL_INCONSISTENCY; FACE_NOT_DETECTED;
    MULTIPLE_FACES ].

Definition severity_value (s : AlertSeverity) : string :=
  match s with
  | LOW => "low"
  | MEDIUM => "medium"
  | HIGH => "high"
  | CRITICAL => "critical"
  end.

Definition alert_type_value (t : AlertType) : string :=
  match t with
  | DEEPFAKE_DETECTED => "deepfake_detected"
  | LIVENESS_FAILED => "liveness_failed"
  | UNUSUAL_GEOMETRY => "unusual_geometry"
  | TEXTURE_ANOMALY => "texture_anomaly"
  | BLINK_PATTERN_ANOMALY => "blink_pattern_anomaly"
  | TEMPORAL_INCONSISTENCY => "temporal_inconsistency"
  | FACE_NOT_DETECTED => "face_not_detected"
  | MULTIPLE_FACES => "multiple_faces"
  end.

(** The dictionary [get_alert_statistics] returns; the two inner
    dictionaries are filled in enumeration order. *)
Record AlertStatistics : Type := {
  total_alerts : nat;
  active_alerts : nat;
  by_severity : list (string * nat);
  by_type : list (string * nat)
}.

(** [get_alert_statistics] *)
Definition get_alert_statistics (s : Service) : AlertStatistics :=
  {| total_alerts := length (alerts s);
     active_alerts := length (filter (fun a => status a = "active") (alerts s));
     by_severity :=
       map (fun sev =>
              (severity_value sev,
               length (filter (fun a => severity a = sev) (alerts s))))
           all_severities;
     by_type :=
       map (fun ty =>
              (alert_type_value ty,
               length (filter (fun a => alert_type a = ty) (alerts s))))
           all_alert_types |}.

(** One entry of the escalation table; a key the source leaves out of an
    entry is [None]. *)
Record Policy : Type := {
  channels : list string;
  recipients : option (list string);
  phone_numbers : option (list string);
  delay : Z;
  escalate_after : option Z;
  page : option bool
}.

(** [_initialize_escalation_policies] *)
Definition _initialize_escalation_policies : list (AlertSeverity * Policy) :=
  [ (LOW,
     {| channels := ["log"]; recipients := None; phone_numbers := None;
        delay := 0; escalate_after := Some 3600%Z; page := None |});
    (MEDIUM,
     {| channels := ["log"; "email"];
        recipients := Some ["compliance@institution.com"];
        phone_numbers := None;
        delay := 0; escalate_after := Some 600%Z; page := None |});
    (HIGH,
     {| channels := ["log"; "email"; "slack"];
        recipients := Some ["fraud-team@institution.com";
                            "operations@institution.com"];
        phone_numbers := None;
        delay := 0; escalate_after := Some 300%Z; page := None |});
    (CRITICAL,
     {| channels := ["log"; "email"; "slack"; "sms"];
        recipients := Some ["fraud-head@institution.com";
                            "ciso@institution.com"];
        phone_numbers := Some ["+1234567890"];
        delay := 0; escalate_after := None; page := Some true |}) ].

(** [policies.get(severity, default)] *)
Definition policy_get (policies : list (AlertSeverity * Policy))
    (sev : AlertSeverity) (dflt : Policy) : Policy :=
  match list_find (fun entry => fst entry = sev) policies with
  | Some (_, (_, policy)) => policy
  | None => dflt
  end.

(** The constructor arguments of [SpoofAlertingService]; [email_config] is
    the dictionary's items ([None] becomes the empty dictionary). *)
Record Channels : Type := {
  email_config : list (string * string);
  slack_webhook : option string;
  database_path : option string
}.

(** [SpoofAlertingService()], as the application constructs it. *)
Definition default_channels : Channels :=
  {| email_config := []; slack_webhook := None; database_path := None |}.

(** Truthiness of an optional string: neither [None] nor empty. *)
Definition str_truthy (o : option string) : bool :=
  match o with
  | Some s => negb (bool_decide (s = ""))
  | None => false
  end.

(** What a dispatch writes to the log, one entry per logger call. *)
Inductive Emission : Type :=
  | AlertLogged (a : Alert)
  | EmailWouldBeSent (to : list string) (a : Alert)
  | SlackWouldBeSent (a : Alert)
  | SmsWouldBeSent (to : list string) (a : Alert)
  | ChannelError (channel : string)
  | LoggedToDatabase (a : Alert).

Section Dispatch.

(** [json.dumps(alert.details, indent=2)]; [None] when the payload is not
    serialisable. *)
Variable json_dumps : Details -> option string.

Variable config : Channels.

(** [_send_email_alert]; [None] stands for an exception. *)
Definition _send_email_alert (alert : Alert) (to : list string)
    : option (list Emission) :=
  if bool_decide (email_config config = []) || bool_decide (to = [])
  then Some []
  else
    body ← json_dumps (details alert);
    Some [EmailWouldBeSent to alert].

(** [_send_slack_alert] *)
Definition _send_slack_alert (alert : Alert) : option (list Emission) :=
  if negb (str_truthy (slack_webhook config)) then Some []
  else Some [SlackWouldBeSent alert].

(** [_send_sms_alert] *)
Definition _send_sms_alert (alert : Alert) (to : list string)
    : option (list Emission) :=
  if bool_decide (to = []) then Some []
  else Some [SmsWouldBeSent to alert].

(** One round of the loop of [_send_notifications]: a failing channel is
    logged and the loop goes on. *)
Definition send_on_channel (alert : Alert) (policy : Policy) (channel : string)
    : list Emission :=
  let outcome :=
    if bool_decide (channel = "log") then Some [AlertLogged alert]
    else if bool_decide (channel = "email")
    then _send_email_alert alert (default [] (recipients policy))
    else if bool_decide (channel = "slack") then _send_slack_alert alert
    else if bool_decide (channel = "sms")
    then _send_sms_alert alert (default [] (phone_numbers policy))
    else Some [] in
  default [ChannelError channel] outcome.

(** [_send_notifications] *)
Definition _send_notifications (alert : Alert) (policy : Policy) : list Emission :=
  concat (map (send_on_channel alert policy) (channels policy)).

(** The body of the loop of [_process_alerts] once an alert is at hand. *)
Definition dispatch (alert : Alert) : list Emission :=
  let policies := _initialize_escalation_policies in
  let policy :=
    policy_get policies (severity alert)
      (policy_get policies LOW
         {| channels := []; recipients := None; phone_numbers := None;
            delay := 0; escalate_after := None; page := None |}) in
  _send_notifications alert policy
  ++ (if str_truthy (database_path config) then [LoggedToDatabase alert] else []).

(** One iteration of [_process_alerts]: take the oldest queued alert, if
    any, and dispatch it.  The queue holds references into the history. *)
Definition process_next (s : Service) : Service * list Emission :=
  match alert_queue s with
  | [] => (s, [])
  | i :: rest =>
      ({| alerts := alerts s; alert_queue := rest; clock := clock s |},
       match alerts s !! i with
       | Some alert => dispatch alert
       | None => []
       end)
  end.

(** The worker running until it has taken [n] turns. *)
Fixpoint process_many (n : nat) (s : Service) : Service * list Emission :=
  match n with
  | O => (s, [])
  | S n' =>
      let '(s1, out1) := process_next s in
      let '(s2, out2) := process_many n' s1 in
      (s2, (out1 ++ out2)%list)
  end.

End Dispatch.

(** The position of a severity in the escalation order. *)
Definition severity_rank (s : AlertSeverity) : nat :=
  match s with
  | LOW => 0
  | MEDIUM => 1
  | HIGH => 2
  | CRITICAL => 3
  end.

End Escalation.

(** The worker has dispatched the first [dispatched] alerts of the history
    and the queue holds the others, oldest first. *)
Definition queue_from (dispatched : nat) (s : Alerting.Service) : Prop :=
  Alerting.alert_queue s
  = seq dispatched (length (Alerting.alerts s) - dispatched)
  /\ (dispatched <= length (Alerting.alerts s))%nat.

(** A service holding one alert that is still queued. *)
Definition one_pending_alert : Alerting.Service :=
  fst (Alerting.create_alert (fun _ => "2024-01-01T00:00:00") Alerting.init
         Alerting.FACE_NOT_DETECTED "session-1" Alerting.MEDIUM
         "Face not detected in frame" (Alerting.PlainDetails []) None).

(** ** The liveness detector: session confidence and reset *)

Module LivenessSession.

Import Liveness.


(** [reset] *)
Definition reset (d : Detector) : Detector :=
  {| confidence_threshold := confidence_threshold d;
     use_mediapipe := use_mediapipe d;
     prev_frame_landmarks := None |}.

End LivenessSession.

(** ** Face rectangles of the Haar cascade (both detectors) *)

Module FaceCascade.

(** The sort key [f[2] * f[3]] *)
Definition area (f : Rect) : Z := let '(_, _, w, h) := f in (w * h)%Z.

(** [sorted(faces, key=area, reverse=True)]: a stable sort, so faces of equal
    area keep their order. *)
Fixpoint insert_by_area (f : Rect) (sorted : list Rect) : list Rect :=
  match sorted with
  | [] => [f]
  | g :: rest =>
      if bool_decide (area g < area f)%Z then f :: sorted
      else g :: insert_by_area f rest
  end.

Definition sorted_by_area (faces : list Rect) : list Rect :=
  foldl (fun acc f => insert_by_area f acc) [] faces.

(** The overlap test of the inner loop *)
Definition overlaps (face kept : Rect) : bool :=
  let '(x, y, w, h) := face in
  let '(ux, uy, uw, uh) := kept in
  let overlap :=
    ((Z.min (x + w) (ux + uw) - Z.max x ux)
     * (Z.min (y + h) (uy + uh) - Z.max y uy))%Z in
  Rgtb (IZR overlap) (IZR (w * h) * 0.3).

(** [_remove_duplicate_faces] *)
Definition _remove_duplicate_faces (faces : list Rect) : list Rect :=
  if bool_decide (length faces <= 1)%nat then faces
  else
    match sorted_by_area faces with
    | [] => []
    | first :: others =>
        let unique_faces :=
          foldl (fun unique face =>
                   let is_duplicate := existsb (overlaps face) unique in
                   if is_duplicate then unique else (unique ++ [face])%list)
                [first] others in
        take 1 unique_faces
    end.

Section Cascade.

Variable Frame : Type.

(** [face_cascade.detectMultiScale] on the equalised grayscale frame at one
    scale factor; [None] when the conversion or the detection raises. *)
Variable detect_multi_scale : Frame -> R -> option (list Rect).

(** [detect_faces_cascade] *)
Definition detect_faces_cascade (frame : Frame) : list Rect :=
  match
    mapM (detect_multi_scale frame) [1.05; 1.1; 1.2]%R
  with
  | Some detections =>
      let faces := concat detections in
      match faces with
      | [] => faces
      | _ => _remove_duplicate_faces faces
      end
  | None => []
  end.

End Cascade.

End FaceCascade.

(** The head of a list of faces is at least as large as every face of it. *)
Definition head_largest (l : list Rect) : Prop :=
  match l with
  | [] => True
  | g :: _ => Forall (fun x => (FaceCascade.area x <= FaceCascade.area g)%Z) l
  end.

(** ** Video files ([video_processor.py]) *)

Module VideoProcessor.

Record Processor : Type := {
  target_fps : Z;
  target_resolution : Z * Z
}.

(** [VideoProcessor.__init__] with its default arguments *)
Definition init : Processor :=
  {| target_fps := 30; target_resolution := (640, 480)%Z |}.

(** [a / b] on Python numbers: raises ([None]) when the divisor is zero. *)
Definition py_div (a b : R) : option R :=
  if bool_decide (b = 0%R) then None else Some (a / b)%R.

(** Where [resize_frame] puts the resized image on the canvas. *)
Record Placement : Type := {
  new_w : Z;
  new_h : Z;
  x_offset : Z;
  y_offset : Z
}.

(** The arithmetic of [resize_frame]: from [frame.shape[:2]] and the target
    resolution to the size of the resized image and its offsets. *)
Definition placement (shape : Z * Z) (target : Z * Z) : option Placement :=
  let '(h, w) := shape in
  let '(target_w, target_h) := target in
  aspect_ratio ← py_div (IZR w) (IZR h);
  target_aspect ← py_div (IZR target_w) (IZR target_h);
  dims ← (if Rgtb aspect_ratio target_aspect then
            scaled ← py_div (IZR target_w) aspect_ratio;
            Some (target_w, py_int scaled)
          else
            Some (py_int (IZR target_h * aspect_ratio), target_h));
  let '(new_w_, new_h_) := dims in
  Some {| new_w := new_w_;
          new_h := new_h_;
          x_offset := ((target_w - new_w_) / 2)%Z;
          y_offset := ((target_h - new_h_) / 2)%Z |}.

(** [cap.get(prop)] is asked for these four properties. *)
Inductive CapProp : Type :=
  | CAP_PROP_FPS
  | CAP_PROP_FRAME_COUNT
  | CAP_PROP_FRAME_WIDTH
  | CAP_PROP_FRAME_HEIGHT.

(** [get_video_metadata]'s dictionary *)
Record Metadata : Type := {
  fps : R;
  frame_count : Z;
  resolution : Z * Z;
  duration : R
}.

Section Video.

Variable Frame : Type.

(** [frame.shape[:2]]: height, width. *)
Variable frame_shape : Frame -> Z * Z.

(** [cv2.resize(frame, (new_w, new_h), interpolation=cv2.INTER_LINEAR)];
    [None] when OpenCV raises. *)
Variable cv2_resize : Frame -> Z -> Z -> option Frame.

(** The black canvas [np.zeros((target_h, target_w, 3))] with the resized
    image assigned to the slice that starts at [(y_offset, x_offset)];
    [None] when NumPy raises. *)
Variable paste : Z * Z -> Frame -> Z -> Z -> option Frame.

(** [resize_frame]; [None] when it raises. *)
Definition resize_frame (p : Processor) (frame : Frame)
    (target : option (Z * Z)) : option Frame :=
  let target := default (target_resolution p) target in
  pl ← placement (frame_shape frame) target;
  resized ← cv2_resize frame (new_w pl) (new_h pl);
  paste target resized (y_offset pl) (x_offset pl).

(** An opened [cv2.VideoCapture]: whether it is open, what [cap.get]
    answers ([None] when the call or the conversion of its answer raises),
    and the frames [cap.read()] delivers before it reports the end. *)
Record Capture : Type := {
  isOpened : bool;
  cap_get : CapProp -> option R;
  cap_read : list Frame
}.

(** [cv2.VideoCapture(video_path)]; [None] when it raises. *)
Variable VideoCapture : string -> option Capture.

(** The [while True] loop of [extract_frames]; an exception (the division
    by a zero [sample_rate], a failing resize) leaves the loop with the
    frames collected so far. *)
Fixpoint extract_loop (p : Processor) (sample_rate : Z) (pending : list Frame)
    (count : Z) (frames : list Frame) : list Frame :=
  match pending with
  | [] => frames
  | frame :: pending' =>
      if bool_decide (sample_rate = 0)%Z then frames
      else if bool_decide (count `mod` sample_rate = 0)%Z then
        match resize_frame p frame None with
        | Some resized =>
            extract_loop p sample_rate pending' (count + 1)%Z
              (frames ++ [resized])%list
        | None => frames
        end
      else extract_loop p sample_rate pending' (count + 1)%Z frames
  end.

(** [extract_frames] *)
Definition extract_frames (p : Processor) (video_path : string)
    (sample_rate : Z) : list Frame :=
  match VideoCapture video_path with
  | None => []
  | Some cap =>
      if negb (isOpened cap) then []
      else
        match cap_get cap CAP_PROP_FPS with
        | None => []
        | Some _ => extract_loop p sample_rate (cap_read cap) 0 []
        end
  end.

(** [get_video_metadata]: each assignment made before an exception stays
    in the dictionary that is returned. *)
Definition get_video_metadata (video_path : string) : Metadata :=
  let metadata :=
    {| fps := 0; frame_count := 0; resolution := (0, 0)%Z; duration := 0.0 |} in
  match VideoCapture video_path with
  | None => metadata
  | Some cap =>
      if isOpened cap then
        match cap_get cap CAP_PROP_FPS with
        | None => metadata
        | Some fps_ =>
            let metadata :=
              {| fps := fps_; frame_count := frame_count metadata;
                 resolution := resolution metadata;
                 duration := duration metadata |} in
            match cap_get cap CAP_PROP_FRAME_COUNT with
            | None => metadata
            | Some count =>
                let metadata :=
                  {| fps := fps metadata; frame_count := py_int count;
                     resolution := resolution metadata;
                     duration := duration metadata |} in
                match cap_get cap CAP_PROP_FRAME_WIDTH,
                      cap_get cap CAP_PROP_FRAME_HEIGHT with
                | Some width, Some height =>
                    let metadata :=
                      {| fps := fps metadata;
                         frame_count := frame_count metadata;
                         resolution := (py_int width, py_int height);
                         duration := duration metadata |} in
                    if Rgtb (fps metadata) 0 then
                      {| fps := fps metadata;
                         frame_count := frame_count metadata;
                         resolution := resolution metadata;
                         duration :=
                           (IZR (frame_count metadata) / fps metadata)%R |}
                    else metadata
                | _, _ => metadata
                end
            end
        end
      else metadata
  end.

(** [validate_video] *)
Definition validate_video (video_path : string) : bool * string :=
  let metadata := get_video_metadata video_path in
  if Rltb (duration metadata) 3 then
    (false, "Video too short (minimum 3 seconds)")
  else if Rgtb (duration metadata) 60 then
    (false, "Video too long (maximum 60 seconds)")
  else if bool_decide (frame_count metadata < 30)%Z then
    (false, "Insufficient frames")
  else if bool_decide (fst (resolution metadata) < 320)%Z
          || bool_decide (snd (resolution metadata) < 240)%Z then
    (false, "Video resolution too low")
  else if Rltb (fps metadata) 15 then
    (false, "Video frame rate too low")
  else (true, "Video validation passed").

End Video.

Arguments isOpened {Frame} _.
Arguments cap_get {Frame} _ _.
Arguments cap_read {Frame} _.

(** Every [sample_rate]-th frame of [pending], the first being the one
    whose number [count] is a multiple of [sample_rate]. *)
Fixpoint sampled {A : Type} (sample_rate : Z) (count : Z) (pending : list A)
    : list A :=
  match pending with
  | [] => []
  | frame :: pending' =>
      if bool_decide (count `mod` sample_rate = 0)%Z
      then frame :: sampled sample_rate (count + 1)%Z pending'
      else sampled sample_rate (count + 1)%Z pending'
  end.

End VideoProcessor.

(** A ten-second clip: 300 frames of 640 by 480 at 30 frames a second. *)
Definition ten_second_clip : VideoProcessor.Capture unit :=
  {| VideoProcessor.isOpened := true;
     VideoProcessor.cap_get := fun prop =>
       match prop with
       | VideoProcessor.CAP_PROP_FPS => Some 30%R
       | VideoProcessor.CAP_PROP_FRAME_COUNT => Some 300%R
       | VideoProcessor.CAP_PROP_FRAME_WIDTH => Some 640%R
       | VideoProcessor.CAP_PROP_FRAME_HEIGHT => Some 480%R
       end;
     VideoProcessor.cap_read := replicate 300 tt |}.

(** ** The verification endpoint ([app.py]) *)

Module App.

(** One entry of a session's [frame_analysis] list. *)
Record FrameEntry : Type := {
  liveness : Liveness.FrameResult;
  deepfake : Deepfake.FrameAnalysis;
  timestamp : string
}.

(** A session dictionary of [active_sessions]: the keys the verification
    endpoint reads or writes.  [frame_analysis] is absent until the first
    frame is analysed, [verification_result] until the session is
    completed. *)
Record Session : Type := {
  user_id : string;
  session_id : string;
  status : string;
  created_at : string;
  frame_analysis : option (list FrameEntry);
  verification_result : option Alerting.VerificationResult
}.

(** The module-level state the endpoint works on. *)
Record State : Type := {
  active_sessions : gmap string Session;
  spoof_alerter : Alerting.Service
}.

(** What a handler returns: the verification result with status 200, an
    error message with status 400, or status 500 with the text of the
    exception caught. *)
Inductive Response : Type :=
  | Ok200 (body : Alerting.VerificationResult)
  | BadRequest400 (error : string)
  | ServerError500.

(** [jsonify(verification_result)].  The alerts of a result are the
    [asdict(alert)] dictionaries, which keep the [AlertType] and
    [AlertSeverity] members; these are plain [Enum] members, which the JSON
    encoder rejects, so the call raises ([None]) as soon as the result
    carries an alert. *)
Definition jsonify (result : Alerting.VerificationResult)
    : option Alerting.VerificationResult :=
  match Alerting.vr_alerts result with
  | [] => Some result
  | _ :: _ => None
  end.

(** The aggregate scores of [complete_verification]: the mean over the
    frames in which the detector found a face, [0] when there is none. *)
Definition avg_liveness (analysis : list FrameEntry) : R :=
  let liveness_scores :=
    map (fun f => Liveness.liveness_score (liveness f))
        (filter (fun f => Liveness.face_detected (liveness f) = true) analysis) in
  match liveness_scores with
  | [] => 0%R
  | _ => mean liveness_scores
  end.

Definition avg_deepfake (analysis : list FrameEntry) : R :=
  let deepfake_scores :=
    map (fun f => Deepfake.deepfake_score (deepfake f))
        (filter (fun f => Deepfake.face_detected (deepfake f) = true) analysis) in
  match deepfake_scores with
  | [] => 0%R
  | _ => mean deepfake_scores
  end.

Definition deepfake_analysis_of (analysis : list FrameEntry)
    : Alerting.DeepfakeAnalysis :=
  {| Alerting.da_deepfake_score := Some (avg_deepfake analysis);
     Alerting.da_face_detected :=
       Some (bool_decide
               (0 < length (filter (fun f => Deepfake.face_detected (deepfake f) = true)
                              analysis))%nat);
     Alerting.da_indicators := Some ∅ |}.

Definition liveness_analysis_of (analysis : list FrameEntry)
    : Alerting.LivenessAnalysis :=
  {| Alerting.la_liveness_score := Some (avg_liveness analysis);
     Alerting.la_face_detected :=
       Some (bool_decide
               (0 < length (filter (fun f => Liveness.face_detected (liveness f) = true)
                              analysis))%nat) |}.

Section Handlers.

Variable now_iso : nat -> string.
Variable fmt2 : R -> string.

(** [complete_verification].  The request is its JSON body: [None] when
    there is no usable body (then [data.get] raises), otherwise the value
    under ["session_id"], if any.  The response is built last, inside the
    [try]: when [jsonify] raises, the alerts are already stored and the
    session already completed, and the handler answers 500. *)
Definition complete_verification (app : State) (data : option (option string))
    : State * Response :=
  match data with
  | None => (app, ServerError500)
  | Some None => (app, BadRequest400 "Invalid session_id")
  | Some (Some sid) =>
      match active_sessions app !! sid with
      | None => (app, BadRequest400 "Invalid session_id")
      | Some session =>
          match frame_analysis session with
          | None | Some [] => (app, BadRequest400 "No frames analyzed")
          | Some analysis =>
              let '(alerter, result) :=
                Alerting.evaluate_verification_result now_iso fmt2
                  (spoof_alerter app) sid (Some (user_id session))
                  (deepfake_analysis_of analysis)
                  (liveness_analysis_of analysis) in
              let session :=
                {| user_id := user_id session;
                   session_id := session_id session;
                   status := "completed";
                   created_at := created_at session;
                   frame_analysis := frame_analysis session;
                   verification_result := Some result |} in
              ({| active_sessions := <[sid := session]> (active_sessions app);
                  spoof_alerter := alerter |},
               match jsonify result with
               | Some body => Ok200 body
               | None => ServerError500
               end)
          end
      end
  end.

End Handlers.

End App.

(** Three analysed frames: one in which both detectors saw a live face, one
    that the deepfake detector scored 0.9, one in which neither detector saw
    a face. *)
Definition live_entry : App.FrameEntry :=
  {| App.liveness :=
       {| Liveness.face_detected := true; Liveness.liveness_score := 0.8%R;
          Liveness.is_likely_live := Some true;
          Liveness.detections := Liveness.NoDetections |};
     App.deepfake :=
       {| Deepfake.face_detected := true; Deepfake.deepfake_score := 0.2%R;
          Deepfake.is_likely_deepfake := Some false;
          Deepfake.indicators := Deepfake.NoIndicators |};
     App.timestamp := "2024-01-01T00:00:00" |}.

Definition forged_entry : App.FrameEntry :=
  {| App.liveness :=
       {| Liveness.face_detected := true; Liveness.liveness_score := 0.3%R;
          Liveness.is_likely_live := Some false;
          Liveness.detections := Liveness.NoDetections |};
     App.deepfake :=
       {| Deepfake.face_detected := true; Deepfake.deepfake_score := 0.9%R;
          Deepfake.is_likely_deepfake := Some true;
          Deepfake.indicators := Deepfake.NoIndicators |};
     App.timestamp := "2024-01-01T00:00:00" |}.

Definition faceless_entry : App.FrameEntry :=
  {| App.liveness :=
       {| Liveness.face_detected := false; Liveness.liveness_score := 0.0%R;
          Liveness.is_likely_live := None;
          Liveness.detections := Liveness.NoDetections |};
     App.deepfake :=
       {| Deepfake.face_detected := false; Deepfake.deepfake_score := 0.0%R;
          Deepfake.is_likely_deepfake := None;
          Deepfake.indicators := Deepfake.NoIndicators |};
     App.timestamp := "2024-01-01T00:00:01" |}.

(** An active session holding the given analysed frames, and a server whose
    only session it is. *)
Definition session_with (analysis : list App.FrameEntry) : App.Session :=
  {| App.user_id := "user-1";
     App.session_id := "session-1";
     App.status := "active";
     App.created_at := "2024-01-01T00:00:00";
     App.frame_analysis := Some analysis;
     App.verification_result := None |}.

Definition server_with (analysis : list App.FrameEntry) : App.State :=
  {| App.active_sessions := <["session-1" := session_with analysis]> ∅;
     App.spoof_alerter := Alerting.init |}.

(** * Properties *)

Open Scope list_scope.

(** ** Comparisons and clipping *)

Lemma Rgtb_true x y : Rgtb x y = true <-> (x > y)%R.
Proof. unfold Rgtb. apply bool_decide_eq_true. Qed.

Lemma Rgtb_false x y : Rgtb x y = false <-> (x <= y)%R.
Proof.
  unfold Rgtb. rewrite bool_decide_eq_false. split; intros H; lra.
Qed.

Lemma Rltb_true x y : Rltb x y = true <-> (x < y)%R.
Proof. unfold Rltb. apply bool_decide_eq_true. Qed.

Lemma Rltb_false x y : Rltb x y = false <-> (y <= x)%R.
Proof.
  unfold Rltb. rewrite bool_decide_eq_false. split; intros H; lra.
Qed.

Lemma Rgeb_true x y : Rgeb x y = true <-> (x >= y)%R.
Proof. unfold Rgeb. apply bool_decide_eq_true. Qed.

Lemma Rgeb_false x y : Rgeb x y = false <-> (x < y)%R.
Proof.
  unfold Rgeb. rewrite bool_decide_eq_false. split; intros H; lra.
Qed.

Lemma clip_range x lo hi : (lo <= hi)%R -> (lo <= clip x lo hi <= hi)%R.
Proof.
  intros H. unfold clip, Rmin, Rmax.
  repeat destruct (Rle_dec _ _); lra.
Qed.

Lemma clip_id x lo hi : (lo <= x <= hi)%R -> clip x lo hi = x.
Proof.
  intros H. unfold clip, Rmin, Rmax.
  repeat destruct (Rle_dec _ _); lra.
Qed.

Lemma clip_unit x : (0 <= clip x 0 1 <= 1)%R.
Proof. apply clip_range. lra. Qed.

(** Split on the outcome of one float comparison of the goal, keeping the
    ordering fact each outcome gives. *)
Ltac cmp_case :=
  match goal with
  | |- context [Rgtb ?x ?y] =>
      let E := fresh "E" in
      destruct (Rgtb x y) eqn:E;
      [apply Rgtb_true in E | apply Rgtb_false in E]
  | |- context [Rltb ?x ?y] =>
      let E := fresh "E" in
      destruct (Rltb x y) eqn:E;
      [apply Rltb_true in E | apply Rltb_false in E]
  | |- context [Rgeb ?x ?y] =>
      let E := fresh "E" in
      destruct (Rgeb x y) eqn:E;
      [apply Rgeb_true in E | apply Rgeb_false in E]
  end.

Ltac cmp_cases := repeat (cmp_case; simpl; try lra).

(** ** The severity classifier *)

(** The sum of a list of flags is the number of flags that hold. *)
Lemma py_sum_flags (flags : list bool) :
  py_sum (map PyBool flags) = INR (holding flags).
Proof.
  induction flags as [|b flags IH].
  - reflexivity.
  - change (py_sum (map PyBool (b :: flags)))
      with (py_num (PyBool b) + py_sum (map PyBool flags))%R.
    rewrite IH. unfold holding. destruct b; simpl py_num.
    + rewrite filter_cons_True by reflexivity.
      rewrite length_cons, S_INR. lra.
    + rewrite filter_cons_False by discriminate. lra.
Qed.

Lemma Rgeb_INR (n m : nat) : Rgeb (INR n) (INR m) = bool_decide (m <= n)%nat.
Proof.
  destruct (Rgeb (INR n) (INR m)) eqn:E.
  - apply Rgeb_true in E. symmetry. apply bool_decide_eq_true.
    apply INR_le. lra.
  - apply Rgeb_false in E. symmetry. apply bool_decide_eq_false.
    intros H. apply le_INR in H. lra.
Qed.

(** C2. For a deepfake score, a liveness score and an indicator map whose
    [face_not_detected] entry, when present, is a flag, the classifier is the
    priority cascade: CRITICAL when the deepfake score exceeds 0.85 or at
    least two critical indicators hold; otherwise HIGH when it exceeds 0.75
    or at least two high indicators hold; otherwise MEDIUM when at least one
    medium indicator holds; otherwise LOW. *)
Theorem determine_alert_severity_cascade
    (deepfake_score liveness_score : R) (indicators : gmap string pyval)
    (Hflag : forall v, indicators !! "face_not_detected" = Some v ->
                       exists b, v = PyBool b) :
  Alerting.determine_alert_severity deepfake_score liveness_score indicators
  = severity_cascade deepfake_score liveness_score indicators.
Proof.
  assert (Hface : exists b,
             dict_get indicators "face_not_detected" (PyBool false) = PyBool b).
  { unfold dict_get.
    destruct (indicators !! "face_not_detected") as [v|] eqn:E.
    - destruct (Hflag v eq_refl) as [b ->]. exists b. reflexivity.
    - exists false. reflexivity. }
  destruct Hface as [face Hface].
  unfold Alerting.determine_alert_severity, severity_cascade,
    Alerting.critical_indicators, Alerting.high_indicators,
    Alerting.medium_indicators.
  rewrite Hface. simpl py_truthy.
  change 2%R with (INR 2). change 1%R with (INR 1).
  repeat match goal with
  | |- context [py_sum [PyBool ?a; PyBool ?b; PyBool ?c; PyBool ?d; PyBool ?e]] =>
      change (py_sum [PyBool a; PyBool b; PyBool c; PyBool d; PyBool e])
        with (py_sum (map PyBool [a; b; c; d; e]))
  | |- context [py_sum [PyBool ?a; PyBool ?b; PyBool ?c; PyBool ?d]] =>
      change (py_sum [PyBool a; PyBool b; PyBool c; PyBool d])
        with (py_sum (map PyBool [a; b; c; d]))
  | |- context [py_sum [PyBool ?a; PyBool ?b; PyBool ?c]] =>
      change (py_sum [PyBool a; PyBool b; PyBool c])
        with (py_sum (map PyBool [a; b; c]))
  end.
  rewrite !py_sum_flags, !Rgeb_INR.
  rewrite !(orb_comm (bool_decide _)).
  reflexivity.
Qed.

Lemma determine_alert_severity_cascade_witness :
  (forall v, ({["face_not_detected" := PyBool true]} : gmap string pyval)
               !! "face_not_detected" = Some v -> exists b, v = PyBool b)
  /\ Alerting.determine_alert_severity 0.5 0.1
       {["face_not_detected" := PyBool true]}
     = severity_cascade 0.5 0.1 {["face_not_detected" := PyBool true]}.
Proof.
  assert (H : forall v, ({["face_not_detected" := PyBool true]} : gmap string pyval)
               !! "face_not_detected" = Some v -> exists b, v = PyBool b).
  { intros v Hv. rewrite lookup_singleton_eq in Hv.
    exists true. congruence. }
  split; [exact H | apply (determine_alert_severity_cascade _ _ _ H)].
Defined.

Ltac cmp_solve := cmp_cases; try reflexivity; try (exfalso; lra).

(** C3. On deepfake score 0.85, liveness score 0.1 and the empty indicator
    map the classifier answers HIGH (the score does not exceed 0.85 and only
    one critical indicator holds, while two high indicators do); on 0.4 and
    0.8 it answers LOW. *)
Theorem determine_alert_severity_examples :
  Alerting.determine_alert_severity 0.85 0.1 ∅ = Alerting.HIGH
  /\ Alerting.determine_alert_severity 0.4 0.8 ∅ = Alerting.LOW.
Proof.
  unfold Alerting.determine_alert_severity, Alerting.critical_indicators,
    Alerting.high_indicators, Alerting.medium_indicators, dict_get.
  rewrite !lookup_empty. simpl.
  split; cmp_solve.
Qed.

(** ** The verification adjudicator and the alert store *)

Section AlertingFacts.

Variable now_iso : nat -> string.
Variable fmt2 : R -> string.

Lemma create_alert_store s ty sid sev msg det uid :
  Alerting.alerts (fst (Alerting.create_alert now_iso s ty sid sev msg det uid))
  = Alerting.alerts s ++ [snd (Alerting.create_alert now_iso s ty sid sev msg det uid)].
Proof. reflexivity. Qed.

(** C1. Every evaluation runs the three checks one after the other, none
    hiding a later one: a deepfake score above 0.6 raises DEEPFAKE_DETECTED
    at the classified severity, a liveness score below 0.5 raises
    LIVENESS_FAILED at HIGH, no face raises FACE_NOT_DETECTED at MEDIUM; the
    raised alerts are appended to the store; the result is verified with
    status PASSED exactly when no alert was raised, and otherwise not
    verified with status FAILED and one reject recommendation per raised
    alert. *)
Theorem evaluate_verification_result_checks
    (s : Alerting.Service) (sid : string) (uid : option string)
    (da : Alerting.DeepfakeAnalysis) (la : Alerting.LivenessAnalysis) :
  let deepfake_score := default 0%R (Alerting.da_deepfake_score da) in
  let liveness_score := default 0%R (Alerting.la_liveness_score la) in
  let deepfake_check := Rgtb deepfake_score 0.6 in
  let liveness_check := Rltb liveness_score 0.5 in
  let face_check := negb (default false (Alerting.da_face_detected da)) in
  let out := Alerting.evaluate_verification_result now_iso fmt2 s sid uid da la in
  let result := snd out in
  let raised := Alerting.vr_alerts result in
  map (fun a => (Alerting.alert_type a, Alerting.severity a)) raised
  = (if deepfake_check
     then [(Alerting.DEEPFAKE_DETECTED,
            Alerting.determine_alert_severity deepfake_score liveness_score
              (default ∅ (Alerting.da_indicators da)))]
     else [])
    ++ (if liveness_check then [(Alerting.LIVENESS_FAILED, Alerting.HIGH)] else [])
    ++ (if face_check then [(Alerting.FACE_NOT_DETECTED, Alerting.MEDIUM)] else [])
  /\ Alerting.alerts (fst out) = Alerting.alerts s ++ raised
  /\ (Alerting.vr_verified result = true <-> raised = [])
  /\ (Alerting.vr_status result = Some "PASSED" <-> raised = [])
  /\ (raised = [] ->
      Alerting.vr_recommendations result
      = ["APPROVE - Identity verification passed"])
  /\ (raised <> [] ->
      Alerting.vr_verified result = false
      /\ Alerting.vr_status result = Some "FAILED"
      /\ Alerting.vr_recommendations result
         = (if deepfake_check
            then ["REJECT - Deepfake indicators detected"] else [])
           ++ (if liveness_check
               then ["REJECT - Liveness verification failed"] else [])
           ++ (if face_check then ["REJECT - Face not detected"] else [])
      /\ length (Alerting.vr_recommendations result) = length raised).
Proof.
  intros deepfake_score liveness_score deepfake_check liveness_check
    face_check out result raised.
  subst raised result out deepfake_check liveness_check face_check.
  unfold Alerting.evaluate_verification_result,
    Alerting.threshold_deepfake_score, Alerting.threshold_liveness_score.
  fold deepfake_score liveness_score.
  destruct (Rgtb deepfake_score 0.6);
    destruct (Rltb liveness_score 0.5);
    destruct (negb (default false (Alerting.da_face_detected da)));
    cbn [Alerting.create_alert fst snd Alerting.vr_alerts Alerting.alerts
         Alerting.vr_verified Alerting.vr_status Alerting.vr_recommendations
         Alerting.vr_session_id Alerting.vr_user_id
         Alerting.alert_type Alerting.severity map app length];
    rewrite <- ?app_assoc;
    (split; [reflexivity |]);
    (split; [try rewrite app_nil_r; reflexivity |]);
    (split; [split; intros H; (reflexivity || discriminate H) |]);
    (split; [split; intros H; (reflexivity || discriminate H) |]);
    (split; [intros H; (reflexivity || discriminate H) |]);
    intros H; try (exfalso; apply H; reflexivity);
    repeat split; reflexivity.
Qed.

(** The two verdicts of the repository's verification-flow tests. *)
Example adjudicator_rejects :
  let r := snd (Alerting.evaluate_verification_result now_iso fmt2
                  Alerting.init "test-session" (Some "user-123")
                  {| Alerting.da_deepfake_score := Some 0.85%R;
                     Alerting.da_face_detected := Some true;
                     Alerting.da_indicators := Some ∅ |}
                  {| Alerting.la_liveness_score := Some 0.1%R;
                     Alerting.la_face_detected := Some true |}) in
  Alerting.vr_verified r = false
  /\ Alerting.vr_status r = Some "FAILED"
  /\ map Alerting.alert_type (Alerting.vr_alerts r)
     = [Alerting.DEEPFAKE_DETECTED; Alerting.LIVENESS_FAILED].
Proof.
  intros r. subst r.
  unfold Alerting.evaluate_verification_result,
    Alerting.threshold_deepfake_score, Alerting.threshold_liveness_score,
    default.
  cbn [from_option Datatypes.id Alerting.da_deepfake_score Alerting.la_liveness_score
       Alerting.da_face_detected Alerting.da_indicators negb].
  assert (H1 : Rgtb 0.85 0.6 = true) by (apply Rgtb_true; lra).
  assert (H2 : Rltb 0.1 0.5 = true) by (apply Rltb_true; lra).
  rewrite H1, H2. repeat split; reflexivity.
Qed.

Example adjudicator_approves :
  let r := snd (Alerting.evaluate_verification_result now_iso fmt2
                  Alerting.init "test-session" (Some "user-123")
                  {| Alerting.da_deepfake_score := Some 0.2%R;
                     Alerting.da_face_detected := Some true;
                     Alerting.da_indicators := Some ∅ |}
                  {| Alerting.la_liveness_score := Some 0.9%R;
                     Alerting.la_face_detected := Some true |}) in
  Alerting.vr_verified r = true
  /\ Alerting.vr_status r = Some "PASSED"
  /\ Alerting.vr_alerts r = [].
Proof.
  intros r. subst r.
  unfold Alerting.evaluate_verification_result,
    Alerting.threshold_deepfake_score, Alerting.threshold_liveness_score,
    default.
  cbn [from_option Datatypes.id Alerting.da_deepfake_score Alerting.la_liveness_score
       Alerting.da_face_detected Alerting.da_indicators negb].
  assert (H1 : Rgtb 0.2 0.6 = false) by (apply Rgtb_false; lra).
  assert (H2 : Rltb 0.9 0.5 = false) by (apply Rltb_false; lra).
  rewrite H1, H2. repeat split; reflexivity.
Qed.

(** *** Acknowledging *)

Lemma acknowledge_in_none l id at_ who :
  Alerting.acknowledge_in l id at_ who = None
  <-> Forall (fun a => Alerting.alert_id a <> id) l.
Proof.
  induction l as [|a l IH]; simpl.
  - split; [constructor | reflexivity].
  - case_bool_decide as Hid.
    + split; [discriminate |].
      intros HF. inversion HF; subst. contradiction.
    + destruct (Alerting.acknowledge_in l id at_ who) eqn:E; simpl.
      * split; [discriminate |].
        intros HF. inversion HF as [|? ? ? HF']; subst.
        apply IH in HF'. discriminate.
      * split; [| reflexivity].
        intros _. constructor; [exact Hid | apply IH; reflexivity].
Qed.

Lemma acknowledge_in_some l id at_ who l' :
  Alerting.acknowledge_in l id at_ who = Some l' ->
  exists pre a post,
    l = pre ++ a :: post
    /\ Forall (fun b => Alerting.alert_id b <> id) pre
    /\ Alerting.alert_id a = id
    /\ l' = pre ++ Alerting.acknowledge a at_ who :: post.
Proof.
  revert l'. induction l as [|a l IH]; simpl; intros l' H.
  - discriminate.
  - case_bool_decide as Hid.
    + injection H as <-. exists [], a, l. repeat split; auto.
    + destruct (Alerting.acknowledge_in l id at_ who) as [l0|] eqn:E;
        simpl in H; [| discriminate].
      injection H as <-.
      destruct (IH l0 eq_refl) as (pre & b & post & -> & Hpre & Hb & ->).
      exists (a :: pre), b, post. repeat split; auto.
Qed.

(** C4, as the code has it. A created alert has status active and sits at
    the end of the store.  Acknowledging succeeds exactly when some alert of
    the store carries the identifier, whatever its status: the first such
    alert gets status acknowledged, the acknowledger and the clock reading,
    and every other alert stays as it was.  When no alert carries the
    identifier the call fails and the service is unchanged. *)
Theorem acknowledge_alert_lifecycle
    (s : Alerting.Service) (id who : string) :
  (forall ty sid sev msg det uid,
     let created := Alerting.create_alert now_iso s ty sid sev msg det uid in
     Alerting.status (snd created) = "active"
     /\ Alerting.alerts (fst created) = Alerting.alerts s ++ [snd created])
  /\ (snd (Alerting.acknowledge_alert now_iso s id who) = true
      <-> exists a, a ∈ Alerting.alerts s /\ Alerting.alert_id a = id)
  /\ (snd (Alerting.acknowledge_alert now_iso s id who) = true ->
      exists pre a post,
        Alerting.alerts s = pre ++ a :: post
        /\ Forall (fun b => Alerting.alert_id b <> id) pre
        /\ Alerting.alert_id a = id
        /\ Alerting.alerts (fst (Alerting.acknowledge_alert now_iso s id who))
           = pre ++ {| Alerting.alert_id := Alerting.alert_id a;
                       Alerting.alert_type := Alerting.alert_type a;
                       Alerting.severity := Alerting.severity a;
                       Alerting.timestamp := Alerting.timestamp a;
                       Alerting.user_id := Alerting.user_id a;
                       Alerting.session_id := Alerting.session_id a;
                       Alerting.message := Alerting.message a;
                       Alerting.details := Alerting.details a;
                       Alerting.status := "acknowledged";
                       Alerting.acknowledged_at :=
                         Some (now_iso (Alerting.clock s));
                       Alerting.acknowledged_by := Some who |} :: post)
  /\ (snd (Alerting.acknowledge_alert now_iso s id who) = false ->
      fst (Alerting.acknowledge_alert now_iso s id who) = s).
Proof.
  split; [intros; split; reflexivity |].
  unfold Alerting.acknowledge_alert.
  destruct (Alerting.acknowledge_in (Alerting.alerts s) id
              (now_iso (Alerting.clock s)) who) as [l'|] eqn:E; simpl.
  - apply acknowledge_in_some in E.
    destruct E as (pre & a & post & Hs & Hpre & Ha & ->).
    split; [| split].
    + split; [| reflexivity]. intros _. exists a. split; [| exact Ha].
      rewrite Hs. apply elem_of_app. right. apply list_elem_of_here.
    + intros _. exists pre, a, post. repeat split; auto.
    + discriminate.
  - apply acknowledge_in_none in E.
    split; [| split].
    + split; [discriminate |].
      intros (a & Hin & Ha). rewrite Forall_forall in E.
      exfalso. exact (E a Hin Ha).
    + discriminate.
    + reflexivity.
Qed.

End AlertingFacts.

(** Success does not need an active alert: the store below holds only an
    acknowledged one with the identifier, and the call still succeeds. *)
Lemma acknowledge_alert_without_active_alert :
  let s := {| Alerting.alerts := [acknowledged_alert];
              Alerting.alert_queue := [0%nat];
              Alerting.clock := 3 |} in
  snd (Alerting.acknowledge_alert (fun _ => "t2") s "s_t0" "operator-2") = true
  /\ ~ (exists a, a ∈ Alerting.alerts s
                  /\ Alerting.alert_id a = "s_t0"
                  /\ Alerting.status a = "active").
Proof.
  split.
  - reflexivity.
  - intros (a & Hin & _ & Hst). simpl in Hin.
    apply list_elem_of_singleton in Hin. subst a. discriminate Hst.
Qed.

(** ** The liveness detector *)

(** C10. On a landmark array of fewer than 400 points, the empty array and
    [None] included, the blink detector and the mouth-open detector both
    return the neutral result: nothing detected, confidence 0.0. *)
Theorem short_landmarks_neutral (landmarks : option (list Point))
    (Hshort : forall lm, landmarks = Some lm -> (length lm < 400)%nat) :
  Liveness.detect_blink landmarks = (false, 0.0%R)
  /\ Liveness.detect_mouth_open landmarks = (false, 0.0%R).
Proof.
  destruct landmarks as [lm|]; [| split; reflexivity].
  specialize (Hshort lm eq_refl).
  unfold Liveness.detect_blink, Liveness.detect_mouth_open.
  rewrite (bool_decide_eq_true_2 (length lm < 400)%nat Hshort).
  split; [| reflexivity].
  case_bool_decide; reflexivity.
Qed.

Lemma short_landmarks_neutral_witness :
  (forall lm, Some [(0.4, 0.5, 0.0)%R; (0.6, 0.5, 0.0)%R] = Some lm ->
              (length lm < 400)%nat)
  /\ Liveness.detect_blink (Some [(0.4, 0.5, 0.0)%R; (0.6, 0.5, 0.0)%R])
     = (false, 0.0%R)
  /\ Liveness.detect_mouth_open (Some [(0.4, 0.5, 0.0)%R; (0.6, 0.5, 0.0)%R])
     = (false, 0.0%R).
Proof.
  assert (H : forall lm,
             Some [(0.4, 0.5, 0.0)%R; (0.6, 0.5, 0.0)%R] = Some lm ->
             (length lm < 400)%nat).
  { intros lm [= <-]. simpl. lia. }
  split; [exact H | exact (short_landmarks_neutral _ H)].
Defined.

Section LivenessFacts.

Variable Frame : Type.
Variable frame_size : Frame -> N.
Variable gray_of : Frame -> option Gray.
Variable rgb_converts : Frame -> bool.
Variable detect_faces_cascade : Frame -> list Rect.
Variable face_mesh_landmarks : Frame -> option (list Point).

Local Abbreviation process_frame :=
  (Liveness.process_frame Frame frame_size gray_of rgb_converts
     detect_faces_cascade
     face_mesh_landmarks).

Lemma detect_head_movement_threshold (d : Liveness.Detector)
    (landmarks : option (list Point)) :
  Liveness.confidence_threshold
    (fst (Liveness.detect_head_movement d landmarks))
  = Liveness.confidence_threshold d.
Proof.
  unfold Liveness.detect_head_movement.
  destruct landmarks as [lm|]; [| reflexivity].
  destruct (Liveness.prev_frame_landmarks d) as [prev|]; [| reflexivity].
  destruct (Liveness.prev_centroid prev) as [pc|]; [| reflexivity].
  destruct (centroid lm) as [cc|]; [| reflexivity].
  destruct pc as [pc|]; reflexivity.
Qed.

Lemma detect_motion_in_frame_threshold (d : Liveness.Detector) (f : Frame) :
  Liveness.confidence_threshold
    (fst (Liveness.detect_motion_in_frame Frame gray_of d f))
  = Liveness.confidence_threshold d.
Proof.
  unfold Liveness.detect_motion_in_frame.
  destruct (gray_of f) as [g|]; [| reflexivity].
  destruct (Liveness.prev_frame_landmarks d) as [[prev|prev]|];
    try reflexivity.
  destruct (absdiff g prev); reflexivity.
Qed.

(** C6. Every frame that is present, not empty and accepted by the colour
    conversion is scored: its three checks are those of the blink,
    head-movement and mouth detectors when landmarks are available and the
    motion fallback otherwise; the liveness score is
    0.3 blink + 0.4 movement + 0.3 mouth confidence, raised to at least 0.5
    when no landmarks are available but a face rectangle was found, and
    [is_likely_live] holds exactly when the score exceeds the detector's
    confidence threshold, which is 0.7 by default and which processing
    never changes.  A frame that is not scored (absent, empty or rejected
    by OpenCV) gets score 0.0 and no flag. *)
Theorem liveness_score_formula (d : Liveness.Detector) (frame : option Frame) :
  let r := snd (process_frame d frame) in
  let landmarks f :=
    if Liveness.use_mediapipe d then face_mesh_landmarks f else None in
  Liveness.default_confidence_threshold = 0.7%R
  /\ match Liveness.detections r with
     | Liveness.Checks blink head _ mouth =>
         exists f, frame = Some f
         /\ let weighted :=
              (Liveness.confidence blink * 0.3
               + Liveness.confidence head * 0.4
               + Liveness.confidence mouth * 0.3)%R in
            let landmarks :=
              if Liveness.use_mediapipe d then face_mesh_landmarks f else None in
            Liveness.face_detected r
            = bool_decide (0 < length (detect_faces_cascade f))%nat
            /\ Liveness.liveness_score r
               = match landmarks with
                 | None =>
                     if Liveness.face_detected r then Rmax weighted 0.5
                     else weighted
                 | Some _ => weighted
                 end
            /\ exists flag, Liveness.is_likely_live r = Some flag
               /\ (flag = true <->
                   (Liveness.liveness_score r > Liveness.confidence_threshold d)%R)
     | _ => Liveness.liveness_score r = 0.0%R
            /\ Liveness.is_likely_live r = None
     end
  /\ (forall mediapipe,
        Liveness.confidence_threshold (Liveness.init_default mediapipe) = 0.7%R)
  /\ Liveness.confidence_threshold (fst (process_frame d frame))
     = Liveness.confidence_threshold d
  /\ (forall f,
        frame = Some f -> frame_size f <> 0%N -> rgb_converts f = true ->
        exists blink head details mouth,
          Liveness.detections r = Liveness.Checks blink head details mouth
          /\ match landmarks f with
             | Some lm =>
                 (Liveness.detected blink, Liveness.confidence blink)
                 = Liveness.detect_blink (Some lm)
                 /\ (Liveness.detected head, Liveness.confidence head, details)
                    = snd (Liveness.detect_head_movement d (Some lm))
                 /\ (Liveness.detected mouth, Liveness.confidence mouth)
                    = Liveness.detect_mouth_open (Some lm)
                 /\ Liveness.liveness_score r
                    = (Liveness.confidence blink * 0.3
                       + Liveness.confidence head * 0.4
                       + Liveness.confidence mouth * 0.3)%R
             | None =>
                 blink = {| Liveness.detected := false;
                            Liveness.confidence := 0.0 |}
                 /\ head
                    = {| Liveness.detected := false;
                         Liveness.confidence :=
                           snd (Liveness.detect_motion_in_frame Frame gray_of
                                  d f) |}
                 /\ details = Liveness.Reason "motion_fallback"
                 /\ mouth = {| Liveness.detected := false;
                               Liveness.confidence := 0.0 |}
                 /\ Liveness.liveness_score r
                    = (if bool_decide (0 < length (detect_faces_cascade f))%nat
                       then Rmax (Liveness.confidence head * 0.4) 0.5
                       else Liveness.confidence head * 0.4)%R
             end
          /\ Liveness.face_detected r
             = bool_decide (0 < length (detect_faces_cascade f))%nat
          /\ Liveness.is_likely_live r
             = Some (Rgtb (Liveness.liveness_score r)
                       (Liveness.confidence_threshold d)))
  /\ (frame = None \/ (exists f, frame = Some f /\ frame_size f = 0%N) ->
      r = {| Liveness.face_detected := false;
             Liveness.liveness_score := 0.0;
             Liveness.is_likely_live := None;
             Liveness.detections := Liveness.NoDetections |})
  /\ (forall f,
        frame = Some f -> frame_size f <> 0%N -> rgb_converts f = false ->
        r = {| Liveness.face_detected := false;
               Liveness.liveness_score := 0.0;
               Liveness.is_likely_live := None;
               Liveness.detections := Liveness.ErrorDetections |}).
Proof.
  intros r landmarks. split; [reflexivity |]. split.
  { subst r. unfold Liveness.process_frame.
    destruct frame as [f|]; [| split; reflexivity].
    case_bool_decide; [split; reflexivity |].
    destruct (rgb_converts f) eqn:Hrgb; [| split; reflexivity].
    destruct (if Liveness.use_mediapipe d then face_mesh_landmarks f else None)
      as [lm|] eqn:Hlm.
    - destruct (Liveness.detect_blink (Some lm)) as [bd bc].
      destruct (Liveness.detect_head_movement d (Some lm)) as [d1 [[md mc] mdet]].
      destruct (Liveness.detect_mouth_open (Some lm)) as [od oc].
      cbn. exists f. split; [reflexivity |]. rewrite Hlm.
      split; [reflexivity |]. split; [reflexivity |].
      eexists. split; [reflexivity |]. apply Rgtb_true.
    - destruct (Liveness.detect_motion_in_frame Frame gray_of d f) as [d1 motion].
      cbn. exists f. split; [reflexivity |]. rewrite Hlm.
      split; [reflexivity |]. split; [reflexivity |].
      eexists. split; [reflexivity |]. apply Rgtb_true. }
  split; [intros mediapipe; reflexivity |].
  split.
  { unfold Liveness.process_frame.
    destruct frame as [f|]; [| reflexivity].
    case_bool_decide; [reflexivity |].
    destruct (rgb_converts f); [| reflexivity].
    destruct (if Liveness.use_mediapipe d then face_mesh_landmarks f else None)
      as [lm|].
    - pose proof (detect_head_movement_threshold d (Some lm)) as Ht.
      destruct (Liveness.detect_blink (Some lm)) as [bd bc].
      destruct (Liveness.detect_head_movement d (Some lm)) as [d1 [[md mc] mdet]].
      destruct (Liveness.detect_mouth_open (Some lm)) as [od oc].
      exact Ht.
    - pose proof (detect_motion_in_frame_threshold d f) as Ht.
      destruct (Liveness.detect_motion_in_frame Frame gray_of d f) as [d1 motion].
      exact Ht. }
  split.
  { intros f -> Hsize Hrgb. subst r. unfold Liveness.process_frame.
    rewrite bool_decide_eq_false_2 by exact Hsize. rewrite Hrgb.
    subst landmarks. cbv beta.
    destruct (if Liveness.use_mediapipe d then face_mesh_landmarks f else None)
      as [lm|] eqn:Hlm.
    - destruct (Liveness.detect_blink (Some lm)) as [bd bc].
      destruct (Liveness.detect_head_movement d (Some lm)) as [d1 [[md mc] mdet]].
      destruct (Liveness.detect_mouth_open (Some lm)) as [od oc].
      cbn. do 4 eexists. split; [reflexivity |].
      cbn. repeat split; reflexivity.
    - destruct (Liveness.detect_motion_in_frame Frame gray_of d f) as [d1 motion].
      cbn. do 4 eexists. split; [reflexivity |].
      cbn. repeat split; try reflexivity.
      case_bool_decide; f_equal; lra. }
  split.
  { intros [-> | (f & -> & Hsize)]; subst r; unfold Liveness.process_frame;
      [reflexivity |].
    rewrite bool_decide_eq_true_2 by exact Hsize. reflexivity. }
  intros f -> Hsize Hrgb. subst r. unfold Liveness.process_frame.
  rewrite bool_decide_eq_false_2 by exact Hsize. rewrite Hrgb. reflexivity.
Qed.

End LivenessFacts.

(** ** The bounded histories *)

Lemma push_history_length {A : Type} (hs : Z) (h : list A) (x : A) :
  (0 <= hs)%Z -> (Z.of_nat (length h) <= hs)%Z ->
  (Z.of_nat (length (Deepfake.push_history hs h x)) <= hs)%Z.
Proof.
  intros Hhs Hh. unfold Deepfake.push_history.
  case_bool_decide as Hlen.
  - rewrite length_drop, length_app. simpl. lia.
  - lia.
Qed.


(** Below capacity nothing is evicted. *)
Lemma push_history_keeps {A : Type} (hs : Z) (h : list A) (x : A) :
  (Z.of_nat (length h) < hs)%Z ->
  Deepfake.push_history hs h x = h ++ [x].
Proof.
  intros Hroom. unfold Deepfake.push_history.
  rewrite bool_decide_eq_false_2.
  - reflexivity.
  - rewrite length_app. simpl. lia.
Qed.



(** ** The deepfake detector *)

Section DeepfakeFacts.

Variable Frame : Type.
Variable frame_size : Frame -> N.
Variable frame_shape : Frame -> Z * Z.
Variable gray_of : Frame -> option Gray.
Variable rgb_converts : Frame -> bool.
Variable detect_faces_cascade : Frame -> list Rect.
Variable face_mesh_landmarks : Frame -> option (list Point).
Variable measure_texture : Frame -> Rect -> option Deepfake.TextureMeasurements.

Local Abbreviation Detector := (Deepfake.Detector Frame).
Local Abbreviation process_frame :=
  (Deepfake.process_frame Frame frame_size frame_shape gray_of rgb_converts
     detect_faces_cascade face_mesh_landmarks measure_texture).
Local Abbreviation process_frames :=
  (Deepfake.process_frames Frame frame_size frame_shape gray_of rgb_converts
     detect_faces_cascade face_mesh_landmarks measure_texture).
Local Abbreviation analyze_micro_textures :=
  (Deepfake.analyze_micro_textures Frame frame_shape measure_texture).
Local Abbreviation analyze_temporal_consistency :=
  (Deepfake.analyze_temporal_consistency Frame gray_of).

Lemma pushed_bounded {A : Type} (hs : Z) (before after : list A) :
  (0 <= hs)%Z -> pushed_at_most_once hs before after ->
  (Z.of_nat (length before) <= hs)%Z -> (Z.of_nat (length after) <= hs)%Z.
Proof.
  intros Hhs [-> | [x ->]] Hb; [exact Hb |].
  apply push_history_length; assumption.
Qed.

Lemma analyze_blink_patterns_step (d : Detector) lm :
  let d' := fst (Deepfake.analyze_blink_patterns Frame d lm) in
  Deepfake.history_size Frame d' = Deepfake.history_size Frame d
  /\ Deepfake.use_mediapipe Frame d' = Deepfake.use_mediapipe Frame d
  /\ pushed_at_most_once (Deepfake.history_size Frame d)
       (Deepfake.blink_history Frame d) (Deepfake.blink_history Frame d')
  /\ Deepfake.face_geometry_history Frame d' = Deepfake.face_geometry_history Frame d
  /\ Deepfake.frame_history Frame d' = Deepfake.frame_history Frame d.
Proof.
  unfold Deepfake.analyze_blink_patterns.
  match goal with |- context [match ?o with Some _ => _ | None => _ end] =>
    destruct o end; cbn.
  - repeat split; try reflexivity. right. eexists. reflexivity.
  - repeat split; try reflexivity. left. reflexivity.
Qed.

Lemma analyze_face_geometry_step (d : Detector) lm :
  let d' := fst (Deepfake.analyze_face_geometry Frame d lm) in
  Deepfake.history_size Frame d' = Deepfake.history_size Frame d
  /\ Deepfake.use_mediapipe Frame d' = Deepfake.use_mediapipe Frame d
  /\ Deepfake.blink_history Frame d' = Deepfake.blink_history Frame d
  /\ pushed_at_most_once (Deepfake.history_size Frame d)
       (Deepfake.face_geometry_history Frame d)
       (Deepfake.face_geometry_history Frame d')
  /\ Deepfake.frame_history Frame d' = Deepfake.frame_history Frame d.
Proof.
  unfold Deepfake.analyze_face_geometry.
  repeat match goal with |- context [match ?l !! ?i with Some _ => _ | None => _ end] =>
    destruct (l !! i) end; cbn;
  repeat split; try reflexivity;
    solve [left; reflexivity | right; eexists; reflexivity].
Qed.

Lemma analyze_temporal_consistency_step (d : Detector) f :
  let d' := fst (analyze_temporal_consistency d f) in
  Deepfake.history_size Frame d' = Deepfake.history_size Frame d
  /\ Deepfake.use_mediapipe Frame d' = Deepfake.use_mediapipe Frame d
  /\ Deepfake.blink_history Frame d' = Deepfake.blink_history Frame d
  /\ Deepfake.face_geometry_history Frame d' = Deepfake.face_geometry_history Frame d
  /\ Deepfake.frame_history Frame d'
     = Deepfake.push_history (Deepfake.history_size Frame d)
         (Deepfake.frame_history Frame d) f.
Proof.
  unfold Deepfake.analyze_temporal_consistency.
  case_bool_decide; cbn; repeat split; reflexivity.
Qed.

Lemma pushed_at_most_once_refl {A : Type} hs (h : list A) :
  pushed_at_most_once hs h h.
Proof. left. reflexivity. Qed.

(** One call of [process_frame] keeps the configuration and changes each
    history by at most one push. *)
Lemma process_frame_step (d : Detector) (frame : option Frame) :
  let d' := fst (process_frame d frame) in
  Deepfake.history_size Frame d' = Deepfake.history_size Frame d
  /\ Deepfake.use_mediapipe Frame d' = Deepfake.use_mediapipe Frame d
  /\ pushed_at_most_once (Deepfake.history_size Frame d)
       (Deepfake.blink_history Frame d) (Deepfake.blink_history Frame d')
  /\ pushed_at_most_once (Deepfake.history_size Frame d)
       (Deepfake.face_geometry_history Frame d)
       (Deepfake.face_geometry_history Frame d')
  /\ pushed_at_most_once (Deepfake.history_size Frame d)
       (Deepfake.frame_history Frame d) (Deepfake.frame_history Frame d').
Proof.
  assert (Hsame : Deepfake.history_size Frame d = Deepfake.history_size Frame d
     /\ Deepfake.use_mediapipe Frame d = Deepfake.use_mediapipe Frame d
     /\ pushed_at_most_once (Deepfake.history_size Frame d)
          (Deepfake.blink_history Frame d) (Deepfake.blink_history Frame d)
     /\ pushed_at_most_once (Deepfake.history_size Frame d)
          (Deepfake.face_geometry_history Frame d)
          (Deepfake.face_geometry_history Frame d)
     /\ pushed_at_most_once (Deepfake.history_size Frame d)
          (Deepfake.frame_history Frame d) (Deepfake.frame_history Frame d))
    by (repeat split; apply pushed_at_most_once_refl).
  unfold Deepfake.process_frame.
  destruct frame as [f|]; [| exact Hsame].
  case_bool_decide; [exact Hsame |].
  destruct (negb _); [exact Hsame |].
  destruct (rgb_converts f); [| exact Hsame].
  match goal with |- context [match ?o with Some _ => _ | None => _ end] =>
    destruct o as [lm|] end; [| exact Hsame].
  destruct (Deepfake.face_region_of (frame_shape f) lm); [| exact Hsame].
  pose proof (analyze_blink_patterns_step d lm) as Hb.
  destruct (Deepfake.analyze_blink_patterns Frame d lm) as [d1 ob].
  cbn in Hb. destruct Hb as (Hb1 & Hb2 & Hb3 & Hb4 & Hb5).
  assert (H1 : Deepfake.history_size Frame d1 = Deepfake.history_size Frame d
     /\ Deepfake.use_mediapipe Frame d1 = Deepfake.use_mediapipe Frame d
     /\ pushed_at_most_once (Deepfake.history_size Frame d)
          (Deepfake.blink_history Frame d) (Deepfake.blink_history Frame d1)
     /\ pushed_at_most_once (Deepfake.history_size Frame d)
          (Deepfake.face_geometry_history Frame d)
          (Deepfake.face_geometry_history Frame d1)
     /\ pushed_at_most_once (Deepfake.history_size Frame d)
          (Deepfake.frame_history Frame d) (Deepfake.frame_history Frame d1)).
  { rewrite Hb4, Hb5. repeat split; auto using pushed_at_most_once_refl. }
  destruct ob as [blink|]; [| exact H1].
  pose proof (analyze_face_geometry_step d1 lm) as Hg.
  destruct (Deepfake.analyze_face_geometry Frame d1 lm) as [d2 og].
  cbn in Hg. destruct Hg as (Hg1 & Hg2 & Hg3 & Hg4 & Hg5).
  assert (H2 : Deepfake.history_size Frame d2 = Deepfake.history_size Frame d
     /\ Deepfake.use_mediapipe Frame d2 = Deepfake.use_mediapipe Frame d
     /\ pushed_at_most_once (Deepfake.history_size Frame d)
          (Deepfake.blink_history Frame d) (Deepfake.blink_history Frame d2)
     /\ pushed_at_most_once (Deepfake.history_size Frame d)
          (Deepfake.face_geometry_history Frame d)
          (Deepfake.face_geometry_history Frame d2)
     /\ pushed_at_most_once (Deepfake.history_size Frame d)
          (Deepfake.frame_history Frame d) (Deepfake.frame_history Frame d2)).
  { rewrite Hg3, Hg5, Hb5, Hg1, Hg2. rewrite Hb1, Hb4 in Hg4.
    repeat split; auto using pushed_at_most_once_refl. }
  destruct og as [geometry|]; [| exact H2].
  pose proof (analyze_temporal_consistency_step d2 f) as Ht.
  destruct (analyze_temporal_consistency d2 f) as [d3 ot].
  cbn in Ht. destruct Ht as (Ht1 & Ht2 & Ht3 & Ht4 & Ht5).
  assert (H3 : Deepfake.history_size Frame d3 = Deepfake.history_size Frame d
     /\ Deepfake.use_mediapipe Frame d3 = Deepfake.use_mediapipe Frame d
     /\ pushed_at_most_once (Deepfake.history_size Frame d)
          (Deepfake.blink_history Frame d) (Deepfake.blink_history Frame d3)
     /\ pushed_at_most_once (Deepfake.history_size Frame d)
          (Deepfake.face_geometry_history Frame d)
          (Deepfake.face_geometry_history Frame d3)
     /\ pushed_at_most_once (Deepfake.history_size Frame d)
          (Deepfake.frame_history Frame d) (Deepfake.frame_history Frame d3)).
  { destruct H2 as (E1 & E2 & E3 & E4 & E5).
    rewrite Ht1, Ht2, Ht3, Ht4, Ht5, E1. rewrite Hg5, Hb5.
    repeat split; auto. right. eexists; reflexivity. }
  destruct ot; exact H3.
Qed.

Lemma process_frame_bounded (d : Detector) (frame : option Frame) :
  (0 <= Deepfake.history_size Frame d)%Z ->
  Deepfake.bounded_histories Frame d ->
  Deepfake.bounded_histories Frame (fst (process_frame d frame)).
Proof.
  intros Hhs (Hb & Hg & Hf).
  destruct (process_frame_step d frame) as (E & _ & Pb & Pg & Pf).
  unfold Deepfake.bounded_histories. rewrite E.
  repeat split; eapply pushed_bounded; eauto.
Qed.

Lemma process_frames_bounded (frames : list (option Frame)) (d : Detector) :
  (0 <= Deepfake.history_size Frame d)%Z ->
  Deepfake.bounded_histories Frame d ->
  Deepfake.bounded_histories Frame (process_frames d frames)
  /\ Deepfake.history_size Frame (process_frames d frames)
     = Deepfake.history_size Frame d.
Proof.
  revert d. induction frames as [|frame frames IH]; intros d Hhs Hd.
  - split; [exact Hd | reflexivity].
  - unfold Deepfake.process_frames. simpl foldl.
    fold (process_frames (fst (process_frame d frame)) frames).
    destruct (process_frame_step d frame) as (E & _).
    destruct (IH (fst (process_frame d frame))) as [IH1 IH2].
    + rewrite E. exact Hhs.
    + apply process_frame_bounded; assumption.
    + split; [exact IH1 | rewrite IH2; exact E].
Qed.


End DeepfakeFacts.

(** ** Ranges of the signals *)

Lemma in_unit_clip x : in_unit (clip x 0 1).
Proof. apply clip_unit. Qed.

Lemma in_unit_0 : in_unit 0.0%R.
Proof. unfold in_unit. lra. Qed.

Lemma in_unit_Rmin_1 x : (0 <= x)%R -> in_unit (Rmin x 1.0).
Proof.
  intros H. unfold in_unit, Rmin. destruct (Rle_dec _ _); lra.
Qed.

Lemma pixel_nonneg n : (0 <= pixel n)%R.
Proof. unfold pixel. apply IZR_le. lia. Qed.

Lemma median_nonneg g : (0 <= median g)%R.
Proof.
  unfold median. destruct (Nat.even _).
  - pose proof (pixel_nonneg (nth (length (sort_pixels (concat g)) / 2 - 1)
                               (sort_pixels (concat g)) 0%N)).
    pose proof (pixel_nonneg (nth (length (sort_pixels (concat g)) / 2)
                               (sort_pixels (concat g)) 0%N)).
    lra.
  - apply pixel_nonneg.
Qed.

Lemma detect_blink_unit landmarks : in_unit (snd (Liveness.detect_blink landmarks)).
Proof.
  unfold Liveness.detect_blink.
  destruct landmarks as [lm|]; [| apply in_unit_0].
  repeat (case_bool_decide; [apply in_unit_0 |]).
  match goal with |- context [match ?o with Some _ => _ | None => _ end] =>
    destruct o as [avg_ear|] end; [| apply in_unit_0].
  cbn [snd]. unfold Liveness.EAR_THRESHOLD.
  cmp_case; apply in_unit_Rmin_1; lra.
Qed.

Lemma detect_head_movement_unit d landmarks :
  in_unit (snd (fst (snd (Liveness.detect_head_movement d landmarks)))).
Proof.
  unfold Liveness.detect_head_movement.
  destruct landmarks as [lm|]; [| apply in_unit_0].
  destruct (Liveness.prev_frame_landmarks d) as [prev|]; [| apply in_unit_0].
  destruct (Liveness.prev_centroid prev) as [pc|]; [| apply in_unit_0].
  destruct (centroid lm) as [cc|]; [| apply in_unit_0].
  destruct pc as [pc|]; [| apply in_unit_0].
  cbn [snd fst]. unfold Liveness.MOVEMENT_THRESHOLD.
  cmp_case; [| apply in_unit_0].
  apply in_unit_Rmin_1. lra.
Qed.

Lemma detect_mouth_open_unit landmarks :
  in_unit (snd (Liveness.detect_mouth_open landmarks)).
Proof.
  unfold Liveness.detect_mouth_open.
  destruct landmarks as [lm|]; [| apply in_unit_0].
  case_bool_decide; [apply in_unit_0 |].
  destruct (lm !! Liveness.MOUTH_TOP); [| apply in_unit_0].
  destruct (lm !! Liveness.MOUTH_BOTTOM); [| apply in_unit_0].
  cbn [snd]. unfold Liveness.MOUTH_THRESHOLD.
  cmp_case; apply in_unit_Rmin_1.
  - unfold Rmin. destruct (Rle_dec _ _); lra.
  - lra.
Qed.

Lemma blink_pattern_anomaly_unit h v :
  Deepfake._detect_blink_pattern_anomaly h = Some v -> in_unit v.
Proof.
  unfold Deepfake._detect_blink_pattern_anomaly.
  case_bool_decide; [intros [= <-]; apply in_unit_0 |].
  cmp_case; [intros [= <-]; unfold in_unit; lra |].
  match goal with |- context [np_max ?l] => destruct (np_max l) end;
    simpl; [| discriminate].
  intros [= <-]. apply in_unit_clip.
Qed.

Lemma blink_duration_anomaly_unit h :
  in_unit (Deepfake._detect_blink_duration_anomaly h).
Proof.
  unfold Deepfake._detect_blink_duration_anomaly.
  case_bool_decide; [apply in_unit_0 |].
  destruct (Deepfake.blink_runs false 0 h); [apply in_unit_0 | apply in_unit_clip].
Qed.

Lemma geometry_consistency_unit h :
  in_unit (Deepfake._analyze_geometry_consistency h).
Proof.
  unfold Deepfake._analyze_geometry_consistency.
  case_bool_decide; [apply in_unit_0 | apply in_unit_clip].
Qed.

Lemma texture_anomaly_score_unit lv ed sm ba :
  in_unit (Deepfake._compute_texture_anomaly_score lv ed sm ba).
Proof. apply in_unit_clip. Qed.

Lemma boundary_artifacts_unit m : in_unit (Deepfake._detect_boundary_artifacts m).
Proof.
  unfold Deepfake._detect_boundary_artifacts.
  destruct (Deepfake.tm_crop_shape m) as [h w].
  case_bool_decide; [apply in_unit_0 | apply in_unit_clip].
Qed.

Lemma compression_artifacts_unit m :
  in_unit (Deepfake._detect_compression_artifacts m).
Proof.
  unfold Deepfake._detect_compression_artifacts.
  destruct (Deepfake.tm_crop_shape m) as [h w]. apply in_unit_clip.
Qed.

Section FrameScores.

Variable Frame : Type.
Variable frame_size : Frame -> N.
Variable frame_shape : Frame -> Z * Z.
Variable gray_of : Frame -> option Gray.
Variable rgb_converts : Frame -> bool.
Variable detect_faces_cascade : Frame -> list Rect.
Variable face_mesh_landmarks : Frame -> option (list Point).
Variable measure_texture : Frame -> Rect -> option Deepfake.TextureMeasurements.

Local Abbreviation liveness_process_frame :=
  (Liveness.process_frame Frame frame_size gray_of rgb_converts
     detect_faces_cascade
     face_mesh_landmarks).
Local Abbreviation deepfake_process_frame :=
  (Deepfake.process_frame Frame frame_size frame_shape gray_of rgb_converts
     detect_faces_cascade face_mesh_landmarks measure_texture).
Local Abbreviation analyze_micro_textures :=
  (Deepfake.analyze_micro_textures Frame frame_shape measure_texture).
Local Abbreviation analyze_temporal_consistency :=
  (Deepfake.analyze_temporal_consistency Frame gray_of).

Lemma detect_motion_in_frame_unit d f :
  in_unit (snd (Liveness.detect_motion_in_frame Frame gray_of d f)).
Proof.
  unfold Liveness.detect_motion_in_frame.
  destruct (gray_of f) as [gray|]; [| unfold in_unit; simpl; lra].
  destruct (Liveness.prev_frame_landmarks d) as [[lm|prev]|];
    try (unfold in_unit; simpl; lra).
  destruct (absdiff gray prev) as [diff|]; [| unfold in_unit; simpl; lra].
  cbn [snd]. apply in_unit_Rmin_1.
  pose proof (median_nonneg diff). lra.
Qed.

Lemma analyze_micro_textures_unit f region :
  texture_scores_unit (analyze_micro_textures f region).
Proof.
  unfold Deepfake.analyze_micro_textures, texture_scores_unit.
  destruct (measure_texture f _) as [m|]; cbn.
  - repeat split; try apply texture_anomaly_score_unit;
      try apply boundary_artifacts_unit; try apply compression_artifacts_unit;
      apply in_unit_clip.
  - unfold in_unit. repeat split; lra.
Qed.

Lemma analyze_blink_patterns_unit (d : Deepfake.Detector Frame) lm d1 b :
  Deepfake.analyze_blink_patterns Frame d lm = (d1, Some b) ->
  in_unit (Deepfake.ba_blink_pattern_anomaly b)
  /\ in_unit (Deepfake.ba_blink_duration_anomaly b).
Proof.
  unfold Deepfake.analyze_blink_patterns.
  match goal with |- context [match ?o with Some _ => _ | None => _ end] =>
    destruct o as [avg_ear|] end; [| discriminate].
  match goal with |- context [Deepfake._detect_blink_pattern_anomaly ?h] =>
    destruct (Deepfake._detect_blink_pattern_anomaly h) as [v|] eqn:Hv end;
    simpl; [| discriminate].
  intros [= <- <-]. cbn. split.
  - eapply blink_pattern_anomaly_unit; eassumption.
  - apply blink_duration_anomaly_unit.
Qed.

Lemma analyze_face_geometry_unit (d : Deepfake.Detector Frame) lm d2 g :
  Deepfake.analyze_face_geometry Frame d lm = (d2, Some g) ->
  in_unit (Deepfake.ga_geometry_consistency_score g).
Proof.
  unfold Deepfake.analyze_face_geometry.
  repeat match goal with |- context [match ?l !! ?i with Some _ => _ | None => _ end] =>
    destruct (l !! i) end; try discriminate.
  intros [= <- <-]. cbn. apply geometry_consistency_unit.
Qed.

Lemma analyze_temporal_consistency_unit (d : Deepfake.Detector Frame) f d3 t :
  analyze_temporal_consistency d f = (d3, Some t) ->
  in_unit (Deepfake.ta_temporal_anomaly t).
Proof.
  unfold Deepfake.analyze_temporal_consistency.
  case_bool_decide.
  - intros [= <- <-]. cbn. apply in_unit_0.
  - match goal with |- context [mbind _ ?o] => destruct o as [diffs|] end;
      simpl; [| discriminate].
    intros [= <- <-]. cbn.
    case_bool_decide; [apply in_unit_clip | apply in_unit_0].
Qed.

(** C5, as the code has it.  A frame that is present, not empty, on which
    the cascade finds a face and which the colour conversion accepts is
    scored as follows.  Without landmarks it is reported with a face, the
    reduced estimate 0.5 texture + 0.2 and the flag [is_likely_deepfake]
    holding exactly when that score exceeds 0.6.  With landmarks, when the
    bounding box and the blink, geometry and temporal analyses all return,
    it is reported with a face, the score 0.35 texture + 0.25 blink
    periodicity + 0.2 geometry + 0.2 temporal anomaly and the flag holding
    exactly when the score exceeds 0.5; when one of them raises, it is
    reported without a face, with score 0.0 and no flag.  Every other
    frame is reported without a face and with score 0.0, and every result
    reported with a face comes from one of the two scored cases. *)
Theorem deepfake_score_formula (d : Deepfake.Detector Frame) (frame : option Frame) :
  let r := snd (deepfake_process_frame d frame) in
  let landmarks f :=
    if Deepfake.use_mediapipe Frame d then face_mesh_landmarks f else None in
  let pixel_landmarks f :=
    let '(h, w) := frame_shape f in
    (fun lm => map (fun p : Point =>
                      let '(x, y, z) := p in
                      (x * IZR w, y * IZR h, z)%R) lm)
      <$> landmarks f in
  let no_face :=
    {| Deepfake.face_detected := false; Deepfake.deepfake_score := 0.0%R;
       Deepfake.is_likely_deepfake := None;
       Deepfake.indicators := Deepfake.NoIndicators |} in
  let failed :=
    {| Deepfake.face_detected := false; Deepfake.deepfake_score := 0.0%R;
       Deepfake.is_likely_deepfake := None;
       Deepfake.indicators := Deepfake.ErrorIndicators |} in
  match Deepfake.indicators r with
  | Deepfake.FullIndicators texture blink geometry temporal =>
      Deepfake.face_detected r = true
      /\ (exists f, frame = Some f /\ is_Some (landmarks f))
      /\ Deepfake.deepfake_score r
         = (Deepfake.ta_anomaly_score texture * 0.35
            + Deepfake.ba_blink_pattern_anomaly blink * 0.25
            + Deepfake.ga_geometry_consistency_score geometry * 0.2
            + Deepfake.ta_temporal_anomaly temporal * 0.2)%R
      /\ exists flag, Deepfake.is_likely_deepfake r = Some flag
         /\ (flag = true <-> (Deepfake.deepfake_score r > 0.5)%R)
  | Deepfake.LimitedIndicators texture =>
      Deepfake.face_detected r = true
      /\ (exists f, frame = Some f /\ landmarks f = None)
      /\ Deepfake.deepfake_score r
         = (Deepfake.ta_anomaly_score texture * 0.5 + 0.2)%R
      /\ exists flag, Deepfake.is_likely_deepfake r = Some flag
         /\ (flag = true <-> (Deepfake.deepfake_score r > 0.6)%R)
  | _ => Deepfake.face_detected r = false
  end
  /\ (forall f,
        frame = Some f -> frame_size f <> 0%N ->
        detect_faces_cascade f <> [] -> rgb_converts f = true ->
        match pixel_landmarks f with
        | None =>
            let texture := analyze_micro_textures f None in
            Deepfake.indicators r = Deepfake.LimitedIndicators texture
            /\ Deepfake.face_detected r = true
            /\ Deepfake.deepfake_score r
               = (Deepfake.ta_anomaly_score texture * 0.5 + 0.2)%R
            /\ Deepfake.is_likely_deepfake r
               = Some (Rgtb (Deepfake.deepfake_score r) 0.6)
        | Some lm =>
            match Deepfake.face_region_of (frame_shape f) lm with
            | None => r = failed
            | Some region =>
                let blink := Deepfake.analyze_blink_patterns Frame d lm in
                let geometry :=
                  Deepfake.analyze_face_geometry Frame (fst blink) lm in
                let temporal :=
                  analyze_temporal_consistency (fst geometry) f in
                match snd blink, snd geometry, snd temporal with
                | Some blink_analysis, Some geometry_analysis,
                  Some temporal_analysis =>
                    let texture := analyze_micro_textures f (Some region) in
                    Deepfake.indicators r
                    = Deepfake.FullIndicators texture blink_analysis
                        geometry_analysis temporal_analysis
                    /\ Deepfake.face_detected r = true
                    /\ Deepfake.deepfake_score r
                       = (Deepfake.ta_anomaly_score texture * 0.35
                          + Deepfake.ba_blink_pattern_anomaly blink_analysis
                            * 0.25
                          + Deepfake.ga_geometry_consistency_score
                              geometry_analysis * 0.2
                          + Deepfake.ta_temporal_anomaly temporal_analysis
                            * 0.2)%R
                    /\ Deepfake.is_likely_deepfake r
                       = Some (Rgtb (Deepfake.deepfake_score r) 0.5)
                | _, _, _ => r = failed
                end
            end
        end)
  /\ (forall f,
        frame = Some f -> frame_size f <> 0%N ->
        detect_faces_cascade f <> [] -> rgb_converts f = false ->
        r = failed)
  /\ (frame = None
      \/ (exists f, frame = Some f
                    /\ (frame_size f = 0%N \/ detect_faces_cascade f = [])) ->
      r = no_face).
Proof.
  intros r landmarks pixel_landmarks no_face failed.
  assert (Hfaces : forall f, detect_faces_cascade f <> [] ->
            negb (bool_decide (0 < length (detect_faces_cascade f))%nat) = false).
  { intros f Hf. rewrite bool_decide_eq_true_2; [reflexivity |].
    destruct (detect_faces_cascade f); [congruence | simpl; lia]. }
  assert (Hpix : forall f,
            (if Deepfake.use_mediapipe Frame d
             then let '(h, w) := frame_shape f in
                  (fun lm => map (fun p : Point =>
                                    let '(x, y, z) := p in
                                    (x * IZR w, y * IZR h, z)%R) lm)
                    <$> face_mesh_landmarks f
             else None) = pixel_landmarks f).
  { intros f. subst pixel_landmarks landmarks. cbv beta.
    destruct (Deepfake.use_mediapipe Frame d); [reflexivity |].
    destruct (frame_shape f). reflexivity. }
  split; [| split; [| split]].
  { clear Hfaces Hpix pixel_landmarks no_face failed. subst r.
    unfold Deepfake.process_frame.
    destruct frame as [f|]; [| reflexivity].
    case_bool_decide; [reflexivity |].
    destruct (negb _); [reflexivity |].
    destruct (rgb_converts f); [| reflexivity].
    assert (Hlm : (if Deepfake.use_mediapipe Frame d
                   then let '(h, w) := frame_shape f in
                        (fun lm => map (fun p : Point =>
                                          let '(x, y, z) := p in
                                          (x * IZR w, y * IZR h, z)%R) lm)
                          <$> face_mesh_landmarks f
                   else None) = None <-> landmarks f = None).
    { subst landmarks. cbv beta. destruct (Deepfake.use_mediapipe Frame d);
        [| tauto].
      destruct (frame_shape f) as [h w].
      destruct (face_mesh_landmarks f); simpl; split; congruence. }
    match goal with |- context [match ?o with Some _ => _ | None => _ end] =>
      destruct o as [lm|] eqn:Elm end.
    - assert (Hsome : is_Some (landmarks f)).
      { destruct (landmarks f) eqn:E; [eauto |].
        destruct Hlm as [_ Hnone]. specialize (Hnone eq_refl). discriminate. }
      destruct (Deepfake.face_region_of (frame_shape f) lm) as [region|];
        [| reflexivity].
      destruct (Deepfake.analyze_blink_patterns Frame d lm) as [d1 [blink|]] eqn:Eb;
        [| reflexivity].
      destruct (Deepfake.analyze_face_geometry Frame d1 lm) as [d2 [geometry|]] eqn:Eg;
        [| reflexivity].
      destruct (analyze_temporal_consistency d2 f) as [d3 [temporal|]] eqn:Et;
        [| reflexivity].
      cbn.
      destruct (analyze_micro_textures_unit f (Some region)) as (Ht & _).
      destruct (analyze_blink_patterns_unit _ _ _ _ Eb) as (Hb & _).
      pose proof (analyze_face_geometry_unit _ _ _ _ Eg) as Hg.
      pose proof (analyze_temporal_consistency_unit _ _ _ _ Et) as Htm.
      unfold in_unit in *.
      rewrite clip_id by lra.
      split; [reflexivity |]. split; [exists f; split; [reflexivity | exact Hsome] |].
      split; [reflexivity |].
      eexists. split; [reflexivity |]. apply Rgtb_true.
    - cbn.
      destruct (analyze_micro_textures_unit f None) as (Ht & _).
      unfold in_unit in *.
      rewrite clip_id by lra.
      split; [reflexivity |].
      split; [exists f; split; [reflexivity | apply Hlm; reflexivity] |].
      split; [reflexivity |].
      eexists. split; [reflexivity |]. apply Rgtb_true. }
  - intros f -> Hsize Hface Hrgb. subst r.
    unfold Deepfake.process_frame.
    rewrite bool_decide_eq_false_2 by exact Hsize.
    rewrite (Hfaces f Hface), Hrgb, Hpix.
    destruct (pixel_landmarks f) as [lm|].
    + destruct (Deepfake.face_region_of (frame_shape f) lm) as [region|];
        [| reflexivity].
      cbv zeta.
      destruct (Deepfake.analyze_blink_patterns Frame d lm)
        as [d1 [blink|]] eqn:Eb; cbn [fst snd]; [| reflexivity].
      destruct (Deepfake.analyze_face_geometry Frame d1 lm)
        as [d2 [geometry|]] eqn:Eg; cbn [fst snd]; [| reflexivity].
      destruct (analyze_temporal_consistency d2 f)
        as [d3 [temporal|]] eqn:Et; cbn [fst snd]; [| reflexivity].
      cbn [Deepfake.indicators Deepfake.face_detected Deepfake.deepfake_score
           Deepfake.is_likely_deepfake].
      destruct (analyze_micro_textures_unit f (Some region)) as (Ht & _).
      destruct (analyze_blink_patterns_unit _ _ _ _ Eb) as (Hb & _).
      pose proof (analyze_face_geometry_unit _ _ _ _ Eg) as Hg.
      pose proof (analyze_temporal_consistency_unit _ _ _ _ Et) as Htm.
      unfold in_unit in *.
      rewrite clip_id by lra.
      repeat split; reflexivity.
    + cbv zeta.
      cbn [snd Deepfake.indicators Deepfake.face_detected
           Deepfake.deepfake_score Deepfake.is_likely_deepfake].
      destruct (analyze_micro_textures_unit f None) as (Ht & _).
      unfold in_unit in *.
      rewrite clip_id by lra.
      repeat split; reflexivity.
  - intros f -> Hsize Hface Hrgb. subst r.
    unfold Deepfake.process_frame.
    rewrite bool_decide_eq_false_2 by exact Hsize.
    rewrite (Hfaces f Hface), Hrgb. reflexivity.
  - intros [-> | (f & -> & [Hsize | Hface])]; subst r;
      unfold Deepfake.process_frame.
    + reflexivity.
    + rewrite bool_decide_eq_true_2 by exact Hsize. reflexivity.
    + case_bool_decide; [reflexivity |].
      rewrite Hface. reflexivity.
Qed.

(** C8. For every frame and every detector state, each liveness confidence
    (blink, movement, mouth), the liveness score, the deepfake score and
    each texture, periodicity, duration, geometry and temporal score of the
    analysis lies in the closed interval from 0 to 1. *)
Theorem frame_signals_in_unit_interval
    (ld : Liveness.Detector) (dd : Deepfake.Detector Frame)
    (frame : option Frame) :
  let lr := snd (liveness_process_frame ld frame) in
  let dr := snd (deepfake_process_frame dd frame) in
  in_unit (Liveness.liveness_score lr)
  /\ match Liveness.detections lr with
     | Liveness.Checks blink head _ mouth =>
         in_unit (Liveness.confidence blink)
         /\ in_unit (Liveness.confidence head)
         /\ in_unit (Liveness.confidence mouth)
     | _ => True
     end
  /\ in_unit (Deepfake.deepfake_score dr)
  /\ match Deepfake.indicators dr with
     | Deepfake.FullIndicators texture blink geometry temporal =>
         texture_scores_unit texture
         /\ in_unit (Deepfake.ba_blink_pattern_anomaly blink)
         /\ in_unit (Deepfake.ba_blink_duration_anomaly blink)
         /\ in_unit (Deepfake.ga_geometry_consistency_score geometry)
         /\ in_unit (Deepfake.ta_temporal_anomaly temporal)
     | Deepfake.LimitedIndicators texture => texture_scores_unit texture
     | _ => True
     end.
Proof.
  intros lr dr. subst dr.
  assert (HL : in_unit (Liveness.liveness_score lr)
     /\ match Liveness.detections lr with
        | Liveness.Checks blink head _ mouth =>
            in_unit (Liveness.confidence blink)
            /\ in_unit (Liveness.confidence head)
            /\ in_unit (Liveness.confidence mouth)
        | _ => True
        end).
  { subst lr. unfold Liveness.process_frame.
    destruct frame as [f|]; [| split; [apply in_unit_0 | exact I]].
    case_bool_decide; [split; [apply in_unit_0 | exact I] |].
    destruct (rgb_converts f); [| split; [apply in_unit_0 | exact I]].
    destruct (if Liveness.use_mediapipe ld then face_mesh_landmarks f else None)
      as [lm|].
    - pose proof (detect_blink_unit (Some lm)) as Hb.
      pose proof (detect_head_movement_unit ld (Some lm)) as Hm.
      pose proof (detect_mouth_open_unit (Some lm)) as Ho.
      destruct (Liveness.detect_blink (Some lm)) as [bd bc].
      destruct (Liveness.detect_head_movement ld (Some lm)) as [d1 [[md mc] mdet]].
      destruct (Liveness.detect_mouth_open (Some lm)) as [od oc].
      cbn in *. unfold in_unit in *. repeat split; lra.
    - pose proof (detect_motion_in_frame_unit ld f) as Hm.
      destruct (Liveness.detect_motion_in_frame Frame gray_of ld f) as [d1 motion].
      cbn in *. unfold in_unit in *.
      destruct (bool_decide (0 < length (detect_faces_cascade f))%nat);
        unfold Rmax; try destruct (Rle_dec _ _); repeat split; lra. }
  destruct HL as [HL1 HL2].
  split; [exact HL1 |]. split; [exact HL2 |].
  unfold Deepfake.process_frame.
  destruct frame as [f|]; [| split; [apply in_unit_0 | exact I]].
  case_bool_decide; [split; [apply in_unit_0 | exact I] |].
  destruct (negb _); [split; [apply in_unit_0 | exact I] |].
  destruct (rgb_converts f); [| split; [apply in_unit_0 | exact I]].
  match goal with |- context [match ?o with Some _ => _ | None => _ end] =>
    destruct o as [lm|] end.
  - destruct (Deepfake.face_region_of (frame_shape f) lm) as [region|];
      [| split; [apply in_unit_0 | exact I]].
    destruct (Deepfake.analyze_blink_patterns Frame dd lm) as [d1 [blink|]] eqn:Eb;
      [| split; [apply in_unit_0 | exact I]].
    destruct (Deepfake.analyze_face_geometry Frame d1 lm) as [d2 [geometry|]] eqn:Eg;
      [| split; [apply in_unit_0 | exact I]].
    destruct (analyze_temporal_consistency d2 f) as [d3 [temporal|]] eqn:Et;
      [| split; [apply in_unit_0 | exact I]].
    cbn. split; [apply in_unit_clip |].
    split; [apply analyze_micro_textures_unit |].
    destruct (analyze_blink_patterns_unit _ _ _ _ Eb) as (Hb1 & Hb2).
    split; [exact Hb1 |]. split; [exact Hb2 |].
    split; [eapply analyze_face_geometry_unit; eassumption
           | eapply analyze_temporal_consistency_unit; eassumption].
  - cbn. split; [apply in_unit_clip | apply analyze_micro_textures_unit].
Qed.

End FrameScores.

Lemma mean_four (a b c d : R) : mean [a; b; c; d] = ((a + b + c + d) / 4)%R.
Proof. unfold mean, Rsum. simpl. lra. Qed.

Lemma soft_texture_anomaly :
  Deepfake._compute_texture_anomaly_score
    (Deepfake.tm_laplacian_variance soft_texture)
    (Deepfake.tm_edge_density soft_texture)
    (Deepfake._analyze_smoothness soft_texture)
    (Deepfake._detect_boundary_artifacts soft_texture) = 0.72%R.
Proof.
  assert (Hs : Deepfake._analyze_smoothness soft_texture = 1%R).
  { unfold Deepfake._analyze_smoothness, soft_texture. simpl.
    rewrite clip_id; lra. }
  assert (Hb : Deepfake._detect_boundary_artifacts soft_texture = 0.5%R).
  { unfold Deepfake._detect_boundary_artifacts, soft_texture.
    cbn [Deepfake.tm_crop_shape Deepfake.tm_border_variances].
    rewrite bool_decide_eq_false_2 by (vm_compute; discriminate).
    rewrite mean_four, clip_id; lra. }
  rewrite Hs, Hb. unfold Deepfake._compute_texture_anomaly_score, soft_texture.
  simpl. rewrite (clip_id (500 / 1000.0)) by lra.
  rewrite clip_id; lra.
Qed.

Lemma cascade_only_frame_scored :
  Deepfake.face_detected cascade_only_frame = true
  /\ Deepfake.deepfake_score cascade_only_frame = clip (0.72 * 0.5 + 0.2) 0 1
  /\ Deepfake.is_likely_deepfake cascade_only_frame
     = Some (Rgtb (0.72 * 0.5 + 0.2) 0.6).
Proof.
  unfold cascade_only_frame, Deepfake.process_frame.
  rewrite bool_decide_eq_false_2 by discriminate.
  rewrite bool_decide_eq_true_2 by (simpl; lia).
  cbn -[soft_texture]. rewrite soft_texture_anomaly.
  repeat split; reflexivity.
Qed.

(** The flag does not follow the 0.5 threshold in both branches: on this
    frame without landmarks the score is 0.56, above 0.5, and the flag is
    off. *)
Lemma reduced_estimate_flag_above_half :
  Deepfake.face_detected cascade_only_frame = true
  /\ Deepfake.deepfake_score cascade_only_frame = 0.56%R
  /\ (Deepfake.deepfake_score cascade_only_frame > 0.5)%R
  /\ Deepfake.is_likely_deepfake cascade_only_frame = Some false.
Proof.
  destruct cascade_only_frame_scored as (Hface & Hscore & Hflag).
  rewrite clip_id in Hscore by lra.
  split; [exact Hface |].
  split; [rewrite Hscore; lra |].
  split; [rewrite Hscore; lra |].
  rewrite Hflag. f_equal. apply Rgtb_false. lra.
Qed.

(** ** The blink-periodicity signal *)

Lemma Rsum_cons x l : Rsum (x :: l) = (x + Rsum l)%R.
Proof. reflexivity. Qed.

Lemma sumsq_cons x l : sumsq (x :: l) = (x * x + sumsq l)%R.
Proof. reflexivity. Qed.

Lemma sumsq_nonneg l : (0 <= sumsq l)%R.
Proof.
  induction l as [|x l IH].
  - unfold sumsq, Rsum. simpl. lra.
  - rewrite sumsq_cons. nra.
Qed.

Lemma sumsq_drop k l : (sumsq (drop k l) <= sumsq l)%R.
Proof.
  revert k. induction l as [|x l IH]; intros [|k]; simpl drop; try lra.
  rewrite sumsq_cons. specialize (IH k). nra.
Qed.

(** A sum of products is at most the mean of the two sums of squares. *)
Lemma zip_products_bound (u v : list R) :
  (Rsum (zip_with Rmult u v) <= (sumsq u + sumsq v) / 2)%R.
Proof.
  assert (Hnil : sumsq [] = 0%R) by reflexivity.
  assert (Hsum : Rsum [] = 0%R) by reflexivity.
  revert v. induction u as [|x u IH]; intros [|y v]; simpl zip_with.
  - rewrite Hnil, Hsum. clear. lra.
  - pose proof (sumsq_nonneg (y :: v)) as H. rewrite Hnil, Hsum.
    revert H. generalize (sumsq (y :: v)). clear. intros s H. lra.
  - pose proof (sumsq_nonneg (x :: u)) as H. rewrite Hnil, Hsum.
    revert H. generalize (sumsq (x :: u)). clear. intros s H. lra.
  - rewrite Rsum_cons, !sumsq_cons. specialize (IH v). clear Hnil Hsum.
    pose proof (Rle_0_sqr (x - y)) as Hsq. unfold Rsqr in Hsq. lra.
Qed.

Lemma autocorrelation_0 a : autocorrelation a 0 = sumsq a.
Proof.
  unfold autocorrelation. rewrite drop_0.
  induction a as [|x a IH]; [reflexivity |].
  simpl zip_with. rewrite Rsum_cons, sumsq_cons, IH. reflexivity.
Qed.

(** No lag correlates more than lag zero. *)
Lemma autocorrelation_le_0 a k :
  (autocorrelation a k <= autocorrelation a 0)%R.
Proof.
  rewrite autocorrelation_0. unfold autocorrelation.
  pose proof (zip_products_bound (drop k a) a).
  pose proof (sumsq_drop k a). lra.
Qed.

Lemma sumsq_zero a : sumsq a = 0%R -> Forall (fun x => x = 0%R) a.
Proof.
  induction a as [|x a IH]; intros H; [constructor |].
  rewrite sumsq_cons in H. pose proof (sumsq_nonneg a).
  assert (x * x = 0)%R by nra. assert (sumsq a = 0)%R by nra.
  constructor; [nra | auto].
Qed.

Lemma Rsum_flat c a : Forall (fun x => x = c) a -> Rsum a = (INR (length a) * c)%R.
Proof.
  induction 1 as [|x a Hx _ IH].
  - simpl. unfold Rsum. simpl. lra.
  - rewrite Rsum_cons, IH, length_cons, S_INR. subst x. lra.
Qed.

Lemma Rsum_zeros a : Forall (fun x => x = 0%R) a -> Rsum a = 0%R.
Proof. intros H. rewrite (Rsum_flat 0 a H). lra. Qed.

Lemma mean_flat c a :
  a <> [] -> Forall (fun x => x = c) a -> mean a = c.
Proof.
  intros Hne H. unfold mean. rewrite (Rsum_flat c a H).
  assert (0 < INR (length a))%R.
  { apply lt_0_INR. destruct a; [contradiction | simpl; lia]. }
  field. lra.
Qed.

(** A constant sequence has no variance. *)
Lemma var_flat c a : Forall (fun x => x = c) a -> var a = 0%R.
Proof.
  intros H. destruct a as [|x a'] eqn:Ea.
  - unfold var, mean, Rsum. simpl. lra.
  - rewrite <- Ea in *. assert (Hne : a <> []) by (subst a; discriminate).
    unfold var at 1. unfold mean at 1.
    rewrite Rsum_zeros; [lra |].
    rewrite Forall_map. rewrite (mean_flat c a Hne H).
    eapply Forall_impl; [exact H |]. intros y ->. simpl. lra.
Qed.

Lemma std_flat c a : Forall (fun x => x = c) a -> std a = 0%R.
Proof. intros H. unfold std. rewrite (var_flat c a H). apply sqrt_0. Qed.

(** Past the flatness test some sample is non-zero. *)
Lemma sumsq_pos_of_std a : ~ (std a < 1e-6)%R -> (0 < sumsq a)%R.
Proof.
  intros Hstd. pose proof (sumsq_nonneg a) as Hn.
  destruct (Req_dec_T (sumsq a) 0) as [Hz|Hnz]; [| lra].
  exfalso. apply Hstd. rewrite (std_flat 0 a (sumsq_zero a Hz)). lra.
Qed.

(** The term of [correlate_full] for the entry at lag [k], once its index
    arithmetic is resolved. *)
Lemma lag_terms_sum (x y : list R) (k : nat) :
  Rsum (imap (fun (l : nat) (xl : R) =>
                if bool_decide (k <= l)%nat
                then (xl * nth (l - k) y 0)%R else 0%R) x)
  = Rsum (zip_with Rmult (drop k x) y).
Proof.
  revert k y. induction x as [|x0 x IH]; intros k y.
  - destruct k; reflexivity.
  - rewrite imap_cons, Rsum_cons. destruct k as [|k].
    + rewrite drop_0. destruct y as [|y0 y].
      * simpl zip_with.
        rewrite (imap_ext _ (fun (l : nat) (xl : R) =>
                   if bool_decide (0 <= l)%nat
                   then (xl * nth (l - 0) [] 0)%R else 0%R)).
        -- rewrite IH. rewrite drop_0.
           replace (zip_with Rmult x []) with (@nil R) by (destruct x; reflexivity).
           simpl. change (Rsum []) with 0%R. lra.
        -- intros l xl _. simpl.
           rewrite ?bool_decide_eq_true_2 by lia.
           destruct (l - 0)%nat; reflexivity.
      * simpl zip_with. rewrite Rsum_cons.
        rewrite (imap_ext _ (fun (l : nat) (xl : R) =>
                   if bool_decide (0 <= l)%nat
                   then (xl * nth (l - 0) y 0)%R else 0%R)).
        -- rewrite IH, drop_0. rewrite ?bool_decide_eq_true_2 by lia.
           simpl. lra.
        -- intros l xl _. simpl.
           rewrite ?bool_decide_eq_true_2 by lia.
           rewrite ?Nat.sub_0_r. reflexivity.
    + rewrite bool_decide_eq_false_2 by lia.
      rewrite (imap_ext _ (fun (l : nat) (xl : R) =>
                 if bool_decide (k <= l)%nat
                 then (xl * nth (l - k) y 0)%R else 0%R)).
      * rewrite IH. simpl drop. lra.
      * intros l xl _. simpl.
        destruct (bool_decide (k <= l)%nat) eqn:E.
        -- apply bool_decide_eq_true in E.
           rewrite bool_decide_eq_true_2 by lia. reflexivity.
        -- apply bool_decide_eq_false in E.
           rewrite bool_decide_eq_false_2 by lia. reflexivity.
Qed.

Lemma map_add_seq (j n : nat) : map (Nat.add j) (seq 0 n) = seq j n.
Proof.
  revert j. induction n as [|n IH]; intros j; simpl.
  - reflexivity.
  - rewrite Nat.add_0_r. f_equal. rewrite <- seq_shift, map_map.
    rewrite <- (IH (S j)). apply map_ext. intros k. lia.
Qed.

(** The second half of the full self-correlation lists the lags
    [0 .. len - 1]. *)
Lemma correlation_lags (a : list R) :
  a <> [] ->
  drop (length (correlate_full a a) / 2) (correlate_full a a)
  = map (autocorrelation a) (seq 0 (length a)).
Proof.
  intros Hne. set (n := length a).
  assert (Hn : (1 <= n)%nat).
  { subst n. destruct a; [contradiction | simpl; lia]. }
  unfold correlate_full. fold n.
  rewrite length_map, length_seq.
  replace ((n + n - 1) / 2)%nat with (n - 1)%nat
    by (apply Nat.div_unique with (r := 1%nat); lia).
  rewrite skipn_map, drop_seq.
  replace (n + n - 1 - (n - 1))%nat with n by lia.
  rewrite Nat.add_0_l, <- (map_add_seq (n - 1) n).
  rewrite map_map. apply map_ext. intros k.
  unfold autocorrelation. rewrite <- lag_terms_sum.
  f_equal. apply imap_ext. intros l xl _. simpl.
  destruct (bool_decide (k <= l)%nat) eqn:E.
  - apply bool_decide_eq_true in E.
    rewrite bool_decide_eq_true_2 by lia.
    do 2 f_equal. lia.
  - apply bool_decide_eq_false in E.
    rewrite bool_decide_eq_false_2 by lia. reflexivity.
Qed.

Lemma foldl_Rmax_le (b : R) (l : list R) (x : R) :
  (x <= b)%R -> Forall (fun y => (y <= b)%R) l -> (foldl Rmax x l <= b)%R.
Proof.
  revert x. induction l as [|y l IH]; intros x Hx Hl; simpl.
  - exact Hx.
  - inversion Hl; subst. apply IH; [| assumption].
    unfold Rmax. destruct (Rle_dec x y); assumption.
Qed.

Lemma np_max_le (b : R) (l : list R) (v : R) :
  Forall (fun y => (y <= b)%R) l -> np_max l = Some v -> (v <= b)%R.
Proof.
  destruct l as [|x l]; [discriminate |].
  intros Hl [= <-]. inversion Hl; subst. apply foldl_Rmax_le; assumption.
Qed.

(** The code's slice of the normalised correlation is the window of
    [periodicity_peak]. *)
Lemma pattern_window (a : list R) :
  a <> [] ->
  let correlation := correlate_full a a in
  let correlation := drop (length correlation / 2) correlation in
  let correlation := map (fun c => (c / nth 0 correlation 0)%R) correlation in
  np_max (slice 10 (Nat.min 50 (length correlation)) correlation)
  = periodicity_peak a.
Proof.
  intros Hne. cbv zeta. rewrite (correlation_lags a Hne).
  assert (Hn : (1 <= length a)%nat).
  { destruct a; [contradiction | simpl; lia]. }
  assert (H0 : nth 0 (map (autocorrelation a) (seq 0 (length a))) 0%R
               = autocorrelation a 0).
  { destruct (length a); [lia | reflexivity]. }
  rewrite H0, map_map, length_map, length_seq.
  unfold slice, periodicity_peak.
  rewrite firstn_map, skipn_map, take_seq, drop_seq.
  replace (Nat.min (Nat.min 50 (length a)) (length a))
    with (Nat.min 50 (length a)) by lia.
  reflexivity.
Qed.

Lemma periodicity_peak_defined (a : list R) :
  (20 <= length a)%nat -> is_Some (periodicity_peak a).
Proof.
  intros Hn. unfold periodicity_peak.
  destruct (Nat.min 50 (length a) - 10)%nat as [|m] eqn:E; [lia |].
  simpl. eauto.
Qed.

Lemma periodicity_peak_le_1 (a : list R) (peak : R) :
  (0 < sumsq a)%R -> periodicity_peak a = Some peak -> (peak <= 1)%R.
Proof.
  intros Hpos. unfold periodicity_peak. apply np_max_le.
  rewrite Forall_map. apply Forall_forall. intros k _. simpl.
  pose proof (autocorrelation_le_0 a k) as Hle.
  rewrite autocorrelation_0 in *.
  apply (Rmult_le_reg_r (sumsq a)); [exact Hpos |].
  unfold Rdiv. rewrite Rmult_assoc, Rinv_l by lra. lra.
Qed.

(** C9, as the code has it. With fewer than 20 blink samples the anomaly is
    0.  With at least 20 samples it is 1.0 whenever the standard deviation
    of the history is below 1e-6, which covers every constant history; past
    that test it is clip(peak - 0.5, 0, 1), peak being the largest
    normalised self-correlation over the lags from 10 up to but excluding
    min(50, length), and it is then at most 0.5, so strictly below 1.0. *)
Theorem blink_pattern_anomaly_cases (history : list R) :
  ((length history < 20)%nat ->
   Deepfake._detect_blink_pattern_anomaly history = Some 0.0%R)
  /\ ((20 <= length history)%nat -> (std history < 1e-6)%R ->
      Deepfake._detect_blink_pattern_anomaly history = Some 1.0%R)
  /\ (forall c, (20 <= length history)%nat ->
      Forall (fun x => x = c) history ->
      Deepfake._detect_blink_pattern_anomaly history = Some 1.0%R)
  /\ ((20 <= length history)%nat -> ~ (std history < 1e-6)%R ->
      exists peak,
        periodicity_peak history = Some peak
        /\ Deepfake._detect_blink_pattern_anomaly history
           = Some (clip (peak - 0.5) 0 1)
        /\ (clip (peak - 0.5) 0 1 <= 0.5)%R
        /\ (clip (peak - 0.5) 0 1 < 1.0)%R).
Proof.
  assert (Hflat : (20 <= length history)%nat -> (std history < 1e-6)%R ->
            Deepfake._detect_blink_pattern_anomaly history = Some 1.0%R).
  { intros Hlen Hstd. unfold Deepfake._detect_blink_pattern_anomaly.
    rewrite bool_decide_eq_false_2 by lia.
    apply Rltb_true in Hstd. rewrite Hstd. reflexivity. }
  split; [| split; [exact Hflat | split]].
  - intros Hlen. unfold Deepfake._detect_blink_pattern_anomaly.
    rewrite bool_decide_eq_true_2 by exact Hlen. reflexivity.
  - intros c Hlen Hc. apply Hflat; [exact Hlen |].
    rewrite (std_flat c history Hc). lra.
  - intros Hlen Hstd.
    assert (Hne : history <> []) by (destruct history; [simpl in Hlen; lia | discriminate]).
    destruct (periodicity_peak_defined history Hlen) as [peak Hpeak].
    exists peak. split; [exact Hpeak |].
    pose proof (periodicity_peak_le_1 history peak
                  (sumsq_pos_of_std history Hstd) Hpeak) as Hle.
    split; [| split].
    + unfold Deepfake._detect_blink_pattern_anomaly.
      rewrite bool_decide_eq_false_2 by lia.
      assert (Hb : Rltb (std history) 1e-6 = false)
        by (apply Rltb_false; lra).
      rewrite Hb. rewrite (pattern_window history Hne), Hpeak. reflexivity.
    + unfold clip, Rmin, Rmax. repeat destruct (Rle_dec _ _); lra.
    + unfold clip, Rmin, Rmax. repeat destruct (Rle_dec _ _); lra.
Qed.

Lemma nearly_flat_history_var :
  (0 < var nearly_flat_history < 1e-12)%R.
Proof.
  assert (Hm : mean nearly_flat_history = 0.300000005%R).
  { unfold mean, nearly_flat_history, Rsum. simpl. lra. }
  unfold var. rewrite Hm. unfold mean, nearly_flat_history, Rsum. simpl.
  lra.
Qed.

(** Non-zero variance does not keep the anomaly below 1.0: this history has
    20 samples and non-zero variance, yet falls under the flatness test and
    gets 1.0. *)
Lemma nearly_flat_history_anomaly :
  length nearly_flat_history = 20%nat
  /\ var nearly_flat_history <> 0%R
  /\ Deepfake._detect_blink_pattern_anomaly nearly_flat_history = Some 1.0%R
  /\ ~ (exists v, Deepfake._detect_blink_pattern_anomaly nearly_flat_history = Some v
                  /\ (v < 1.0)%R).
Proof.
  pose proof nearly_flat_history_var as [Hpos Hsmall].
  assert (Hstd : (std nearly_flat_history < 1e-6)%R).
  { unfold std.
    replace 1e-6%R with (sqrt (1e-6 * 1e-6)) by (apply sqrt_square; lra).
    apply sqrt_lt_1_alt. split; lra. }
  assert (Hone : Deepfake._detect_blink_pattern_anomaly nearly_flat_history
                 = Some 1.0%R).
  { unfold Deepfake._detect_blink_pattern_anomaly.
    rewrite bool_decide_eq_false_2 by (simpl; lia).
    apply Rltb_true in Hstd. rewrite Hstd. reflexivity. }
  split; [reflexivity |]. split; [lra |]. split; [exact Hone |].
  intros (v & Hv & Hlt). rewrite Hone in Hv. injection Hv as <-. lra.
Qed.


(** * Further properties of the code *)

(** ** Alert store: active alerts and statistics *)

Section AlertStoreFacts.

Import Alerting Escalation.

Variable now_iso : nat -> string.

(** X1. Creating an alert, whatever its type, severity and session, makes
    the active-alert list exactly one longer: the new alert is appended
    after the alerts that were active before. *)
Theorem create_alert_one_more_active
    (s : Service) ty sid sev msg det uid :
  let created := create_alert now_iso s ty sid sev msg det uid in
  get_active_alerts (fst created) = get_active_alerts s ++ [snd created]
  /\ length (get_active_alerts (fst created))
     = S (length (get_active_alerts s)).
Proof.
  intros created. subst created. unfold get_active_alerts, create_alert.
  cbn [fst snd alerts]. rewrite filter_app.
  rewrite filter_cons_True by reflexivity. rewrite filter_nil.
  split; [reflexivity |]. rewrite length_app. simpl. lia.
Qed.

Lemma count_by_severity (l : list Alert) :
  sum_list (map (fun sev => length (filter (fun a => severity a = sev) l))
              all_severities) = length l.
Proof.
  induction l as [|a l IH]; [reflexivity |].
  unfold all_severities in *. cbn [map sum_list] in *.
  unfold Datatypes.id in *. rewrite !filter_cons. destruct (severity a);
    repeat case_decide; try congruence; simpl; lia.
Qed.

Lemma count_by_type (l : list Alert) :
  sum_list (map (fun ty => length (filter (fun a => alert_type a = ty) l))
              all_alert_types) = length l.
Proof.
  induction l as [|a l IH]; [reflexivity |].
  unfold all_alert_types in *. cbn [map sum_list] in *.
  unfold Datatypes.id in *. rewrite !filter_cons. destruct (alert_type a);
    repeat case_decide; try congruence; simpl; lia.
Qed.

(** X2. In the statistics every alert is counted once per breakdown: the
    counts by severity add up to the total, so do the counts by type, each
    breakdown lists every member of its enumeration, and the active count
    never exceeds the total. *)
Theorem alert_statistics_add_up (s : Service) :
  let stats := get_alert_statistics s in
  sum_list (map snd (by_severity stats)) = total_alerts stats
  /\ sum_list (map snd (by_type stats)) = total_alerts stats
  /\ map fst (by_severity stats) = ["low"; "medium"; "high"; "critical"]
  /\ length (by_type stats) = 8%nat
  /\ (active_alerts stats <= total_alerts stats)%nat.
Proof.
  intros stats. subst stats. unfold get_alert_statistics.
  cbn [by_severity by_type total_alerts active_alerts].
  rewrite !map_map. cbn [snd].
  split; [apply count_by_severity |].
  split; [apply count_by_type |].
  split; [reflexivity |]. split; [reflexivity |].
  apply length_filter.
Qed.

Lemma severity_value_inj (s1 s2 : AlertSeverity) :
  bool_decide (severity_value s1 = severity_value s2) = bool_decide (s1 = s2).
Proof. destruct s1, s2; reflexivity. Qed.

Lemma alert_type_value_inj (t1 t2 : AlertType) :
  bool_decide (alert_type_value t1 = alert_type_value t2) = bool_decide (t1 = t2).
Proof. destruct t1, t2; reflexivity. Qed.

Lemma count_after_append {A : Type} (P : A -> Prop) `{forall x, Decision (P x)}
    (l : list A) (a : A) :
  length (filter P (l ++ [a]))
  = if bool_decide (P a) then S (length (filter P l)) else length (filter P l).
Proof.
  rewrite filter_app, length_app, filter_cons, filter_nil.
  case_bool_decide; [rewrite decide_True by assumption
                    | rewrite decide_False by assumption]; simpl; lia.
Qed.

(** X3. Creating an alert raises the total and the active count by one,
    raises the count of its own severity and of its own type by one, and
    leaves every other count as it was. *)
Theorem alert_statistics_after_create
    (s : Service) ty sid sev msg det uid :
  let before := get_alert_statistics s in
  let after :=
    get_alert_statistics (fst (create_alert now_iso s ty sid sev msg det uid)) in
  total_alerts after = S (total_alerts before)
  /\ active_alerts after = S (active_alerts before)
  /\ by_severity after
     = map (fun entry =>
              (fst entry,
               if bool_decide (fst entry = severity_value sev)
               then S (snd entry) else snd entry))
           (by_severity before)
  /\ by_type after
     = map (fun entry =>
              (fst entry,
               if bool_decide (fst entry = alert_type_value ty)
               then S (snd entry) else snd entry))
           (by_type before).
Proof.
  intros before after. subst before after.
  unfold get_alert_statistics, create_alert.
  cbn [fst alerts total_alerts active_alerts by_severity by_type].
  split; [rewrite length_app; simpl; lia |].
  split.
  { rewrite count_after_append. rewrite bool_decide_eq_true_2 by reflexivity.
    reflexivity. }
  split.
  - rewrite map_map. apply map_ext. intros sev'. cbn [fst snd].
    rewrite count_after_append. cbn [severity].
    rewrite severity_value_inj.
    rewrite (bool_decide_ext (sev = sev') (sev' = sev)) by (split; congruence).
    reflexivity.
  - rewrite map_map. apply map_ext. intros ty'. cbn [fst snd].
    rewrite count_after_append. cbn [alert_type].
    rewrite alert_type_value_inj.
    rewrite (bool_decide_ext (ty = ty') (ty' = ty)) by (split; congruence).
    reflexivity.
Qed.

End AlertStoreFacts.

Section AcknowledgeFacts.

Import Alerting Escalation.

Variable now_iso : nat -> string.

Lemma count_middle {A : Type} (P : A -> Prop) `{forall x, Decision (P x)}
    (pre post : list A) (x y : A) :
  (P x <-> P y) ->
  length (filter P (pre ++ x :: post)) = length (filter P (pre ++ y :: post)).
Proof.
  intros Hxy. rewrite !filter_app, !length_app, !filter_cons.
  destruct (decide (P x)) as [Hx|Hx], (decide (P y)) as [Hy|Hy];
    try reflexivity; exfalso; tauto.
Qed.

(** X4. Acknowledging never adds, removes or reorders alerts and never
    touches an identifier, type or severity, so the total and both
    breakdowns of the statistics stay as they were; the active list loses at
    most one alert, and loses one exactly when the call succeeds on an
    alert that was still active. *)
Theorem acknowledge_alert_effect (s : Service) (id who : string) :
  let out := acknowledge_alert now_iso s id who in
  let before := get_alert_statistics s in
  let after := get_alert_statistics (fst out) in
  map alert_id (alerts (fst out)) = map alert_id (alerts s)
  /\ total_alerts after = total_alerts before
  /\ by_severity after = by_severity before
  /\ by_type after = by_type before
  /\ (active_alerts after <= active_alerts before <= S (active_alerts after))%nat
  /\ (active_alerts after < active_alerts before <->
      snd out = true
      /\ exists pre a post,
           alerts s = pre ++ a :: post
           /\ Forall (fun b => alert_id b <> id) pre
           /\ alert_id a = id /\ status a = "active").
Proof.
  intros out before after. subst out before after.
  unfold acknowledge_alert.
  destruct (acknowledge_in (alerts s) id (now_iso (clock s)) who)
    as [l'|] eqn:E.
  - apply acknowledge_in_some in E.
    destruct E as (pre & a & post & Hs & Hpre & Ha & ->).
    unfold get_alert_statistics.
    cbn [fst snd alerts total_alerts by_severity by_type active_alerts].
    rewrite Hs. rewrite !map_app, !length_app. cbn [map length].
    split; [reflexivity |]. split; [reflexivity |].
    split.
    { apply map_ext. intros sev. f_equal. apply count_middle. reflexivity. }
    split.
    { apply map_ext. intros ty. f_equal. apply count_middle. reflexivity. }
    rewrite !filter_app, !length_app.
    rewrite (filter_cons_False _ (acknowledge a _ _)) by (simpl; discriminate).
    rewrite filter_cons. case_decide as Hact; cbn [length].
    + split; [lia |]. split; [| lia].
      intros _. split; [reflexivity |].
      exists pre, a, post. repeat split; assumption.
    + split; [lia |]. split; [lia |].
      intros (_ & pre' & a' & post' & Hs' & Hpre' & Ha' & Hact').
      exfalso. apply Hact.
      assert (Hsame : pre' = pre /\ a' = a).
      { clear - Hs' Hpre Hpre' Ha Ha'. revert pre' Hs' Hpre'.
        induction pre as [|p pre IH]; intros [|p' pre'] Hs' Hpre'; simpl in Hs'.
        - injection Hs' as -> _. split; reflexivity.
        - injection Hs' as <- _. inversion Hpre'; subst. contradiction.
        - injection Hs' as -> _. inversion Hpre; subst. contradiction.
        - injection Hs' as -> Hs'. inversion Hpre; subst.
          inversion Hpre'; subst.
          destruct (IH ltac:(assumption) pre' Hs' ltac:(assumption)) as [-> ->].
          split; reflexivity. }
      destruct Hsame as [_ ->]. exact Hact'.
  - cbn [fst snd]. split; [reflexivity |]. split; [reflexivity |].
    split; [reflexivity |]. split; [reflexivity |].
    split; [lia |]. split; [lia |].
    intros [Hfalse _]. discriminate Hfalse.
Qed.

(** X5. A second acknowledgement is accepted like the first: it succeeds
    exactly when the first did, and then the same alert (the first carrying
    the identifier) ends up with the second acknowledger and the later clock
    reading, every other alert being as before the first call. *)
Theorem acknowledge_alert_twice (s : Service) (id who1 who2 : string) :
  let first := acknowledge_alert now_iso s id who1 in
  let second := acknowledge_alert now_iso (fst first) id who2 in
  snd second = snd first
  /\ (snd first = false -> fst second = s)
  /\ (snd first = true ->
      exists pre a post,
        alerts s = pre ++ a :: post
        /\ Forall (fun b => alert_id b <> id) pre
        /\ alert_id a = id
        /\ alerts (fst second)
           = pre ++ acknowledge a (now_iso (S (clock s))) who2 :: post).
Proof.
  intros first second. subst second first.
  unfold acknowledge_alert.
  destruct (acknowledge_in (alerts s) id (now_iso (clock s)) who1)
    as [l'|] eqn:E; cbn [fst snd alerts clock].
  - pose proof E as E'. apply acknowledge_in_some in E'.
    destruct E' as (pre & a & post & Hs & Hpre & Ha & ->).
    assert (E2 : acknowledge_in
                   (pre ++ acknowledge a (now_iso (clock s)) who1 :: post)
                   id (now_iso (S (clock s))) who2
                 = Some (pre ++ acknowledge a (now_iso (S (clock s))) who2 :: post)).
    { clear - Hpre Ha. induction Hpre as [|p pre Hp _ IH]; simpl.
      - rewrite bool_decide_eq_true_2 by exact Ha. reflexivity.
      - rewrite bool_decide_eq_false_2 by exact Hp. rewrite IH. reflexivity. }
    rewrite E2. cbn [fst snd alerts].
    split; [reflexivity |]. split; [intros Hf; discriminate Hf |].
    intros _. exists pre, a, post. repeat split; assumption.
  - apply acknowledge_in_none in E.
    rewrite (proj2 (acknowledge_in_none (alerts s) id
                      (now_iso (clock s)) who2) E).
    cbn [fst snd].
    split; [reflexivity |].
    split; [reflexivity | intros Hf; discriminate Hf].
Qed.

End AcknowledgeFacts.

(** ** Severity: floor and monotonicity *)

Section SeverityFacts.

Import Alerting Escalation.

Ltac sums_out :=
  unfold determine_alert_severity, critical_indicators, high_indicators,
    medium_indicators;
  cbn [py_sum foldr].

Lemma py_num_flag_range (b : bool) : (0 <= py_num (PyBool b) <= 1)%R.
Proof. destruct b; simpl; lra. Qed.

(** A deepfake score above 0.55 or a liveness score below 0.5 rules out
    the lowest severity. *)
Lemma severity_not_low (d l : R) (ind : gmap string pyval) :
  (d > 0.55)%R \/ (l < 0.5)%R ->
  (1 <= severity_rank (determine_alert_severity d l ind))%nat.
Proof.
  intros H. sums_out.
  pose proof (py_num_flag_range
                (Rgtb (py_num (dict_get ind "temporal_anomaly" (PyFloat 0))) 0.6)) as Ht.
  revert Ht. generalize (py_num (PyBool
    (Rgtb (py_num (dict_get ind "temporal_anomaly" (PyFloat 0))) 0.6))).
  intros t Ht.
  destruct (Rgeb _ 2 || Rgtb d 0.85); [simpl; lia |].
  destruct (Rgeb _ 2 || Rgtb d 0.75); [simpl; lia |].
  destruct (Rgtb d 0.55) eqn:Ed; destruct (Rltb l 0.5) eqn:El;
    cbn [py_num];
    try (apply Rgtb_false in Ed); try (apply Rltb_false in El);
    try (exfalso; lra);
    (cmp_case; [simpl; lia | exfalso; lra]).
Qed.

Variable now_iso : nat -> string.
Variable fmt2 : R -> string.

(** X6. No alert the adjudicator raises has the lowest severity: liveness
    failures are HIGH, missing faces are MEDIUM, and a deepfake alert, raised
    only above 0.6, is classified MEDIUM at least whatever the indicators
    hold. *)
Theorem adjudicator_alerts_above_low
    (s : Service) (sid : string) (uid : option string)
    (da : DeepfakeAnalysis) (la : LivenessAnalysis) :
  Forall (fun a => (1 <= severity_rank (severity a))%nat)
    (vr_alerts (snd (evaluate_verification_result now_iso fmt2 s sid uid da la))).
Proof.
  unfold evaluate_verification_result, threshold_deepfake_score,
    threshold_liveness_score.
  set (d := default 0%R (da_deepfake_score da)).
  set (l := default 0%R (la_liveness_score la)).
  destruct (Rgtb d 0.6) eqn:Ed;
    destruct (Rltb l 0.5);
    destruct (negb (default false (da_face_detected da)));
    cbn [create_alert fst snd vr_alerts app severity];
    repeat constructor; simpl; try lia;
    apply severity_not_low; left; apply Rgtb_true in Ed; lra.
Qed.

End SeverityFacts.

Section SeverityMonotone.

Import Alerting Escalation.

Lemma Rgeb_mono (x1 x2 y : R) :
  (x1 <= x2)%R -> Rgeb x1 y = true -> Rgeb x2 y = true.
Proof. intros H H1. apply Rgeb_true in H1. apply Rgeb_true. lra. Qed.

Lemma Rgtb_mono (x1 x2 y : R) :
  (x1 <= x2)%R -> Rgtb x1 y = true -> Rgtb x2 y = true.
Proof. intros H H1. apply Rgtb_true in H1. apply Rgtb_true. lra. Qed.

Lemma Rltb_anti (x1 x2 y : R) :
  (x1 <= x2)%R -> Rltb x2 y = true -> Rltb x1 y = true.
Proof. intros H H1. apply Rltb_true in H1. apply Rltb_true. lra. Qed.

Lemma py_num_flag_le (b1 b2 : bool) :
  (b1 = true -> b2 = true) -> (py_num (PyBool b1) <= py_num (PyBool b2))%R.
Proof.
  intros H. destruct b1, b2; simpl; try lra;
    specialize (H eq_refl); discriminate.
Qed.

(** A cascade whose three tests each pass more often ranks at least as
    high. *)
Lemma cascade_rank_le (C1 H1 M1 C2 H2 M2 : bool) :
  (C1 = true -> C2 = true) -> (H1 = true -> H2 = true) ->
  (M1 = true -> M2 = true) ->
  (severity_rank (if C1 then CRITICAL else if H1 then HIGH
                  else if M1 then MEDIUM else LOW)
   <= severity_rank (if C2 then CRITICAL else if H2 then HIGH
                     else if M2 then MEDIUM else LOW))%nat.
Proof.
  intros HC HH HM.
  destruct C1; [rewrite (HC eq_refl); simpl; lia |].
  destruct H1; [rewrite (HH eq_refl); destruct C2; simpl; lia |].
  destruct M1; [rewrite (HM eq_refl); destruct C2, H2; simpl; lia |].
  simpl. lia.
Qed.

Ltac or_mono :=
  let H := fresh "H" in
  intros H; apply orb_true_iff in H; apply orb_true_iff;
  destruct H as [H|H]; [left | right].

(** X7. The classifier is monotone in both scores: with the indicators and
    the other score fixed, a higher deepfake score never yields a lower
    severity, and a higher liveness score never yields a higher one. *)
Theorem determine_alert_severity_monotone
    (d1 d2 l1 l2 : R) (ind : gmap string pyval)
    (Hd : (d1 <= d2)%R) (Hl : (l1 <= l2)%R) :
  (severity_rank (determine_alert_severity d1 l1 ind)
   <= severity_rank (determine_alert_severity d2 l1 ind))%nat
  /\ (severity_rank (determine_alert_severity d1 l2 ind)
      <= severity_rank (determine_alert_severity d1 l1 ind))%nat.
Proof.
  unfold determine_alert_severity, critical_indicators, high_indicators,
    medium_indicators.
  cbn [py_sum foldr].
  pose proof (py_num_flag_le _ _ (Rgtb_mono d1 d2 0.85 Hd)) as D85.
  pose proof (py_num_flag_le _ _ (Rgtb_mono d1 d2 0.7 Hd)) as D70.
  pose proof (py_num_flag_le _ _ (Rgtb_mono d1 d2 0.55 Hd)) as D55.
  pose proof (py_num_flag_le _ _ (Rltb_anti l1 l2 0.2 Hl)) as L20.
  pose proof (py_num_flag_le _ _ (Rltb_anti l1 l2 0.35 Hl)) as L35.
  pose proof (py_num_flag_le _ _ (Rltb_anti l1 l2 0.5 Hl)) as L50.
  split; apply cascade_rank_le.
  - or_mono; [eapply Rgeb_mono; [| exact H]; lra
             | eapply Rgtb_mono; eassumption].
  - or_mono; [eapply Rgeb_mono; [| exact H]; lra
             | eapply Rgtb_mono; eassumption].
  - apply Rgeb_mono. lra.
  - or_mono; [eapply Rgeb_mono; [| exact H]; lra | exact H].
  - or_mono; [eapply Rgeb_mono; [| exact H]; lra | exact H].
  - apply Rgeb_mono. lra.
Qed.

Lemma determine_alert_severity_monotone_witness :
  (0.5 <= 0.8)%R /\ (0.1 <= 0.9)%R
  /\ (severity_rank (determine_alert_severity 0.5 0.1 ∅)
      <= severity_rank (determine_alert_severity 0.8 0.1 ∅))%nat.
Proof.
  assert (Hd : (0.5 <= 0.8)%R) by lra.
  assert (Hl : (0.1 <= 0.9)%R) by lra.
  split; [exact Hd |]. split; [exact Hl |].
  exact (proj1 (determine_alert_severity_monotone 0.5 0.8 0.1 0.9 ∅ Hd Hl)).
Defined.

End SeverityMonotone.

(** ** Escalation and dispatch *)

Section DispatchFacts.

Import Alerting Escalation.

Variable json_dumps : Details -> option string.

(** X8. What a dispatch emits, for every configuration and alert: the log
    line always and first; the email line from MEDIUM up, only when an
    email configuration is set (a channel error instead when the details do
    not serialise); the Slack line from HIGH up, only when a webhook is set;
    the SMS line for CRITICAL; the database line when a database path is
    set.  As the application constructs the service (no email
    configuration, no webhook, no database), only CRITICAL alerts emit
    anything beyond the log line. *)
Theorem dispatch_emissions (config : Channels) (alert : Alert) :
  let rank := severity_rank (severity alert) in
  dispatch json_dumps config alert
  = [AlertLogged alert]
    ++ (if bool_decide (1 <= rank)%nat
           && negb (bool_decide (email_config config = []))
        then match json_dumps (details alert) with
             | Some _ =>
                 [EmailWouldBeSent
                    (match severity alert with
                     | MEDIUM => ["compliance@institution.com"]
                     | HIGH => ["fraud-team@institution.com";
                                "operations@institution.com"]
                     | _ => ["fraud-head@institution.com";
                             "ciso@institution.com"]
                     end) alert]
             | None => [ChannelError "email"]
             end
        else [])
    ++ (if bool_decide (2 <= rank)%nat && str_truthy (slack_webhook config)
        then [SlackWouldBeSent alert] else [])
    ++ (if bool_decide (3 <= rank)%nat
        then [SmsWouldBeSent ["+1234567890"] alert] else [])
    ++ (if str_truthy (database_path config)
        then [LoggedToDatabase alert] else [])
  /\ dispatch json_dumps default_channels alert
     = AlertLogged alert
       :: (if bool_decide (severity alert = CRITICAL)
           then [SmsWouldBeSent ["+1234567890"] alert] else []).
Proof.
  intros rank. subst rank. split.
  - unfold dispatch, _send_notifications, send_on_channel, _send_email_alert,
      _send_slack_alert, _send_sms_alert.
    destruct (severity alert); cbn -[str_truthy bool_decide];
      repeat (rewrite bool_decide_eq_true_2 by (reflexivity || lia));
      repeat (rewrite bool_decide_eq_false_2 by (discriminate || lia));
      cbn -[str_truthy bool_decide];
      destruct (bool_decide (email_config config = []));
      destruct (json_dumps (details alert));
      destruct (str_truthy (slack_webhook config));
      reflexivity.
  - unfold dispatch, _send_notifications, send_on_channel, _send_email_alert,
      _send_slack_alert, _send_sms_alert.
    destruct (severity alert); reflexivity.
Qed.

Variable config : Channels.
Variable now_iso : nat -> string.

Lemma process_many_from (q : nat) (s : Service) (b : nat) :
  alert_queue s = seq b q -> (b + q = length (alerts s))%nat ->
  process_many json_dumps config q s
  = ({| alerts := alerts s; alert_queue := []; clock := clock s |},
     concat (map (dispatch json_dumps config) (drop b (alerts s)))).
Proof.
  revert s b. induction q as [|q IH]; intros s b Hq Hlen.
  - simpl. rewrite drop_ge by lia. simpl in Hq.
    destruct s as [al qu cl]. simpl in *. subst qu. reflexivity.
  - simpl. unfold process_next. rewrite Hq. simpl seq.
    destruct (lookup_lt_is_Some_2 (alerts s) b ltac:(lia)) as [a Ha].
    rewrite Ha.
    rewrite (IH _ (S b)); [| reflexivity | simpl; lia].
    cbn [alerts clock]. f_equal.
    rewrite (drop_S _ _ _ Ha). reflexivity.
Qed.

(** X9. The worker dispatches every alert exactly once, in creation order.
    Once the queue holds exactly the alerts not dispatched so far, oldest
    first, creating and acknowledging alerts keep it so, and the worker,
    after as many turns as alerts are pending, has emitted the dispatch of
    each pending alert in order, emptied the queue and left the history as
    it was.  A fresh service starts in that state. *)
Theorem worker_dispatches_in_order (dispatched : nat) (s : Service)
    (Hq : queue_from dispatched s) :
  queue_from 0 init
  /\ (forall ty sid sev msg det uid,
        queue_from dispatched
          (fst (create_alert now_iso s ty sid sev msg det uid)))
  /\ (forall id who,
        queue_from dispatched (fst (acknowledge_alert now_iso s id who)))
  /\ process_many json_dumps config (length (alert_queue s)) s
     = ({| alerts := alerts s; alert_queue := []; clock := clock s |},
        concat (map (dispatch json_dumps config) (drop dispatched (alerts s)))).
Proof.
  destruct Hq as [Hq Hle].
  split; [split; [reflexivity | simpl; lia] |].
  split.
  { intros. unfold queue_from, create_alert. cbn [fst alerts alert_queue].
    rewrite length_app. simpl length. split; [| lia].
    rewrite Hq.
    replace (length (alerts s) + 1 - dispatched)%nat
      with (S (length (alerts s) - dispatched)) by lia.
    rewrite seq_S. f_equal. f_equal. lia. }
  split.
  { intros id who. unfold queue_from, acknowledge_alert.
    destruct (acknowledge_in _ _ _ _) as [l'|] eqn:E;
      cbn [fst alert_queue alerts]; [| split; assumption].
    apply acknowledge_in_some in E.
    destruct E as (pre & a & post & Hs & _ & _ & ->).
    rewrite Hs in Hq, Hle. rewrite length_app in *. cbn [length] in *.
    split; assumption. }
  rewrite Hq, length_seq.
  apply process_many_from; [exact Hq | lia].
Qed.

End DispatchFacts.

Lemma worker_dispatches_in_order_witness :
  queue_from 0 one_pending_alert
  /\ Escalation.process_many (fun _ => Some "{}") Escalation.default_channels
       (length (Alerting.alert_queue one_pending_alert)) one_pending_alert
     = ({| Alerting.alerts := Alerting.alerts one_pending_alert;
           Alerting.alert_queue := [];
           Alerting.clock := Alerting.clock one_pending_alert |},
        concat (map (Escalation.dispatch (fun _ => Some "{}")
                       Escalation.default_channels)
                    (drop 0 (Alerting.alerts one_pending_alert)))).
Proof.
  assert (H : queue_from 0 one_pending_alert).
  { split; [reflexivity | simpl; lia]. }
  split; [exact H |].
  exact (proj2 (proj2 (proj2
    (worker_dispatches_in_order (fun _ => Some "{}")
       Escalation.default_channels (fun _ => "t") 0 one_pending_alert H)))).
Defined.

(** ** Blink rate, geometry and texture signals *)

Lemma count_blinks_half (was_closed : bool) (history : list R) :
  (2 * Deepfake.count_blinks was_closed history
   <= length history + (if was_closed then 1 else 0))%nat.
Proof.
  revert was_closed. induction history as [|ear rest IH]; intros was_closed.
  - simpl. lia.
  - simpl Deepfake.count_blinks. cbn [length].
    destruct (Rltb ear Deepfake.EAR_THRESHOLD).
    + specialize (IH true). destruct was_closed; simpl in *; lia.
    + specialize (IH false). destruct was_closed; simpl in *; lia.
Qed.

(** X10. The blink rate is 0 below ten samples and otherwise thirty times
    the share of samples at which the eyes reopen; as two reopenings need a
    closing between them, it always lies between 0 and 15. *)
Theorem blink_rate_range (history : list R) :
  ((length history < 10)%nat -> Deepfake._calculate_blink_rate history = 0.0%R)
  /\ ((10 <= length history)%nat ->
      Deepfake._calculate_blink_rate history
      = (30 * INR (Deepfake.count_blinks false history)
         / INR (length history))%R)
  /\ (0 <= Deepfake._calculate_blink_rate history <= 15)%R.
Proof.
  unfold Deepfake._calculate_blink_rate.
  case_bool_decide as Hlen.
  - split; [reflexivity |]. split; [lia | lra].
  - split; [lia |].
    assert (Hpos : (0 < INR (length history))%R) by (apply lt_0_INR; lia).
    pose proof (pos_INR (Deepfake.count_blinks false history)) as Hc.
    pose proof (count_blinks_half false history) as Hhalf.
    apply le_INR in Hhalf. rewrite mult_INR, plus_INR in Hhalf.
    simpl INR in Hhalf.
    set (c := INR (Deepfake.count_blinks false history)) in *.
    set (n := INR (length history)) in *.
    assert (Hq : (0 <= c / n <= / 2)%R).
    { split.
      - apply Rmult_le_pos; [lra | left; apply Rinv_0_lt_compat; lra].
      - apply (Rmult_le_reg_r n); [lra |].
        unfold Rdiv. rewrite Rmult_assoc, Rinv_l by lra. lra. }
    split; [intros _; unfold Rdiv in *; lra |].
    unfold Rdiv in *. lra.
Qed.

Lemma std_nonneg (l : list R) : (0 <= std l)%R.
Proof. unfold std. apply sqrt_pos. Qed.

(** X11. The geometry signal is 0 below five samples; from five samples on
    it is 1 - std/0.1 of the width-to-height ratios while their standard
    deviation stays within 0.1 and 0 beyond, so a face whose ratio never
    changes gets the full anomaly 1. *)
Theorem geometry_consistency_cases (history : list Deepfake.GeometryEntry) :
  let ratios := map Deepfake.ge_width_height_ratio history in
  ((length history < 5)%nat ->
   Deepfake._analyze_geometry_consistency history = 0.0%R)
  /\ ((5 <= length history)%nat ->
      Deepfake._analyze_geometry_consistency history
      = if Rltb 0.1 (std ratios) then 0%R else (1 - std ratios / 0.1)%R)
  /\ (forall ratio, (5 <= length history)%nat ->
      Forall (fun e => Deepfake.ge_width_height_ratio e = ratio) history ->
      Deepfake._analyze_geometry_consistency history = 1%R).
Proof.
  intros ratios.
  assert (Hmain : (5 <= length history)%nat ->
      Deepfake._analyze_geometry_consistency history
      = if Rltb 0.1 (std ratios) then 0%R else (1 - std ratios / 0.1)%R).
  { intros Hlen. unfold Deepfake._analyze_geometry_consistency.
    rewrite bool_decide_eq_false_2 by lia. fold ratios.
    pose proof (std_nonneg ratios) as Hs.
    cmp_case; unfold clip, Rmax, Rmin;
      repeat destruct (Rle_dec _ _); lra. }
  split; [| split; [exact Hmain |]].
  - intros Hlen. unfold Deepfake._analyze_geometry_consistency.
    rewrite bool_decide_eq_true_2 by exact Hlen. reflexivity.
  - intros ratio Hlen Hflat. rewrite (Hmain Hlen).
    assert (Hstd : std ratios = 0%R).
    { apply (std_flat ratio). subst ratios. rewrite Forall_map. exact Hflat. }
    rewrite Hstd.
    assert (Hb : Rltb 0.1 0 = false) by (apply Rltb_false; lra).
    rewrite Hb. lra.
Qed.

Lemma clip_mono (x y lo hi : R) :
  (x <= y)%R -> (clip x lo hi <= clip y lo hi)%R.
Proof.
  intros H. unfold clip, Rmin, Rmax.
  repeat destruct (Rle_dec _ _); lra.
Qed.

(** X12. The texture anomaly never grows with sharper texture and never
    shrinks with smoother texture: raising the Laplacian variance or the
    edge density cannot raise it, raising the smoothness or the
    boundary-artifact score cannot lower it. *)
Theorem texture_anomaly_monotone
    (lv1 lv2 ed1 ed2 sm1 sm2 ba1 ba2 : R)
    (Hlv : (lv1 <= lv2)%R) (Hed : (ed1 <= ed2)%R)
    (Hsm : (sm1 <= sm2)%R) (Hba : (ba1 <= ba2)%R) :
  (Deepfake._compute_texture_anomaly_score lv2 ed2 sm1 ba1
   <= Deepfake._compute_texture_anomaly_score lv1 ed1 sm2 ba2)%R.
Proof.
  unfold Deepfake._compute_texture_anomaly_score.
  apply clip_mono.
  assert (Hc : (clip (lv1 / 1000.0) 0 1 <= clip (lv2 / 1000.0) 0 1)%R)
    by (apply clip_mono; lra).
  lra.
Qed.

Lemma texture_anomaly_monotone_witness :
  (100 <= 900)%R /\ (0.05 <= 0.3)%R /\ (0.6 <= 0.9)%R /\ (0.1 <= 0.4)%R
  /\ (Deepfake._compute_texture_anomaly_score 900 0.3 0.6 0.1
      <= Deepfake._compute_texture_anomaly_score 100 0.05 0.9 0.4)%R.
Proof.
  assert (H1 : (100 <= 900)%R) by lra.
  assert (H2 : (0.05 <= 0.3)%R) by lra.
  assert (H3 : (0.6 <= 0.9)%R) by lra.
  assert (H4 : (0.1 <= 0.4)%R) by lra.
  repeat (split; [assumption |]).
  exact (texture_anomaly_monotone 100 900 0.05 0.3 0.6 0.9 0.1 0.4 H1 H2 H3 H4).
Defined.

(** ** Still input *)

Lemma norm_self (p : Point) : norm (psub p p) = 0%R.
Proof.
  destruct p as [[x y] z]. unfold psub, norm.
  replace ((x - x) * (x - x) + (y - y) * (y - y) + (z - z) * (z - z))%R
    with 0%R by ring.
  apply sqrt_0.
Qed.

(** X13. A face that does not move registers no head movement: on a fresh
    detector the first landmark set is only stored, and the same landmark
    set again, when it has at least one row, gives displacement 0, no
    movement and confidence 0.0, the stored set staying in place. *)
Theorem still_face_no_movement (threshold : R) (mediapipe : bool)
    (landmarks : list Point) (Hrows : landmarks <> []) :
  let d0 := Liveness.init threshold mediapipe in
  let first := Liveness.detect_head_movement d0 (Some landmarks) in
  let second := Liveness.detect_head_movement (fst first) (Some landmarks) in
  snd first = (false, 0.0%R, Liveness.Reason "no_previous_frame")
  /\ snd second = (false, 0.0%R, Liveness.Displacement 0 [])
  /\ Liveness.prev_frame_landmarks (fst second)
     = Some (Liveness.PrevLandmarks landmarks).
Proof.
  intros d0 first second. subst second first d0.
  unfold Liveness.detect_head_movement, Liveness.init.
  cbn [Liveness.prev_frame_landmarks fst snd Liveness.prev_centroid
       Liveness.confidence_threshold Liveness.use_mediapipe].
  destruct (centroid landmarks) as [c|] eqn:Hc.
  - rewrite norm_self.
    assert (Hb : Rgtb 0 Liveness.MOVEMENT_THRESHOLD = false).
    { apply Rgtb_false. unfold Liveness.MOVEMENT_THRESHOLD. lra. }
    rewrite Hb. repeat split; reflexivity.
  - destruct landmarks; [congruence | discriminate].
Qed.

Lemma still_face_no_movement_witness :
  snd (Liveness.detect_head_movement
         (fst (Liveness.detect_head_movement (Liveness.init 0.7 true)
                 (Some [(0.5, 0.5, 0)%R; (0.25, 0.75, 0)%R])))
         (Some [(0.5, 0.5, 0)%R; (0.25, 0.75, 0)%R]))
  = (false, 0.0%R, Liveness.Displacement 0 []).
Proof.
  refine (proj1 (proj2
    (still_face_no_movement 0.7 true
       [(0.5, 0.5, 0)%R; (0.25, 0.75, 0)%R] _))).
  discriminate.
Defined.

Lemma absdiff_row_self (r : list N) :
  Forall (fun n => n = 0%N) (absdiff_row r r).
Proof.
  unfold absdiff_row. induction r as [|x r IH]; simpl; constructor.
  - lia.
  - exact IH.
Qed.

Lemma absdiff_self (g : Gray) :
  exists z, absdiff g g = Some z /\ Forall (fun n => n = 0%N) (concat z).
Proof.
  induction g as [|r g IH]; simpl.
  - exists []. split; [reflexivity | constructor].
  - rewrite bool_decide_eq_true_2 by reflexivity.
    destruct IH as (z & -> & Hz). simpl.
    exists (absdiff_row r r :: z). split; [reflexivity |].
    simpl. apply Forall_app. split; [apply absdiff_row_self | exact Hz].
Qed.

Lemma insert_sorted_zeros (x : N) (l : list N) :
  x = 0%N -> Forall (fun n => n = 0%N) l ->
  Forall (fun n => n = 0%N) (insert_sorted x l).
Proof.
  intros Hx Hl. induction Hl as [|y l Hy Hl IH]; simpl.
  - constructor; [exact Hx | constructor].
  - destruct (x <=? y)%N; constructor; auto.
Qed.

Lemma sort_pixels_zeros (l : list N) :
  Forall (fun n => n = 0%N) l -> Forall (fun n => n = 0%N) (sort_pixels l).
Proof.
  unfold sort_pixels. induction 1 as [|x l Hx Hl IH]; simpl.
  - constructor.
  - apply insert_sorted_zeros; assumption.
Qed.

Lemma nth_zeros (l : list N) (i : nat) :
  Forall (fun n => n = 0%N) l -> nth i l 0%N = 0%N.
Proof.
  intros Hl. revert i. induction Hl as [|x l Hx Hl IH]; intros [|i]; simpl; auto.
Qed.

Lemma median_zeros (z : Gray) :
  Forall (fun n => n = 0%N) (concat z) -> median z = 0%R.
Proof.
  intros Hz. unfold median.
  pose proof (sort_pixels_zeros _ Hz) as Hs.
  rewrite !(nth_zeros _ _ Hs). unfold pixel. simpl.
  destruct (Nat.even _); lra.
Qed.

Lemma mean_gray_zeros (z : Gray) :
  Forall (fun n => n = 0%N) (concat z) -> mean_gray z = 0%R.
Proof.
  intros Hz. unfold mean_gray, mean.
  rewrite Rsum_zeros; [unfold Rdiv; lra |].
  rewrite Forall_map. eapply Forall_impl; [exact Hz |].
  intros n ->. reflexivity.
Qed.

Section StillFrames.

Variable Frame : Type.
Variable frame_size : Frame -> N.
Variable frame_shape : Frame -> Z * Z.
Variable gray_of : Frame -> option Gray.
Variable detect_faces_cascade : Frame -> list Rect.
Variable face_mesh_landmarks : Frame -> option (list Point).
Variable measure_texture : Frame -> Rect -> option Deepfake.TextureMeasurements.

(** X14. In the motion fallback a fresh detector gives the first frame the
    default 0.2, and a second frame with the same grayscale image the motion
    score 0: the median of the pixel differences is 0. *)
Theorem still_frame_no_motion (threshold : R) (mediapipe : bool)
    (f1 f2 : Frame) (g : Gray)
    (H1 : gray_of f1 = Some g) (H2 : gray_of f2 = Some g) :
  let d0 := Liveness.init threshold mediapipe in
  let first := Liveness.detect_motion_in_frame Frame gray_of d0 f1 in
  let second := Liveness.detect_motion_in_frame Frame gray_of (fst first) f2 in
  snd first = 0.2%R /\ snd second = 0%R.
Proof.
  intros d0 first second. subst second first d0.
  unfold Liveness.detect_motion_in_frame, Liveness.init.
  rewrite H1. cbn [Liveness.prev_frame_landmarks fst snd].
  rewrite H2. cbn [Liveness.prev_frame_landmarks fst snd].
  destruct (absdiff_self g) as (z & -> & Hz).
  cbn [snd]. rewrite (median_zeros z Hz).
  split; [reflexivity |].
  unfold Rmin. destruct (Rle_dec _ _); lra.
Qed.

Lemma frame_differences_still (g : Gray) (prev : Frame) (rest : list Frame) :
  gray_of prev = Some g ->
  Forall (fun f => gray_of f = Some g) rest ->
  exists diffs,
    Deepfake.frame_differences Frame gray_of prev rest = Some diffs
    /\ Forall (fun x => x = 0%R) diffs.
Proof.
  intros Hprev Hrest. revert prev Hprev.
  induction Hrest as [|curr rest Hcurr Hrest IH]; intros prev Hprev.
  - exists []. split; [reflexivity | constructor].
  - simpl. rewrite Hprev, Hcurr. simpl.
    destruct (absdiff_self g) as (z & -> & Hz). simpl.
    destruct (IH curr Hcurr) as (diffs & -> & Hd). simpl.
    exists (mean_gray z :: diffs). split; [reflexivity |].
    constructor; [apply mean_gray_zeros; exact Hz | exact Hd].
Qed.

Lemma push_history_Forall {A : Type} (P : A -> Prop) hs (h : list A) (x : A) :
  Forall P h -> P x -> Forall P (Deepfake.push_history hs h x).
Proof.
  intros Hh Hx. unfold Deepfake.push_history.
  assert (Happ : Forall P (h ++ [x])).
  { apply Forall_app. split; [exact Hh | constructor; [exact Hx | constructor]]. }
  case_bool_decide; [apply Forall_drop |]; exact Happ.
Qed.

(** X15. A frozen video raises no temporal anomaly: when the frames of the
    history and the new frame all have the same grayscale image, the
    temporal analysis succeeds and its anomaly is 0, whatever the
    capacity. *)
Theorem frozen_video_no_temporal_anomaly
    (d : Deepfake.Detector Frame) (f : Frame) (g : Gray)
    (Hf : gray_of f = Some g)
    (Hhist : Forall (fun f' => gray_of f' = Some g) (Deepfake.frame_history Frame d)) :
  exists analysis,
    snd (Deepfake.analyze_temporal_consistency Frame gray_of d f) = Some analysis
    /\ Deepfake.ta_temporal_anomaly analysis = 0%R.
Proof.
  unfold Deepfake.analyze_temporal_consistency.
  cbn [Deepfake.frame_history].
  pose proof (push_history_Forall _ (Deepfake.history_size Frame d) _ f Hhist Hf)
    as Hall.
  case_bool_decide.
  - cbn [snd]. eexists. split; [reflexivity |]. simpl. lra.
  - cbn [snd].
    destruct (Deepfake.push_history (Deepfake.history_size Frame d)
                (Deepfake.frame_history Frame d) f) as [|first rest] eqn:E.
    + simpl. eexists. split; [reflexivity |]. simpl. lra.
    + inversion Hall as [|? ? Hfirst Hrest]; subst.
      destruct (frame_differences_still g first rest Hfirst Hrest)
        as (diffs & -> & Hd).
      simpl. eexists. split; [reflexivity |]. cbn [Deepfake.ta_temporal_anomaly].
      case_bool_decide; [| lra].
      rewrite (var_flat 0 diffs Hd).
      unfold clip, Rmin, Rmax. repeat destruct (Rle_dec _ _); lra.
Qed.

End StillFrames.

Lemma still_frame_no_motion_witness :
  (fun _ : unit => Some [[10%N; 20%N]]) tt = Some [[10%N; 20%N]]
  /\ snd (Liveness.detect_motion_in_frame unit (fun _ => Some [[10%N; 20%N]])
            (fst (Liveness.detect_motion_in_frame unit
                    (fun _ => Some [[10%N; 20%N]])
                    (Liveness.init 0.7 false) tt)) tt) = 0%R.
Proof.
  split; [reflexivity |].
  exact (proj2 (still_frame_no_motion unit (fun _ => Some [[10%N; 20%N]])
                  0.7 false tt tt [[10%N; 20%N]] eq_refl eq_refl)).
Defined.

Lemma frozen_video_no_temporal_anomaly_witness :
  (fun _ : unit => Some [[10%N; 20%N]]) tt = Some [[10%N; 20%N]]
  /\ exists analysis,
       snd (Deepfake.analyze_temporal_consistency unit
              (fun _ => Some [[10%N; 20%N]])
              {| Deepfake.history_size := 30; Deepfake.use_mediapipe := true;
                 Deepfake.frame_history := [tt; tt; tt];
                 Deepfake.blink_history := [];
                 Deepfake.face_geometry_history := [] |} tt) = Some analysis
       /\ Deepfake.ta_temporal_anomaly analysis = 0%R.
Proof.
  split; [reflexivity |].
  apply (frozen_video_no_temporal_anomaly unit (fun _ => Some [[10%N; 20%N]])
           _ tt [[10%N; 20%N]] eq_refl).
  simpl. repeat constructor.
Defined.

(** ** Frames without landmarks *)

Section NoLandmarks.

Variable Frame : Type.
Variable frame_size : Frame -> N.
Variable frame_shape : Frame -> Z * Z.
Variable gray_of : Frame -> option Gray.
Variable rgb_converts : Frame -> bool.
Variable detect_faces_cascade : Frame -> list Rect.
Variable face_mesh_landmarks : Frame -> option (list Point).
Variable measure_texture : Frame -> Rect -> option Deepfake.TextureMeasurements.

Local Abbreviation liveness_process_frame :=
  (Liveness.process_frame Frame frame_size gray_of rgb_converts
     detect_faces_cascade
     face_mesh_landmarks).
Local Abbreviation deepfake_process_frame :=
  (Deepfake.process_frame Frame frame_size frame_shape gray_of rgb_converts
     detect_faces_cascade face_mesh_landmarks measure_texture).

(** X16. A frame on which the cascade finds a face but no landmarks are
    available is reported with a face and the reduced estimate, which lies
    between 0.2 and 0.7; its flag is raised whenever the texture anomaly
    exceeds 0.8 and never when the anomaly is below 0.8 or the texture
    analysis itself failed. *)
Theorem reduced_estimate_range (d : Deepfake.Detector Frame) (f : Frame)
    (Hsize : frame_size f <> 0%N)
    (Hface : detect_faces_cascade f <> [])
    (Hrgb : rgb_converts f = true)
    (Hnone : (if Deepfake.use_mediapipe Frame d
              then face_mesh_landmarks f else None) = None) :
  let r := snd (deepfake_process_frame d (Some f)) in
  let texture :=
    Deepfake.analyze_micro_textures Frame frame_shape measure_texture f None in
  Deepfake.indicators r = Deepfake.LimitedIndicators texture
  /\ Deepfake.face_detected r = true
  /\ (0.2 <= Deepfake.deepfake_score r <= 0.7)%R
  /\ ((Deepfake.ta_anomaly_score texture > 0.8)%R ->
      Deepfake.is_likely_deepfake r = Some true)
  /\ ((Deepfake.ta_anomaly_score texture < 0.8)%R ->
      Deepfake.is_likely_deepfake r = Some false)
  /\ (Deepfake.ta_error texture = true ->
      Deepfake.is_likely_deepfake r = Some false).
Proof.
  intros r texture. subst r. unfold Deepfake.process_frame.
  rewrite bool_decide_eq_false_2 by exact Hsize.
  rewrite bool_decide_eq_true_2
    by (destruct (detect_faces_cascade f); [congruence | simpl; lia]).
  cbn [negb]. rewrite Hrgb.
  assert (Hlm : (if Deepfake.use_mediapipe Frame d
                 then let '(h, w) := frame_shape f in
                      (fun lm => map (fun p : Point =>
                                        let '(x, y, z) := p in
                                        (x * IZR w, y * IZR h, z)%R) lm)
                        <$> face_mesh_landmarks f
                 else None) = None).
  { destruct (Deepfake.use_mediapipe Frame d); [| reflexivity].
    rewrite Hnone. destruct (frame_shape f). reflexivity. }
  rewrite Hlm.
  cbn [snd Deepfake.indicators Deepfake.face_detected Deepfake.deepfake_score
       Deepfake.is_likely_deepfake].
  fold texture.
  destruct (analyze_micro_textures_unit Frame frame_shape measure_texture f None)
    as (Ht & _).
  fold texture in Ht. unfold in_unit in Ht.
  rewrite clip_id by lra.
  split; [reflexivity |]. split; [reflexivity |]. split; [lra |].
  split; [| split].
  - intros Hgt. f_equal. apply Rgtb_true. lra.
  - intros Hlt. f_equal. apply Rgtb_false. lra.
  - intros Herr. f_equal. apply Rgtb_false.
    subst texture. unfold Deepfake.analyze_micro_textures in *.
    destruct (measure_texture f _); [discriminate Herr |].
    cbn. lra.
Qed.

(** X17. A frame scored without landmarks gets liveness exactly 0.5 when
    the cascade finds a face and at most 0.4 when it does not, so it is
    never judged live by a detector whose threshold is 0.5 or more. *)
Theorem fallback_liveness_score (d : Liveness.Detector) (f : Frame)
    (Hnone : (if Liveness.use_mediapipe d then face_mesh_landmarks f else None)
             = None) :
  let r := snd (liveness_process_frame d (Some f)) in
  match Liveness.detections r with
  | Liveness.Checks blink head _ mouth =>
      Liveness.confidence blink = 0.0%R
      /\ Liveness.confidence mouth = 0.0%R
      /\ (if Liveness.face_detected r
          then Liveness.liveness_score r = 0.5%R
          else Liveness.liveness_score r
               = (Liveness.confidence head * 0.4)%R
               /\ (Liveness.liveness_score r <= 0.4)%R)
      /\ ((0.5 <= Liveness.confidence_threshold d)%R ->
          Liveness.is_likely_live r = Some false)
  | _ => Liveness.liveness_score r = 0.0%R
  end.
Proof.
  intros r. subst r. unfold Liveness.process_frame.
  case_bool_decide; [reflexivity |].
  destruct (rgb_converts f) eqn:Hrgb; [| reflexivity].
  rewrite Hnone.
  pose proof (detect_motion_in_frame_unit Frame gray_of d f) as Hm.
  destruct (Liveness.detect_motion_in_frame Frame gray_of d f) as [d1 motion].
  cbn in *. unfold in_unit in Hm.
  split; [reflexivity |]. split; [reflexivity |].
  destruct (bool_decide (0 < length (detect_faces_cascade f))%nat).
  - assert (Hmax : Rmax (0.0 * 0.3 + motion * 0.4 + 0.0 * 0.3) 0.5 = 0.5%R).
    { unfold Rmax. destruct (Rle_dec _ _); lra. }
    rewrite Hmax. split; [reflexivity |].
    intros Hth. f_equal. apply Rgtb_false. lra.
  - split; [split; lra |].
    intros Hth. f_equal. apply Rgtb_false. lra.
Qed.

End NoLandmarks.

Lemma reduced_estimate_range_witness :
  let r :=
    snd (Deepfake.process_frame unit (fun _ => 921600%N)
           (fun _ => (480, 640)%Z) (fun _ => Some [[0%N]]) (fun _ => true)
           (fun _ => [(220, 140, 200, 200)%Z]) (fun _ => None)
           (fun _ _ => Some soft_texture)
           (Deepfake.init unit 30 false) (Some tt)) in
  Deepfake.face_detected r = true
  /\ (0.2 <= Deepfake.deepfake_score r <= 0.7)%R.
Proof.
  intros r.
  destruct (reduced_estimate_range unit (fun _ => 921600%N)
              (fun _ => (480, 640)%Z) (fun _ => Some [[0%N]]) (fun _ => true)
              (fun _ => [(220, 140, 200, 200)%Z]) (fun _ => None)
              (fun _ _ => Some soft_texture)
              (Deepfake.init unit 30 false) tt)
    as (_ & Hface & Hrange & _).
  - discriminate.
  - discriminate.
  - reflexivity.
  - reflexivity.
  - split; [exact Hface | exact Hrange].
Defined.

Lemma fallback_liveness_score_witness :
  (if Liveness.use_mediapipe (Liveness.init 0.7 false)
   then (fun _ : unit => @None (list Point)) tt else None) = None
  /\ Liveness.liveness_score
       (snd (Liveness.process_frame unit (fun _ => 921600%N)
               (fun _ => Some [[10%N; 20%N]]) (fun _ => true)
               (fun _ => [(220, 140, 200, 200)%Z]) (fun _ => None)
               (Liveness.init 0.7 false) (Some tt))) = 0.5%R.
Proof.
  split; [reflexivity |].
  pose proof (fallback_liveness_score unit (fun _ => 921600%N)
                (fun _ => Some [[10%N; 20%N]]) (fun _ => true)
                (fun _ => [(220, 140, 200, 200)%Z]) (fun _ => None)
                (Liveness.init 0.7 false) tt eq_refl) as H.
  cbv zeta in H.
  unfold Liveness.process_frame in *.
  rewrite bool_decide_eq_false_2 in * by discriminate.
  cbn in *. destruct H as (_ & _ & H & _). exact H.
Defined.

(** ** Degenerate landmarks *)

(** X18. Landmarks whose eye corners coincide, left with left and right
    with right, make both eye aspect ratios fall back to 0, which the blink
    detector reports as a blink with full confidence 1.0. *)
Theorem degenerate_eyes_blink (landmarks : list Point)
    (Hlen : (400 <= length landmarks)%nat)
    (Hleft : landmarks !! 362%nat = landmarks !! 263%nat)
    (Hright : landmarks !! 33%nat = landmarks !! 133%nat) :
  Liveness.detect_blink (Some landmarks) = (true, 1.0%R).
Proof.
  unfold Liveness.detect_blink.
  rewrite bool_decide_eq_false_2 by lia.
  rewrite bool_decide_eq_false_2 by lia.
  unfold fancy_index, Liveness.LEFT_EYE, Liveness.RIGHT_EYE.
  destruct (lookup_lt_is_Some_2 landmarks 362 ltac:(lia)) as [l0 E0].
  destruct (lookup_lt_is_Some_2 landmarks 385 ltac:(lia)) as [l1 E1].
  destruct (lookup_lt_is_Some_2 landmarks 387 ltac:(lia)) as [l2 E2].
  destruct (lookup_lt_is_Some_2 landmarks 373 ltac:(lia)) as [l4 E4].
  destruct (lookup_lt_is_Some_2 landmarks 380 ltac:(lia)) as [l5 E5].
  destruct (lookup_lt_is_Some_2 landmarks 33 ltac:(lia)) as [r0 F0].
  destruct (lookup_lt_is_Some_2 landmarks 160 ltac:(lia)) as [r1 F1].
  destruct (lookup_lt_is_Some_2 landmarks 158 ltac:(lia)) as [r2 F2].
  destruct (lookup_lt_is_Some_2 landmarks 153 ltac:(lia)) as [r4 F4].
  destruct (lookup_lt_is_Some_2 landmarks 144 ltac:(lia)) as [r5 F5].
  assert (E3 : landmarks !! 263%nat = Some l0) by (rewrite <- Hleft; exact E0).
  assert (F3 : landmarks !! 133%nat = Some r0) by (rewrite <- Hright; exact F0).
  cbn [mapM]. rewrite E0, E1, E2, E3, E4, E5, F0, F1, F2, F3, F4, F5.
  cbn [mbind option_bind mret option_ret Liveness.eye_aspect_ratio].
  rewrite !norm_self.
  assert (Hz : Rgtb 0 0 = false) by (apply Rgtb_false; lra).
  rewrite Hz.
  assert (Hb : Rltb ((0 + 0) / 2.0) Liveness.EAR_THRESHOLD = true).
  { apply Rltb_true. unfold Liveness.EAR_THRESHOLD. lra. }
  rewrite Hb. f_equal.
  unfold Rmin. destruct (Rle_dec _ _); lra.
Qed.

Lemma degenerate_eyes_blink_witness :
  (400 <= length (replicate 400 (0.5, 0.5, 0)%R))%nat
  /\ Liveness.detect_blink (Some (replicate 400 (0.5, 0.5, 0)%R)) = (true, 1.0%R).
Proof.
  assert (H : (400 <= length (replicate 400 (0.5, 0.5, 0)%R))%nat).
  { rewrite length_replicate. lia. }
  split; [exact H |].
  apply (degenerate_eyes_blink _ H).
  - rewrite !lookup_replicate_2 by lia. reflexivity.
  - rewrite !lookup_replicate_2 by lia. reflexivity.
Defined.

(** ** Small capacities *)

Section LowCapacity.

Variable Frame : Type.
Variable frame_size : Frame -> N.
Variable frame_shape : Frame -> Z * Z.
Variable gray_of : Frame -> option Gray.
Variable rgb_converts : Frame -> bool.
Variable detect_faces_cascade : Frame -> list Rect.
Variable face_mesh_landmarks : Frame -> option (list Point).
Variable measure_texture : Frame -> Rect -> option Deepfake.TextureMeasurements.

Local Abbreviation process_frame :=
  (Deepfake.process_frame Frame frame_size frame_shape gray_of rgb_converts
     detect_faces_cascade face_mesh_landmarks measure_texture).
Local Abbreviation process_frames :=
  (Deepfake.process_frames Frame frame_size frame_shape gray_of rgb_converts
     detect_faces_cascade face_mesh_landmarks measure_texture).

Lemma blink_analysis_short (d : Deepfake.Detector Frame) lm d1 b :
  (0 <= Deepfake.history_size Frame d < 20)%Z ->
  (Z.of_nat (length (Deepfake.blink_history Frame d))
   <= Deepfake.history_size Frame d)%Z ->
  Deepfake.analyze_blink_patterns Frame d lm = (d1, Some b) ->
  Deepfake.ba_blink_pattern_anomaly b = 0.0%R.
Proof.
  intros Hhs Hb. unfold Deepfake.analyze_blink_patterns.
  match goal with |- context [match ?o with Some _ => _ | None => _ end] =>
    destruct o as [avg_ear|] end; [| discriminate].
  cbn [Deepfake.blink_history].
  pose proof (push_history_length (Deepfake.history_size Frame d)
                (Deepfake.blink_history Frame d) avg_ear ltac:(lia) Hb) as Hlen.
  unfold Deepfake._detect_blink_pattern_anomaly.
  rewrite bool_decide_eq_true_2 by lia. simpl.
  intros [= <- <-]. reflexivity.
Qed.

Lemma geometry_analysis_short (d : Deepfake.Detector Frame) lm d2 g :
  (0 <= Deepfake.history_size Frame d < 5)%Z ->
  (Z.of_nat (length (Deepfake.face_geometry_history Frame d))
   <= Deepfake.history_size Frame d)%Z ->
  Deepfake.analyze_face_geometry Frame d lm = (d2, Some g) ->
  Deepfake.ga_geometry_consistency_score g = 0.0%R.
Proof.
  intros Hhs Hg. unfold Deepfake.analyze_face_geometry.
  repeat match goal with |- context [match ?l !! ?i with Some _ => _ | None => _ end] =>
    destruct (l !! i) end; try discriminate.
  intros [= <- <-]. cbn.
  unfold Deepfake._analyze_geometry_consistency.
  rewrite bool_decide_eq_true_2; [reflexivity |].
  match goal with |- (length (Deepfake.push_history ?hs ?h ?x) < 5)%nat =>
    pose proof (push_history_length hs h x ltac:(lia) Hg) end.
  lia.
Qed.

Lemma temporal_analysis_short (d : Deepfake.Detector Frame) f d3 t :
  (0 <= Deepfake.history_size Frame d < 3)%Z ->
  (Z.of_nat (length (Deepfake.frame_history Frame d))
   <= Deepfake.history_size Frame d)%Z ->
  Deepfake.analyze_temporal_consistency Frame gray_of d f = (d3, Some t) ->
  Deepfake.ta_temporal_anomaly t = 0.0%R.
Proof.
  intros Hhs Hf. unfold Deepfake.analyze_temporal_consistency.
  cbn [Deepfake.frame_history].
  pose proof (push_history_length (Deepfake.history_size Frame d)
                (Deepfake.frame_history Frame d) f ltac:(lia) Hf) as Hlen.
  rewrite bool_decide_eq_true_2 by lia.
  intros [= <- <-]. reflexivity.
Qed.

(** X19. A detector whose capacity is below 20 never reports blink
    periodicity: on every frame of every session the blink-pattern anomaly
    is 0.0, because the blink history cannot reach 20 samples.  Below 5 the
    geometry score is 0.0 as well, and below 3 so is the temporal
    anomaly. *)
Theorem low_capacity_mutes_signals (hs : Z) (mediapipe : bool)
    (frames : list (option Frame)) (frame : option Frame)
    (Hhs : (0 <= hs < 20)%Z) :
  let d := process_frames (Deepfake.init Frame hs mediapipe) frames in
  match Deepfake.indicators (snd (process_frame d frame)) with
  | Deepfake.FullIndicators _ blink geometry temporal =>
      Deepfake.ba_blink_pattern_anomaly blink = 0.0%R
      /\ ((hs < 5)%Z ->
          Deepfake.ga_geometry_consistency_score geometry = 0.0%R)
      /\ ((hs < 3)%Z -> Deepfake.ta_temporal_anomaly temporal = 0.0%R)
  | _ => True
  end.
Proof.
  intros d.
  destruct (process_frames_bounded Frame frame_size frame_shape gray_of rgb_converts
              detect_faces_cascade face_mesh_landmarks measure_texture
              frames (Deepfake.init Frame hs mediapipe))
    as [(Hb & Hg & Hf) Hsize].
  { simpl. lia. }
  { unfold Deepfake.bounded_histories. simpl. lia. }
  fold d in Hb, Hg, Hf, Hsize. simpl in Hsize.
  unfold Deepfake.process_frame.
  destruct frame as [f|]; [| exact I].
  case_bool_decide; [exact I |].
  destruct (negb _); [exact I |].
  destruct (rgb_converts f); [| exact I].
  match goal with |- context [match ?o with Some _ => _ | None => _ end] =>
    destruct o as [lm|] end; [| exact I].
  destruct (Deepfake.face_region_of (frame_shape f) lm); [| exact I].
  pose proof (analyze_blink_patterns_step Frame d lm) as Sb.
  destruct (Deepfake.analyze_blink_patterns Frame d lm) as [d1 [ba|]] eqn:Eb;
    [| exact I].
  cbn in Sb. destruct Sb as (Sb1 & _ & _ & Sb4 & Sb5).
  pose proof (analyze_face_geometry_step Frame d1 lm) as Sg.
  destruct (Deepfake.analyze_face_geometry Frame d1 lm) as [d2 [ga|]] eqn:Eg;
    [| exact I].
  cbn in Sg. destruct Sg as (Sg1 & _ & _ & _ & Sg5).
  destruct (Deepfake.analyze_temporal_consistency Frame gray_of d2 f)
    as [d3 [ta|]] eqn:Et; [| exact I].
  cbn.
  split; [| split].
  - eapply blink_analysis_short; [| | exact Eb]; lia.
  - intros H5. eapply geometry_analysis_short; [| | exact Eg].
    + rewrite Sb1. lia.
    + rewrite Sb1, Sb4. exact Hg.
  - intros H3. eapply temporal_analysis_short; [| | exact Et].
    + rewrite Sg1, Sb1. lia.
    + rewrite Sg1, Sb1, Sg5, Sb5. exact Hf.
Qed.

End LowCapacity.

Lemma low_capacity_mutes_signals_witness :
  (0 <= 10 < 20)%Z
  /\ match Deepfake.indicators
             (snd (Deepfake.process_frame unit (fun _ => 921600%N)
                     (fun _ => (480, 640)%Z) (fun _ => Some [[0%N]])
                     (fun _ => true)
                     (fun _ => [(220, 140, 200, 200)%Z])
                     (fun _ => Some flat_landmarks)
                     (fun _ _ => Some soft_texture)
                     (Deepfake.process_frames unit (fun _ => 921600%N)
                        (fun _ => (480, 640)%Z) (fun _ => Some [[0%N]])
                        (fun _ => true)
                        (fun _ => [(220, 140, 200, 200)%Z])
                        (fun _ => Some flat_landmarks)
                        (fun _ _ => Some soft_texture)
                        (Deepfake.init unit 10 true) [Some tt])
                     (Some tt))) with
     | Deepfake.FullIndicators _ blink _ _ =>
         Deepfake.ba_blink_pattern_anomaly blink = 0.0%R
     | _ => True
     end.
Proof.
  assert (H : (0 <= 10 < 20)%Z) by lia.
  split; [exact H |].
  pose proof (low_capacity_mutes_signals unit (fun _ => 921600%N)
                (fun _ => (480, 640)%Z) (fun _ => Some [[0%N]])
                (fun _ => true)
                (fun _ => [(220, 140, 200, 200)%Z])
                (fun _ => Some flat_landmarks)
                (fun _ _ => Some soft_texture)
                10 true [Some tt] (Some tt) H) as Hlow.
  cbv zeta in Hlow.
  destruct (Deepfake.indicators _); try exact I.
  exact (proj1 Hlow).
Defined.

(** ** Session confidence *)





(** ** Cascade face selection *)

Lemma insert_by_area_elem (f x : Rect) (sorted : list Rect) :
  x ∈ FaceCascade.insert_by_area f sorted <-> x = f \/ x ∈ sorted.
Proof.
  induction sorted as [|g rest IH]; simpl.
  - rewrite list_elem_of_singleton, elem_of_nil. tauto.
  - case_bool_decide.
    + rewrite elem_of_cons. tauto.
    + rewrite !elem_of_cons, IH. tauto.
Qed.

Lemma insert_by_area_head (f : Rect) (sorted : list Rect) :
  head_largest sorted -> head_largest (FaceCascade.insert_by_area f sorted).
Proof.
  destruct sorted as [|g rest]; simpl.
  - intros _. repeat constructor. lia.
  - intros Hg. case_bool_decide as Hlt.
    + simpl. constructor; [lia |].
      eapply Forall_impl; [exact Hg |]. simpl. intros; lia.
    + simpl. apply Forall_forall. intros x Hx.
      rewrite elem_of_cons, insert_by_area_elem in Hx.
      rewrite Forall_forall in Hg.
      destruct Hx as [-> | [-> | Hx]]; [lia | lia |].
      apply Hg. right. exact Hx.
Qed.

Lemma sorted_by_area_spec (faces acc : list Rect) :
  head_largest acc ->
  let out := foldl (fun acc f => FaceCascade.insert_by_area f acc) acc faces in
  head_largest out /\ (forall x, x ∈ out <-> x ∈ faces \/ x ∈ acc).
Proof.
  revert acc. induction faces as [|f faces IH]; intros acc Hacc; simpl.
  - split; [exact Hacc |]. intros x. rewrite elem_of_nil. tauto.
  - destruct (IH _ (insert_by_area_head f acc Hacc)) as [Hh Hin].
    split; [exact Hh |]. intros x.
    rewrite Hin, insert_by_area_elem, elem_of_cons. tauto.
Qed.

Lemma unique_faces_head (first : Rect) (others unique : list Rect) :
  take 1
    (foldl (fun unique face =>
              if existsb (FaceCascade.overlaps face) unique then unique
              else (unique ++ [face])%list)
           (first :: unique) others)
  = [first].
Proof.
  revert unique. induction others as [|o others IH]; intros unique; simpl.
  - reflexivity.
  - destruct (FaceCascade.overlaps o first || existsb (FaceCascade.overlaps o) unique).
    + apply IH.
    + apply (IH (unique ++ [o])%list).
Qed.

Lemma remove_duplicate_faces_spec (faces : list Rect) :
  match faces with
  | [] => FaceCascade._remove_duplicate_faces faces = []
  | _ =>
      exists f,
        FaceCascade._remove_duplicate_faces faces = [f]
        /\ f ∈ faces
        /\ Forall (fun g => (FaceCascade.area g <= FaceCascade.area f)%Z) faces
  end.
Proof.
  destruct faces as [|f0 faces]; [reflexivity |].
  unfold FaceCascade._remove_duplicate_faces.
  case_bool_decide as Hlen.
  - destruct faces; [| simpl in Hlen; lia].
    exists f0. split; [reflexivity |]. split; [apply elem_of_cons; auto |].
    repeat constructor. lia.
  - destruct (sorted_by_area_spec (f0 :: faces) [] I) as [Hh Hin].
    fold (FaceCascade.sorted_by_area (f0 :: faces)) in Hh, Hin.
    destruct (FaceCascade.sorted_by_area (f0 :: faces)) as [|first others] eqn:Es.
    + exfalso. apply (elem_of_nil f0). apply Hin. left. apply elem_of_cons; auto.
    + exists first. split; [apply (unique_faces_head first others []) |].
      split.
      * destruct (Hin first) as [Hf _].
        destruct Hf as [Hf | Hf]; [apply elem_of_cons; auto | exact Hf |].
        exfalso. exact (proj1 (elem_of_nil _) Hf).
      * apply Forall_forall. intros g Hg.
        simpl in Hh. rewrite Forall_forall in Hh. apply Hh.
        apply Hin. left. exact Hg.
Qed.

(** X21. Whatever the overlaps, [_remove_duplicate_faces] keeps no face of an
    empty list and otherwise exactly one: a face of the input that no other
    face of the input exceeds in area. *)
Theorem remove_duplicate_faces_largest (faces : list Rect) :
  match faces with
  | [] => FaceCascade._remove_duplicate_faces faces = []
  | _ =>
      exists f,
        FaceCascade._remove_duplicate_faces faces = [f]
        /\ f ∈ faces
        /\ Forall (fun g => (FaceCascade.area g <= FaceCascade.area f)%Z) faces
  end.
Proof. exact (remove_duplicate_faces_spec faces). Qed.

(** X22. The cascade detector reports at most one face: none when a scale
    raises or no scale finds a candidate, otherwise the largest candidate
    found at the three scales. *)
Theorem detect_faces_cascade_single
    (Frame : Type) (detect_multi_scale : Frame -> R -> option (list Rect))
    (frame : Frame) :
  let faces := FaceCascade.detect_faces_cascade Frame detect_multi_scale frame in
  match mapM (detect_multi_scale frame) [1.05; 1.1; 1.2]%R with
  | None => faces = []
  | Some detections =>
      match concat detections with
      | [] => faces = []
      | _ =>
          exists f,
            faces = [f]
            /\ f ∈ concat detections
            /\ Forall (fun g => (FaceCascade.area g <= FaceCascade.area f)%Z)
                 (concat detections)
      end
  end.
Proof.
  intros faces. subst faces. unfold FaceCascade.detect_faces_cascade.
  destruct (mapM (detect_multi_scale frame) [1.05; 1.1; 1.2]%R)
    as [detections|]; [| reflexivity].
  pose proof (remove_duplicate_faces_spec (concat detections)) as H.
  destruct (concat detections) as [|c cs]; [reflexivity | exact H].
Qed.

(** ** Video files *)

Lemma py_int_bounds (x : R) :
  (0 <= x)%R -> (IZR (py_int x) <= x < IZR (py_int x) + 1)%R /\ (0 <= py_int x)%Z.
Proof.
  intros Hx. unfold py_int, Rltb.
  rewrite bool_decide_eq_false_2 by lra.
  destruct (base_Int_part x) as [H1 H2].
  split; [lra |].
  assert (H : (-1 < Int_part x)%Z) by (apply lt_IZR; lra). lia.
Qed.

Section ResizeFrame.

Context {Frame : Type}.
Variable frame_shape : Frame -> Z * Z.
Variable cv2_resize : Frame -> Z -> Z -> option Frame.
Variable paste : Z * Z -> Frame -> Z -> Z -> option Frame.

Local Abbreviation resize_frame :=
  (VideoProcessor.resize_frame Frame frame_shape cv2_resize paste).

Lemma placement_fits (h w tw th : Z) :
  (0 < h)%Z -> (0 < w)%Z -> (0 < tw)%Z -> (0 < th)%Z ->
  exists pl,
    VideoProcessor.placement (h, w) (tw, th) = Some pl
    /\ (0 <= VideoProcessor.new_w pl <= tw)%Z
    /\ (0 <= VideoProcessor.new_h pl <= th)%Z
    /\ (VideoProcessor.new_w pl = tw \/ VideoProcessor.new_h pl = th)
    /\ VideoProcessor.x_offset pl = ((tw - VideoProcessor.new_w pl) / 2)%Z
    /\ VideoProcessor.y_offset pl = ((th - VideoProcessor.new_h pl) / 2)%Z.
Proof.
  intros Hh Hw Htw Hth.
  assert (Hh' : (0 < IZR h)%R) by (apply IZR_lt; exact Hh).
  assert (Hw' : (0 < IZR w)%R) by (apply IZR_lt; exact Hw).
  assert (Htw' : (0 < IZR tw)%R) by (apply IZR_lt; exact Htw).
  assert (Hth' : (0 < IZR th)%R) by (apply IZR_lt; exact Hth).
  unfold VideoProcessor.placement, VideoProcessor.py_div.
  rewrite (bool_decide_eq_false_2 (IZR h = 0%R)) by lra.
  rewrite (bool_decide_eq_false_2 (IZR th = 0%R)) by lra.
  cbn [mbind option_bind].
  set (a := (IZR w / IZR h)%R).
  assert (Ha : (0 < a)%R) by (apply Rdiv_lt_0_compat; assumption).
  destruct (Rgtb a (IZR tw / IZR th)) eqn:Hwide.
  - apply Rgtb_true in Hwide.
    rewrite (bool_decide_eq_false_2 (a = 0%R)) by lra.
    cbn [mbind option_bind].
    assert (Hscaled : (0 <= IZR tw / a < IZR th)%R).
    { split; [apply Rlt_le, Rdiv_lt_0_compat; assumption |].
      assert (E1 : (IZR tw / IZR th * IZR th = IZR tw)%R) by (field; lra).
      assert (E2 : (IZR tw / a * a = IZR tw)%R) by (field; lra).
      apply (Rmult_lt_reg_r a); [exact Ha |].
      apply (Rmult_lt_compat_r (IZR th)) in Hwide; [| exact Hth'].
      lra. }
    destruct (py_int_bounds (IZR tw / a)) as [[Hlo _] Hnn]; [lra |].
    assert (Hlt : (py_int (IZR tw / a) < th)%Z) by (apply lt_IZR; lra).
    eexists. split; [reflexivity |]. cbn.
    repeat split; lia.
  - apply Rgtb_false in Hwide.
    assert (Hscaled : (0 <= IZR th * a <= IZR tw)%R).
    { split; [apply Rlt_le, Rmult_lt_0_compat; assumption |].
      assert (E1 : (IZR th * (IZR tw / IZR th) = IZR tw)%R) by (field; lra).
      apply (Rmult_le_compat_l (IZR th)) in Hwide; [| lra].
      lra. }
    destruct (py_int_bounds (IZR th * a)) as [[Hlo _] Hnn]; [lra |].
    assert (Hle : (py_int (IZR th * a) <= tw)%Z) by (apply le_IZR; lra).
    eexists. split; [reflexivity |]. cbn.
    repeat split; lia.
Qed.

(** X23. For a frame and a target resolution of positive dimensions,
    [resize_frame] asks OpenCV for an image that fits the canvas and fills
    it in one direction, and pastes it centred: the offsets are not
    negative, the image ends inside the canvas, and the margins on the two
    sides differ by at most one pixel. *)
Theorem resize_frame_letterbox
    (p : VideoProcessor.Processor) (frame : Frame) (target : option (Z * Z))
    (h w tw th : Z)
    (Hshape : frame_shape frame = (h, w))
    (Htarget : default (VideoProcessor.target_resolution p) target = (tw, th))
    (Hh : (0 < h)%Z) (Hw : (0 < w)%Z) (Htw : (0 < tw)%Z) (Hth : (0 < th)%Z) :
  exists new_w new_h x_offset y_offset : Z,
    resize_frame p frame target
    = (resized ← cv2_resize frame new_w new_h;
       paste (tw, th) resized y_offset x_offset)
    /\ (new_w = tw \/ new_h = th)
    /\ (0 <= new_w <= tw)%Z /\ (0 <= new_h <= th)%Z
    /\ (0 <= x_offset)%Z /\ (x_offset + new_w <= tw)%Z
    /\ (0 <= y_offset)%Z /\ (y_offset + new_h <= th)%Z
    /\ (0 <= (tw - new_w - x_offset) - x_offset <= 1)%Z
    /\ (0 <= (th - new_h - y_offset) - y_offset <= 1)%Z.
Proof.
  destruct (placement_fits h w tw th Hh Hw Htw Hth)
    as (pl & Hpl & Hnw & Hnh & Hfill & Hx & Hy).
  exists (VideoProcessor.new_w pl), (VideoProcessor.new_h pl),
         (VideoProcessor.x_offset pl), (VideoProcessor.y_offset pl).
  split.
  { unfold VideoProcessor.resize_frame. rewrite Hshape, Htarget, Hpl.
    reflexivity. }
  split; [exact Hfill |].
  rewrite Hx, Hy.
  pose proof (Z.div_mod (tw - VideoProcessor.new_w pl) 2 ltac:(lia)) as Dx.
  pose proof (Z.mod_pos_bound (tw - VideoProcessor.new_w pl) 2 ltac:(lia)) as Bx.
  pose proof (Z.div_mod (th - VideoProcessor.new_h pl) 2 ltac:(lia)) as Dy.
  pose proof (Z.mod_pos_bound (th - VideoProcessor.new_h pl) 2 ltac:(lia)) as By'.
  repeat split; lia.
Qed.

End ResizeFrame.

Lemma resize_frame_letterbox_witness :
  exists new_w new_h x_offset y_offset : Z,
    VideoProcessor.resize_frame unit (fun _ => (720, 1280)%Z)
      (fun f _ _ => Some f) (fun _ f _ _ => Some f)
      VideoProcessor.init tt None
    = (resized ← Some tt; Some resized)
    /\ (new_w = 640 \/ new_h = 480)%Z
    /\ (0 <= new_w <= 640)%Z /\ (0 <= new_h <= 480)%Z
    /\ (0 <= x_offset)%Z /\ (x_offset + new_w <= 640)%Z
    /\ (0 <= y_offset)%Z /\ (y_offset + new_h <= 480)%Z
    /\ (0 <= (640 - new_w - x_offset) - x_offset <= 1)%Z
    /\ (0 <= (480 - new_h - y_offset) - y_offset <= 1)%Z.
Proof.
  apply (resize_frame_letterbox (fun _ : unit => (720, 1280)%Z)
           (fun f _ _ => Some f) (fun _ f _ _ => Some f)
           VideoProcessor.init tt None 720 1280 640 480);
    first [reflexivity | lia].
Defined.

Section ValidateVideo.

Context {Frame : Type}.
Variable VideoCapture : string -> option (VideoProcessor.Capture Frame).

Local Abbreviation get_video_metadata :=
  (VideoProcessor.get_video_metadata Frame VideoCapture).
Local Abbreviation validate_video :=
  (VideoProcessor.validate_video Frame VideoCapture).

Lemma metadata_duration (path : string) :
  let m := get_video_metadata path in
  VideoProcessor.duration m = 0.0%R
  \/ ((0 < VideoProcessor.fps m)%R
      /\ VideoProcessor.duration m
         = (IZR (VideoProcessor.frame_count m) / VideoProcessor.fps m)%R
      /\ exists cap,
           VideoCapture path = Some cap
           /\ VideoProcessor.isOpened cap = true
           /\ forall prop, is_Some (VideoProcessor.cap_get cap prop)).
Proof.
  unfold VideoProcessor.get_video_metadata.
  destruct (VideoCapture path) as [cap|]; [| left; reflexivity].
  destruct (VideoProcessor.isOpened cap) eqn:Hopen; [| left; reflexivity].
  destruct (VideoProcessor.cap_get cap VideoProcessor.CAP_PROP_FPS)
    as [fps_|] eqn:Hfps; [| left; reflexivity].
  destruct (VideoProcessor.cap_get cap VideoProcessor.CAP_PROP_FRAME_COUNT)
    as [count|] eqn:Hcount; [| left; reflexivity].
  destruct (VideoProcessor.cap_get cap VideoProcessor.CAP_PROP_FRAME_WIDTH)
    as [width|] eqn:Hwidth; [| left; reflexivity].
  destruct (VideoProcessor.cap_get cap VideoProcessor.CAP_PROP_FRAME_HEIGHT)
    as [height|] eqn:Hheight; [| left; reflexivity].
  cbn [VideoProcessor.fps VideoProcessor.frame_count VideoProcessor.resolution
       VideoProcessor.duration].
  destruct (Rgtb fps_ 0) eqn:Hpos; [| left; reflexivity].
  right. apply Rgtb_true in Hpos. cbn.
  split; [lra |]. split; [reflexivity |].
  exists cap. split; [reflexivity |]. split; [exact Hopen |].
  intros []; rewrite ?Hfps, ?Hcount, ?Hwidth, ?Hheight; eexists; reflexivity.
Qed.

(** X24. A video that [validate_video] accepts was opened and every one of
    its properties was read; it runs at 15 frames a second or more for 3 to
    60 seconds, is at least 320 by 240, and therefore has at least 45
    frames: the explicit minimum of 30 frames never decides an accepted
    video. *)
Theorem validate_video_accepts (path : string)
    (Hvalid : fst (validate_video path) = true) :
  let m := get_video_metadata path in
  validate_video path = (true, "Video validation passed")
  /\ (exists cap,
        VideoCapture path = Some cap
        /\ VideoProcessor.isOpened cap = true
        /\ forall prop, is_Some (VideoProcessor.cap_get cap prop))
  /\ (15 <= VideoProcessor.fps m)%R
  /\ VideoProcessor.duration m
     = (IZR (VideoProcessor.frame_count m) / VideoProcessor.fps m)%R
  /\ (3 <= VideoProcessor.duration m <= 60)%R
  /\ (320 <= fst (VideoProcessor.resolution m))%Z
  /\ (240 <= snd (VideoProcessor.resolution m))%Z
  /\ (45 <= VideoProcessor.frame_count m)%Z.
Proof.
  intros m. pose proof (metadata_duration path) as Hd. cbv zeta in Hd.
  fold m in Hd. revert Hvalid. unfold VideoProcessor.validate_video. fold m.
  destruct (Rltb (VideoProcessor.duration m) 3) eqn:Hshort;
    [intros; discriminate |].
  destruct (Rgtb (VideoProcessor.duration m) 60) eqn:Hlong;
    [intros; discriminate |].
  case_bool_decide as Hcount; [intros; discriminate |].
  case_bool_decide as Hwidth; [intros; discriminate |].
  case_bool_decide as Hheight; [intros; discriminate |].
  cbn [orb].
  destruct (Rltb (VideoProcessor.fps m) 15) eqn:Hslow;
    [intros; discriminate |].
  intros _.
  apply Rltb_false in Hshort, Hslow. apply Rgtb_false in Hlong.
  destruct Hd as [Hzero | (Hfps & Hdur & Hcap)]; [lra |].
  split; [reflexivity |]. split; [exact Hcap |].
  split; [exact Hslow |]. split; [exact Hdur |].
  split; [lra |]. split; [lia |]. split; [lia |].
  apply le_IZR.
  assert (E : (IZR (VideoProcessor.frame_count m)
               = VideoProcessor.duration m * VideoProcessor.fps m)%R)
    by (rewrite Hdur; field; lra).
  rewrite E. nra.
Qed.

(** X25. When the video cannot be opened, or reading one of its properties
    raises, or its frame rate is not positive, [validate_video] rejects it
    with the verdict of a video that is too short. *)
Theorem unreadable_video_too_short (path : string)
    (Hunreadable :
       match VideoCapture path with
       | None => True
       | Some cap =>
           VideoProcessor.isOpened cap = false
           \/ (exists prop, VideoProcessor.cap_get cap prop = None)
           \/ (exists rate,
                 VideoProcessor.cap_get cap VideoProcessor.CAP_PROP_FPS
                 = Some rate /\ (rate <= 0)%R)
       end) :
  validate_video path = (false, "Video too short (minimum 3 seconds)").
Proof.
  assert (Hzero : VideoProcessor.duration (get_video_metadata path) = 0.0%R).
  { unfold VideoProcessor.get_video_metadata.
    destruct (VideoCapture path) as [cap|]; [| reflexivity].
    destruct (VideoProcessor.isOpened cap) eqn:Hopen; [| reflexivity].
    destruct (VideoProcessor.cap_get cap VideoProcessor.CAP_PROP_FPS)
      as [fps_|] eqn:Hfps; [| reflexivity].
    destruct (VideoProcessor.cap_get cap VideoProcessor.CAP_PROP_FRAME_COUNT)
      as [count|] eqn:Hcount; [| reflexivity].
    destruct (VideoProcessor.cap_get cap VideoProcessor.CAP_PROP_FRAME_WIDTH)
      as [width|] eqn:Hwidth; [| reflexivity].
    destruct (VideoProcessor.cap_get cap VideoProcessor.CAP_PROP_FRAME_HEIGHT)
      as [height|] eqn:Hheight; [| reflexivity].
    cbn [VideoProcessor.fps VideoProcessor.frame_count
         VideoProcessor.resolution VideoProcessor.duration].
    destruct (Rgtb fps_ 0) eqn:Hpos; [| reflexivity].
    apply Rgtb_true in Hpos. exfalso.
    destruct Hunreadable as [H | [[prop H] | (rate & H & Hrate)]].
    - discriminate.
    - destruct prop; congruence.
    - assert (rate = fps_) by congruence. subst rate. lra. }
  unfold VideoProcessor.validate_video. rewrite Hzero.
  unfold Rltb. rewrite bool_decide_eq_true_2 by lra. reflexivity.
Qed.

End ValidateVideo.

Lemma py_int_IZR (z : Z) : (0 <= z)%Z -> py_int (IZR z) = z.
Proof.
  intros Hz. apply IZR_le in Hz. unfold py_int, Rltb.
  rewrite bool_decide_eq_false_2 by lra.
  symmetry. apply Int_part_spec. lra.
Qed.

Lemma validate_video_accepts_witness :
  (45 <= VideoProcessor.frame_count
           (VideoProcessor.get_video_metadata unit
              (fun _ => Some ten_second_clip) "clip.mp4"))%Z.
Proof.
  refine (proj2 (proj2 (proj2 (proj2 (proj2 (proj2 (proj2
    (validate_video_accepts (fun _ => Some ten_second_clip) "clip.mp4" _)))))))).
  unfold VideoProcessor.validate_video, VideoProcessor.get_video_metadata.
  cbn [ten_second_clip VideoProcessor.isOpened VideoProcessor.cap_get
       VideoProcessor.fps VideoProcessor.frame_count
       VideoProcessor.resolution VideoProcessor.duration].
  rewrite !py_int_IZR by lia.
  unfold Rgtb, Rltb.
  rewrite (bool_decide_eq_true_2 (30 > 0)%R) by lra.
  cbn [VideoProcessor.fps VideoProcessor.frame_count
       VideoProcessor.resolution VideoProcessor.duration fst snd].
  rewrite (bool_decide_eq_false_2 (300 / 30 < 3)%R) by lra.
  rewrite (bool_decide_eq_false_2 (300 / 30 > 60)%R) by lra.
  rewrite (bool_decide_eq_false_2 (30 < 15)%R) by lra.
  reflexivity.
Defined.

Lemma unreadable_video_too_short_witness :
  VideoProcessor.validate_video unit (fun _ => None) "missing.mp4"
  = (false, "Video too short (minimum 3 seconds)").
Proof.
  exact (unreadable_video_too_short (fun _ => None) "missing.mp4" I).
Defined.

Lemma ceil_step (s c : Z) :
  (0 < s)%Z ->
  ((c + 1 + s - 1) / s - (c + s - 1) / s
   = if bool_decide (c `mod` s = 0) then 1 else 0)%Z.
Proof.
  intros Hs.
  pose proof (Z.div_mod c s ltac:(lia)) as Hc.
  pose proof (Z.mod_pos_bound c s Hs) as Hr.
  replace (c + 1 + s - 1)%Z with (c + 1 * s)%Z by lia.
  rewrite Z.div_add by lia.
  case_bool_decide as Hz.
  - rewrite <- (Z.div_unique (c + s - 1) s (c / s) (s - 1)); lia.
  - rewrite <- (Z.div_unique (c + s - 1) s (c / s + 1) (c `mod` s - 1)); lia.
Qed.

Lemma sampled_length {A : Type} (s c : Z) (l : list A) :
  (0 < s)%Z ->
  Z.of_nat (length (VideoProcessor.sampled s c l))
  = ((c + Z.of_nat (length l) + s - 1) / s - (c + s - 1) / s)%Z.
Proof.
  intros Hs. revert c. induction l as [|x l IH]; intros c.
  - cbn [VideoProcessor.sampled length]. rewrite Z.add_0_r. lia.
  - cbn [VideoProcessor.sampled].
    pose proof (ceil_step s c Hs) as Hstep.
    replace (c + Z.of_nat (length (x :: l)) + s - 1)%Z
      with (c + 1 + Z.of_nat (length l) + s - 1)%Z by (cbn [length]; lia).
    case_bool_decide; cbn [length]; rewrite ?Nat2Z.inj_succ, IH; lia.
Qed.

Lemma neg_mod_step (s c : Z) :
  (0 < s)%Z ->
  if bool_decide (c `mod` s = 0)%Z
  then ((- c) `mod` s = 0 /\ (- (c + 1)) `mod` s = s - 1)%Z
  else (1 <= (- c) `mod` s /\ (- (c + 1)) `mod` s = (- c) `mod` s - 1)%Z.
Proof.
  intros Hs.
  pose proof (Z.div_mod (- c) s ltac:(lia)) as Hc.
  pose proof (Z.mod_pos_bound (- c) s Hs) as Hr.
  case_bool_decide as Hz.
  - assert (H0 : ((- c) `mod` s = 0)%Z) by (apply Z.mod_opp_l_z; [lia | exact Hz]).
    split; [exact H0 |].
    symmetry. apply (Z.mod_unique _ _ ((- c) / s - 1)); lia.
  - assert (H1 : ((- c) `mod` s <> 0)%Z).
    { intros H0. apply Hz. apply Z.mod_opp_l_z in H0; [| lia].
      rewrite Z.opp_involutive in H0. exact H0. }
    split; [lia |].
    symmetry. apply (Z.mod_unique _ _ ((- c) / s)); lia.
Qed.

Lemma sampled_lookup {A : Type} (s c : Z) (l : list A) (k : nat) :
  (0 < s)%Z ->
  VideoProcessor.sampled s c l !! k
  = l !! Z.to_nat (Z.of_nat k * s + (- c) `mod` s).
Proof.
  intros Hs. revert c k. induction l as [|x l IH]; intros c k.
  - reflexivity.
  - cbn [VideoProcessor.sampled].
    pose proof (neg_mod_step s c Hs) as Hstep.
    pose proof (Z.mod_pos_bound (- (c + 1)) s Hs) as Hr.
    case_bool_decide as Hz.
    + destruct Hstep as [H0 H1]. rewrite H0. destruct k as [|k].
      * reflexivity.
      * cbn [lookup list_lookup]. rewrite IH, H1.
        replace (Z.to_nat (Z.of_nat (S k) * s + 0))
          with (S (Z.to_nat (Z.of_nat k * s + (s - 1)))) by nia.
        reflexivity.
    + destruct Hstep as [H0 H1]. rewrite IH, H1.
      replace (Z.to_nat (Z.of_nat k * s + (- c) `mod` s))
        with (S (Z.to_nat (Z.of_nat k * s + ((- c) `mod` s - 1)))) by nia.
      reflexivity.
Qed.

Section ExtractFrames.

Context {Frame : Type}.
Variable frame_shape : Frame -> Z * Z.
Variable cv2_resize : Frame -> Z -> Z -> option Frame.
Variable paste : Z * Z -> Frame -> Z -> Z -> option Frame.
Variable VideoCapture : string -> option (VideoProcessor.Capture Frame).
Variable p : VideoProcessor.Processor.

Local Abbreviation resize frame :=
  (VideoProcessor.resize_frame Frame frame_shape cv2_resize paste p frame None).
Local Abbreviation extract_loop :=
  (VideoProcessor.extract_loop Frame frame_shape cv2_resize paste p).
Local Abbreviation extract_frames :=
  (VideoProcessor.extract_frames Frame frame_shape cv2_resize paste
     VideoCapture p).

Lemma extract_loop_sampled (s : Z) (pending : list Frame) :
  (s <> 0)%Z ->
  forall (c : Z) (acc resized : list Frame),
  Forall2 (fun frame out => resize frame = Some out)
    (VideoProcessor.sampled s c pending) resized ->
  extract_loop s pending c acc = (acc ++ resized)%list.
Proof.
  intros Hs. induction pending as [|frame pending IH]; intros c acc resized H.
  - cbn in H. apply Forall2_nil_inv_l in H. subst resized.
    cbn. rewrite app_nil_r. reflexivity.
  - cbn [VideoProcessor.extract_loop VideoProcessor.sampled] in *.
    rewrite (bool_decide_eq_false_2 (s = 0)%Z) by exact Hs.
    case_bool_decide as Hz.
    + apply Forall2_cons_inv_l in H. destruct H as (out & rest & Hout & Hrest & ->).
      rewrite Hout. rewrite (IH _ _ rest Hrest). rewrite <- app_assoc. reflexivity.
    + apply IH. exact H.
Qed.

(** X26. With a positive [sample_rate], a video that opens and frames
    that all resize, [extract_frames] returns one frame for every
    [sample_rate] frames read, rounded up, and its [k]-th frame is the
    resized frame number [k * sample_rate] of the video. *)
Theorem extract_frames_every_nth
    (path : string) (sample_rate : Z) (cap : VideoProcessor.Capture Frame)
    (Hcap : VideoCapture path = Some cap)
    (Hopen : VideoProcessor.isOpened cap = true)
    (Hfps : is_Some (VideoProcessor.cap_get cap VideoProcessor.CAP_PROP_FPS))
    (Hrate : (0 < sample_rate)%Z)
    (Hresize : Forall (fun frame => is_Some (resize frame))
                 (VideoProcessor.cap_read cap)) :
  let frames := extract_frames path sample_rate in
  Z.of_nat (length frames)
  = ((Z.of_nat (length (VideoProcessor.cap_read cap)) + sample_rate - 1)
     / sample_rate)%Z
  /\ forall k : nat,
       frames !! k
       = VideoProcessor.cap_read cap !! (k * Z.to_nat sample_rate)%nat
         ≫= (fun frame => resize frame).
Proof.
  intros frames. subst frames. unfold VideoProcessor.extract_frames.
  rewrite Hcap, Hopen. cbn [negb]. destruct Hfps as [rate ->].
  set (video := VideoProcessor.cap_read cap) in *.
  assert (Hall : exists resized,
            Forall2 (fun frame out => resize frame = Some out)
              (VideoProcessor.sampled sample_rate 0 video) resized).
  { assert (Hsub : Forall (fun frame => is_Some (resize frame))
                     (VideoProcessor.sampled sample_rate 0 video)).
    { clearbody video. generalize 0%Z as c.
      induction Hresize as [|x l Hx Hl IH]; intros c; cbn; [constructor |].
      case_bool_decide; [constructor; [exact Hx |] |]; apply IH. }
    induction Hsub as [|x l [out Hx] _ [rest IH]].
    - exists []. constructor.
    - exists (out :: rest). constructor; assumption. }
  destruct Hall as [resized Hall].
  rewrite (extract_loop_sampled sample_rate video ltac:(lia) 0 [] resized Hall).
  cbn [app]. split.
  - rewrite <- (Forall2_length _ _ _ Hall), sampled_length by exact Hrate.
    rewrite !Z.add_0_l, (Z.div_small (sample_rate - 1) sample_rate) by lia.
    apply Z.sub_0_r.
  - intros k.
    pose proof (sampled_lookup sample_rate 0 video k Hrate) as Hk.
    rewrite Z.opp_0, Z.mod_0_l, Z.add_0_r in Hk by lia.
    replace (Z.to_nat (Z.of_nat k * sample_rate))
      with (k * Z.to_nat sample_rate)%nat in Hk by nia.
    rewrite <- Hk.
    destruct (VideoProcessor.sampled sample_rate 0 video !! k) as [frame|] eqn:Hf.
    + destruct (Forall2_lookup_l _ _ _ _ _ Hall Hf) as (out & Hout & Hres).
      rewrite Hout. cbn. symmetry. exact Hres.
    + cbn. apply lookup_ge_None. rewrite <- (Forall2_length _ _ _ Hall).
      apply lookup_ge_None. exact Hf.
Qed.

End ExtractFrames.

Lemma extract_frames_every_nth_witness :
  Z.of_nat
    (length
       (VideoProcessor.extract_frames unit (fun _ => (480, 640)%Z)
          (fun f _ _ => Some f) (fun _ f _ _ => Some f)
          (fun _ => Some ten_second_clip) VideoProcessor.init "clip.mp4" 7))
  = 43%Z.
Proof.
  refine (proj1
    (extract_frames_every_nth (fun _ : unit => (480, 640)%Z)
       (fun f _ _ => Some f) (fun _ f _ _ => Some f)
       (fun _ => Some ten_second_clip) VideoProcessor.init "clip.mp4" 7
       ten_second_clip eq_refl eq_refl _ _ _)).
  - eexists. reflexivity.
  - lia.
  - apply Forall_forall. intros frame _.
    unfold VideoProcessor.resize_frame.
    destruct (placement_fits 480 640 640 480) as (pl & Hpl & _); try lia.
    cbn [default VideoProcessor.init VideoProcessor.target_resolution].
    rewrite Hpl. cbn. eexists. reflexivity.
Defined.

(** ** The verification endpoint *)

Lemma Rsum_lower (lo : R) (l : list R) :
  Forall (fun x => (lo <= x)%R) l -> (lo * INR (length l) <= Rsum l)%R.
Proof.
  induction 1 as [|x l Hx _ IH].
  - simpl. change (Rsum []) with 0%R. lra.
  - rewrite Rsum_cons, length_cons, S_INR. lra.
Qed.

Lemma Rsum_upper (hi : R) (l : list R) :
  Forall (fun x => (x <= hi)%R) l -> (Rsum l <= hi * INR (length l))%R.
Proof.
  induction 1 as [|x l Hx _ IH].
  - simpl. change (Rsum []) with 0%R. lra.
  - rewrite Rsum_cons, length_cons, S_INR. lra.
Qed.

Lemma mean_lower (lo : R) (l : list R) :
  l <> [] -> Forall (fun x => (lo <= x)%R) l -> (lo <= mean l)%R.
Proof.
  intros Hne Hl. unfold mean.
  assert (Hn : (0 < INR (length l))%R)
    by (apply lt_0_INR; destruct l; [congruence | simpl; lia]).
  pose proof (Rsum_lower lo l Hl) as Hs.
  apply (Rmult_le_reg_r (INR (length l))); [exact Hn |].
  unfold Rdiv. rewrite Rmult_assoc, Rinv_l by lra. lra.
Qed.

Lemma mean_upper (hi : R) (l : list R) :
  l <> [] -> Forall (fun x => (x <= hi)%R) l -> (mean l <= hi)%R.
Proof.
  intros Hne Hl. unfold mean.
  assert (Hn : (0 < INR (length l))%R)
    by (apply lt_0_INR; destruct l; [congruence | simpl; lia]).
  pose proof (Rsum_upper hi l Hl) as Hs.
  apply (Rmult_le_reg_r (INR (length l))); [exact Hn |].
  unfold Rdiv. rewrite Rmult_assoc, Rinv_l by lra. lra.
Qed.

(** With an empty dictionary of indicators the classifier looks at the two
    scores only. *)
Lemma severity_without_indicators (d l : R) :
  Alerting.determine_alert_severity d l ∅
  = if Rgtb d 0.85 then Alerting.CRITICAL
    else if Rgtb d 0.75 || (Rgtb d 0.7 && Rltb l 0.35) then Alerting.HIGH
    else if Rgtb d 0.55 || Rltb l 0.5 then Alerting.MEDIUM
    else Alerting.LOW.
Proof.
  unfold Alerting.determine_alert_severity, Alerting.critical_indicators,
    Alerting.high_indicators, Alerting.medium_indicators, dict_get.
  rewrite !lookup_empty. cbn [default py_num py_sum foldr].
  assert (F1 : Rgtb 0 0.8 = false) by (apply Rgtb_false; lra).
  assert (F2 : Rgtb 0 0.9 = false) by (apply Rgtb_false; lra).
  assert (F3 : Rgtb 0 0.7 = false) by (apply Rgtb_false; lra).
  assert (F4 : Rgtb 0 0.6 = false) by (apply Rgtb_false; lra).
  rewrite F1, F2, F3, F4. cbn [py_num].
  destruct (Rgtb d 0.85) eqn:E85.
  { rewrite orb_true_r. reflexivity. }
  rewrite orb_false_r.
  destruct (Rltb l 0.2) eqn:L20; cbn [py_num];
    (rewrite (proj2 (Rgeb_false _ 2)) by lra).
  all: destruct (Rgtb d 0.75) eqn:E75;
    [rewrite orb_true_r; reflexivity | rewrite orb_false_r; cbn [orb]].
  all: destruct (Rgtb d 0.7) eqn:E70; destruct (Rltb l 0.35) eqn:L35;
    cbn [py_num andb];
    first [ rewrite (proj2 (Rgeb_true _ 2)) by lra
          | rewrite (proj2 (Rgeb_false _ 2)) by lra ].
  all: try reflexivity.
  all: destruct (Rgtb d 0.55) eqn:E55; destruct (Rltb l 0.5) eqn:L50;
    cbn [py_num orb];
    first [ rewrite (proj2 (Rgeb_true _ 1)) by lra
          | rewrite (proj2 (Rgeb_false _ 1)) by lra ];
    reflexivity.
Qed.

Section EndpointFacts.

Import Alerting.

Variable now_iso : nat -> string.
Variable fmt2 : R -> string.

Local Abbreviation complete_verification :=
  (App.complete_verification now_iso fmt2).

Lemma filter_none {A : Type} (P : A -> Prop) `{forall x, Decision (P x)}
    (l : list A) :
  Forall (fun x => ~ P x) l -> filter P l = [].
Proof.
  induction 1 as [|x l Hx _ IH]; [reflexivity |].
  rewrite filter_cons_False by exact Hx. exact IH.
Qed.

Lemma filter_some {A : Type} (P : A -> Prop) `{forall x, Decision (P x)}
    (l : list A) :
  Exists P l -> filter P l <> [].
Proof.
  intros HE Hnil. apply Exists_exists in HE. destruct HE as (x & Hin & Hx).
  assert (Hf : x ∈ filter P l) by (apply list_elem_of_filter; auto).
  rewrite Hnil in Hf. exact (proj1 (elem_of_nil x) Hf).
Qed.

Lemma avg_liveness_lower (lo : R) (analysis : list App.FrameEntry) :
  Exists (fun f => Liveness.face_detected (App.liveness f) = true) analysis ->
  Forall (fun f => Liveness.face_detected (App.liveness f) = true ->
                   (lo <= Liveness.liveness_score (App.liveness f))%R)
    analysis ->
  (lo <= App.avg_liveness analysis)%R.
Proof.
  intros HE HF. unfold App.avg_liveness.
  pose proof (filter_some _ analysis HE) as Hne.
  set (faces := filter _ analysis) in *.
  assert (Hs : Forall (fun x => (lo <= x)%R)
                 (map (fun f => Liveness.liveness_score (App.liveness f)) faces)).
  { rewrite Forall_map. apply Forall_forall. intros f Hf.
    apply list_elem_of_filter in Hf. destruct Hf as [Hface Hin].
    rewrite Forall_forall in HF. apply HF; assumption. }
  destruct faces as [|f faces]; [congruence |].
  apply mean_lower; [discriminate | exact Hs].
Qed.

Lemma avg_deepfake_upper (hi : R) (analysis : list App.FrameEntry) :
  (0 <= hi)%R ->
  Forall (fun f => Deepfake.face_detected (App.deepfake f) = true ->
                   (Deepfake.deepfake_score (App.deepfake f) <= hi)%R)
    analysis ->
  (App.avg_deepfake analysis <= hi)%R.
Proof.
  intros Hhi HF. unfold App.avg_deepfake.
  set (faces := filter _ analysis) in *.
  assert (Hs : Forall (fun x => (x <= hi)%R)
                 (map (fun f => Deepfake.deepfake_score (App.deepfake f)) faces)).
  { rewrite Forall_map. apply Forall_forall. intros f Hf.
    apply list_elem_of_filter in Hf. destruct Hf as [Hface Hin].
    rewrite Forall_forall in HF. apply HF; assumption. }
  destruct faces as [|f faces]; [exact Hhi |].
  apply mean_upper; [discriminate | exact Hs].
Qed.

(** X27. A session passes when both detectors saw a face in some frame,
    every frame with a face scored at least 0.5 for liveness and every
    frame with a face scored at most 0.6 for deepfake: the response is the
    approved result, no alert is raised, and the session is stored as
    completed with that result. *)
Theorem complete_verification_passes
    (app : App.State) (sid : string) (session : App.Session)
    (analysis : list App.FrameEntry)
    (Hsession : App.active_sessions app !! sid = Some session)
    (Hanalysis : App.frame_analysis session = Some analysis)
    (Hlive_face :
       Exists (fun f => Liveness.face_detected (App.liveness f) = true) analysis)
    (Hdeep_face :
       Exists (fun f => Deepfake.face_detected (App.deepfake f) = true) analysis)
    (Hlive :
       Forall (fun f => Liveness.face_detected (App.liveness f) = true ->
                        (0.5 <= Liveness.liveness_score (App.liveness f))%R)
         analysis)
    (Hdeep :
       Forall (fun f => Deepfake.face_detected (App.deepfake f) = true ->
                        (Deepfake.deepfake_score (App.deepfake f) <= 0.6)%R)
         analysis) :
  let result :=
    {| vr_session_id := sid;
       vr_user_id := Some (App.user_id session);
       vr_verified := true;
       vr_alerts := [];
       vr_recommendations := ["APPROVE - Identity verification passed"];
       vr_status := Some "PASSED" |} in
  complete_verification app (Some (Some sid))
  = ({| App.active_sessions :=
          <[sid := {| App.user_id := App.user_id session;
                      App.session_id := App.session_id session;
                      App.status := "completed";
                      App.created_at := App.created_at session;
                      App.frame_analysis := Some analysis;
                      App.verification_result := Some result |}]>
            (App.active_sessions app);
        App.spoof_alerter := App.spoof_alerter app |},
     App.Ok200 result).
Proof.
  intros result. subst result.
  unfold App.complete_verification. rewrite Hsession, Hanalysis.
  destruct analysis as [|f0 rest] eqn:Ea.
  { apply Exists_nil in Hlive_face. contradiction. }
  rewrite <- Ea in *. clear Ea f0 rest.
  pose proof (avg_liveness_lower 0.5 analysis Hlive_face Hlive) as Hl.
  pose proof (avg_deepfake_upper 0.6 analysis ltac:(lra) Hdeep) as Hd.
  pose proof (filter_some _ analysis Hdeep_face) as Hne.
  unfold evaluate_verification_result, threshold_deepfake_score,
    threshold_liveness_score.
  cbn [App.deepfake_analysis_of App.liveness_analysis_of da_deepfake_score
       la_liveness_score da_face_detected da_indicators default from_option
       Datatypes.id].
  rewrite (proj2 (Rgtb_false _ _) Hd).
  rewrite (proj2 (Rltb_false _ _) Hl).
  rewrite bool_decide_eq_true_2
    by (destruct (filter _ analysis); [congruence | simpl; lia]).
  reflexivity.
Qed.


Lemma avg_deepfake_no_face (analysis : list App.FrameEntry) :
  Forall (fun f => Deepfake.face_detected (App.deepfake f) = false) analysis ->
  filter (fun f => Deepfake.face_detected (App.deepfake f) = true) analysis = []
  /\ App.avg_deepfake analysis = 0%R.
Proof.
  intros HF.
  assert (Hnil : filter (fun f => Deepfake.face_detected (App.deepfake f) = true)
                   analysis = []).
  { apply filter_none. eapply Forall_impl; [exact HF |].
    intros f Hf. simpl in Hf. rewrite Hf. discriminate. }
  split; [exact Hnil |]. unfold App.avg_deepfake. rewrite Hnil. reflexivity.
Qed.

(** The handler on a session with analysed frames: the adjudicator's
    result is stored with the session, its alerts with the service, and
    the response is what [jsonify] makes of the result. *)
Lemma complete_verification_eval
    (app : App.State) (sid : string) (session : App.Session)
    (analysis : list App.FrameEntry) :
  App.active_sessions app !! sid = Some session ->
  App.frame_analysis session = Some analysis ->
  analysis <> [] ->
  let out :=
    evaluate_verification_result now_iso fmt2 (App.spoof_alerter app) sid
      (Some (App.user_id session)) (App.deepfake_analysis_of analysis)
      (App.liveness_analysis_of analysis) in
  complete_verification app (Some (Some sid))
  = ({| App.active_sessions :=
          <[sid := {| App.user_id := App.user_id session;
                      App.session_id := App.session_id session;
                      App.status := "completed";
                      App.created_at := App.created_at session;
                      App.frame_analysis := Some analysis;
                      App.verification_result := Some (snd out) |}]>
            (App.active_sessions app);
        App.spoof_alerter := fst out |},
     match App.jsonify (snd out) with
     | Some body => App.Ok200 body
     | None => App.ServerError500
     end).
Proof.
  intros Hsession Hanalysis Hframes out. subst out.
  unfold App.complete_verification. rewrite Hsession, Hanalysis.
  destruct analysis as [|f0 rest] eqn:Ea; [congruence |].
  rewrite <- Ea in *.
  destruct (evaluate_verification_result _ _ _ _ _ _ _) as [alerter result].
  reflexivity.
Qed.

(** What [evaluate_verification_result] decides does not depend on the
    alerts already stored. *)
Lemma evaluate_verdict_stateless (s s' : Service) (sid : string)
    (uid : option string) (da : DeepfakeAnalysis) (la : LivenessAnalysis) :
  let r := snd (evaluate_verification_result now_iso fmt2 s sid uid da la) in
  let r' := snd (evaluate_verification_result now_iso fmt2 s' sid uid da la) in
  vr_verified r' = vr_verified r
  /\ vr_status r' = vr_status r
  /\ vr_recommendations r' = vr_recommendations r
  /\ map (fun a => (alert_type a, severity a, message a, details a)) (vr_alerts r')
     = map (fun a => (alert_type a, severity a, message a, details a)) (vr_alerts r)
  /\ match App.jsonify r' with
     | Some body => App.Ok200 body
     | None => App.ServerError500
     end
     = match App.jsonify r with
       | Some body => App.Ok200 body
       | None => App.ServerError500
       end.
Proof.
  unfold evaluate_verification_result.
  destruct (Rgtb _ threshold_deepfake_score);
    destruct (Rltb _ threshold_liveness_score);
    destruct (negb _); cbn; repeat split; reflexivity.
Qed.

Lemma evaluate_store (s : Service) (sid : string)
    (uid : option string) (da : DeepfakeAnalysis) (la : LivenessAnalysis) :
  let out := evaluate_verification_result now_iso fmt2 s sid uid da la in
  alerts (fst out) = alerts s ++ vr_alerts (snd out).
Proof.
  unfold evaluate_verification_result.
  destruct (Rgtb _ threshold_deepfake_score);
    destruct (Rltb _ threshold_liveness_score);
    destruct (negb _); cbn; rewrite <- ?app_assoc, ?app_nil_r; reflexivity.
Qed.

(** X28. A session in whose frames the deepfake detector never saw a face
    fails, whatever the frames scored, and the caller is not told: the
    endpoint answers 500, because the result carries alerts that do not
    serialise.  By then the session is stored as completed with a FAILED
    result holding a FACE_NOT_DETECTED alert at MEDIUM, preceded by a
    LIVENESS_FAILED alert at HIGH exactly when the averaged liveness is
    below 0.5, and never a deepfake alert; the raised alerts are in the
    alert store. *)
Theorem complete_verification_without_face
    (app : App.State) (sid : string) (session : App.Session)
    (analysis : list App.FrameEntry)
    (Hsession : App.active_sessions app !! sid = Some session)
    (Hanalysis : App.frame_analysis session = Some analysis)
    (Hframes : analysis <> [])
    (Hno_face :
       Forall (fun f => Deepfake.face_detected (App.deepfake f) = false)
         analysis) :
  exists (app' : App.State) (result : VerificationResult),
    complete_verification app (Some (Some sid)) = (app', App.ServerError500)
    /\ (App.status <$> App.active_sessions app' !! sid) = Some "completed"
    /\ (App.verification_result <$> App.active_sessions app' !! sid)
       = Some (Some result)
    /\ vr_verified result = false
    /\ vr_status result = Some "FAILED"
    /\ map (fun a => (alert_type a, severity a)) (vr_alerts result)
       = (if Rltb (App.avg_liveness analysis) 0.5
          then [(LIVENESS_FAILED, HIGH)] else [])
         ++ [(FACE_NOT_DETECTED, MEDIUM)]
    /\ vr_recommendations result
       = (if Rltb (App.avg_liveness analysis) 0.5
          then ["REJECT - Liveness verification failed"] else [])
         ++ ["REJECT - Face not detected"]
    /\ alerts (App.spoof_alerter app')
       = alerts (App.spoof_alerter app) ++ vr_alerts result.
Proof.
  destruct (avg_deepfake_no_face analysis Hno_face) as [Hnil Hzero].
  rewrite (complete_verification_eval app sid session analysis
             Hsession Hanalysis Hframes).
  unfold evaluate_verification_result, threshold_deepfake_score,
    threshold_liveness_score.
  cbn [App.deepfake_analysis_of App.liveness_analysis_of da_deepfake_score
       la_liveness_score da_face_detected da_indicators default from_option
       Datatypes.id].
  rewrite Hnil, Hzero.
  rewrite (proj2 (Rgtb_false 0 0.6)) by lra.
  rewrite bool_decide_eq_false_2 by (simpl; lia).
  destruct (Rltb (App.avg_liveness analysis) 0.5);
    cbn [negb create_alert vr_alerts vr_session_id vr_user_id vr_verified
         vr_recommendations vr_status Datatypes.app fst snd App.jsonify];
    do 2 eexists; (split; [reflexivity |]);
    cbn [vr_verified vr_status vr_alerts vr_recommendations map alert_type
         severity Datatypes.app App.spoof_alerter App.active_sessions alerts];
    rewrite lookup_insert_eq;
    repeat split; try reflexivity;
    rewrite <- ?app_assoc; reflexivity.
Qed.

(** X29. The per-frame indicators never reach the severity classifier
    through the endpoint: the result stored for a completed session
    carries a deepfake alert exactly when the averaged deepfake score
    exceeds 0.6, and its severity follows from the two averaged scores
    alone: CRITICAL above 0.85, HIGH above 0.75 or above 0.7 with an
    averaged liveness below 0.35, MEDIUM otherwise.  Whenever that alert is
    raised the endpoint answers 500. *)
Theorem complete_verification_severity
    (app : App.State) (sid : string) (session : App.Session)
    (analysis : list App.FrameEntry)
    (Hsession : App.active_sessions app !! sid = Some session)
    (Hanalysis : App.frame_analysis session = Some analysis)
    (Hframes : analysis <> []) :
  let d := App.avg_deepfake analysis in
  let l := App.avg_liveness analysis in
  let out := complete_verification app (Some (Some sid)) in
  exists result : VerificationResult,
    (App.verification_result <$> App.active_sessions (fst out) !! sid)
    = Some (Some result)
    /\ map severity
         (filter (fun a => alert_type a = DEEPFAKE_DETECTED) (vr_alerts result))
       = (if Rgtb d 0.6 then
            [ if Rgtb d 0.85 then CRITICAL
              else if Rgtb d 0.75 || (Rgtb d 0.7 && Rltb l 0.35) then HIGH
              else MEDIUM ]
          else [])
    /\ (Rgtb d 0.6 = true -> snd out = App.ServerError500).
Proof.
  intros d l out. subst out.
  rewrite (complete_verification_eval app sid session analysis
             Hsession Hanalysis Hframes).
  cbn [fst snd App.active_sessions]. rewrite lookup_insert_eq.
  eexists. split; [reflexivity |].
  unfold evaluate_verification_result, threshold_deepfake_score.
  cbn [App.deepfake_analysis_of App.liveness_analysis_of da_deepfake_score
       la_liveness_score da_face_detected da_indicators default from_option
       Datatypes.id].
  fold d l. rewrite severity_without_indicators.
  destruct (Rgtb d 0.6) eqn:Ed.
  - assert (E55 : Rgtb d 0.55 = true)
      by (apply Rgtb_true; apply Rgtb_true in Ed; lra).
    rewrite E55. cbn [orb].
    destruct (Rltb l threshold_liveness_score); destruct (negb _);
      cbn [create_alert snd vr_alerts Datatypes.app App.jsonify];
      (split; [| reflexivity]);
      rewrite filter_cons_True by reflexivity;
      rewrite ?filter_cons_False by (cbn; discriminate);
      rewrite filter_nil; cbn [map severity];
      destruct (Rgtb d 0.85); [reflexivity | | reflexivity | | reflexivity
                                | | reflexivity |];
      destruct (Rgtb d 0.75 || Rgtb d 0.7 && Rltb l 0.35); reflexivity.
  - destruct (Rltb l threshold_liveness_score); destruct (negb _);
      cbn [create_alert snd vr_alerts Datatypes.app];
      (split; [| discriminate]);
      rewrite ?filter_cons_False by (cbn; discriminate);
      reflexivity.
Qed.

(** X30. Nothing prevents a session from being completed again: the second
    call gives the same response as the first, stores a result with the
    same verdict, recommendations and alert types, severities, messages
    and details, and raises those alerts once more, so the alert store
    then holds them twice. *)
Theorem complete_verification_again
    (app : App.State) (sid : string) (session : App.Session)
    (analysis : list App.FrameEntry)
    (Hsession : App.active_sessions app !! sid = Some session)
    (Hanalysis : App.frame_analysis session = Some analysis)
    (Hframes : analysis <> []) :
  let first := complete_verification app (Some (Some sid)) in
  let second := complete_verification (fst first) (Some (Some sid)) in
  exists r1 r2 : VerificationResult,
    (App.verification_result <$> App.active_sessions (fst first) !! sid)
    = Some (Some r1)
    /\ (App.verification_result <$> App.active_sessions (fst second) !! sid)
       = Some (Some r2)
    /\ snd second = snd first
    /\ vr_verified r2 = vr_verified r1
    /\ vr_status r2 = vr_status r1
    /\ vr_recommendations r2 = vr_recommendations r1
    /\ map (fun a => (alert_type a, severity a, message a, details a))
         (vr_alerts r2)
       = map (fun a => (alert_type a, severity a, message a, details a))
           (vr_alerts r1)
    /\ alerts (App.spoof_alerter (fst second))
       = alerts (App.spoof_alerter app) ++ vr_alerts r1 ++ vr_alerts r2.
Proof.
  intros first second. subst second first.
  rewrite (complete_verification_eval app sid session analysis
             Hsession Hanalysis Hframes).
  cbn [fst snd].
  erewrite (complete_verification_eval _ sid _ analysis);
    [| cbn [App.active_sessions]; apply lookup_insert_eq | reflexivity
     | exact Hframes].
  cbn [fst snd App.spoof_alerter App.user_id App.active_sessions].
  rewrite !lookup_insert_eq.
  do 2 eexists. split; [reflexivity |]. split; [reflexivity |].
  set (da := App.deepfake_analysis_of analysis).
  set (la := App.liveness_analysis_of analysis).
  set (s1 := fst (evaluate_verification_result now_iso fmt2
                    (App.spoof_alerter app) sid (Some (App.user_id session))
                    da la)).
  destruct (evaluate_verdict_stateless (App.spoof_alerter app) s1 sid
              (Some (App.user_id session)) da la) as (Hv & Hs & Hr & Ha & Hj).
  repeat (split; [assumption |]).
  rewrite (evaluate_store s1). subst s1.
  rewrite (evaluate_store (App.spoof_alerter app)).
  rewrite <- app_assoc. reflexivity.
Qed.

End EndpointFacts.

Lemma complete_verification_passes_witness :
  snd (App.complete_verification (fun _ => "2024-01-01T00:00:02")
         (fun _ => "0.00") (server_with [live_entry])
         (Some (Some "session-1")))
  = App.Ok200
      {| Alerting.vr_session_id := "session-1";
         Alerting.vr_user_id := Some "user-1";
         Alerting.vr_verified := true;
         Alerting.vr_alerts := [];
         Alerting.vr_recommendations :=
           ["APPROVE - Identity verification passed"];
         Alerting.vr_status := Some "PASSED" |}.
Proof.
  refine (f_equal snd
    (complete_verification_passes (fun _ => "2024-01-01T00:00:02")
       (fun _ => "0.00") (server_with [live_entry]) "session-1"
       (session_with [live_entry]) [live_entry] _ eq_refl _ _ _ _)).
  - apply lookup_insert_eq.
  - constructor. reflexivity.
  - constructor. reflexivity.
  - apply Forall_cons. split; [| constructor]. intros _.
    cbn [live_entry App.liveness Liveness.liveness_score]. lra.
  - apply Forall_cons. split; [| constructor]. intros _.
    cbn [live_entry App.deepfake Deepfake.deepfake_score]. lra.
Defined.

Lemma complete_verification_without_face_witness :
  exists (app' : App.State) (result : Alerting.VerificationResult),
    App.complete_verification (fun _ => "2024-01-01T00:00:02")
      (fun _ => "0.00") (server_with [faceless_entry])
      (Some (Some "session-1"))
    = (app', App.ServerError500)
    /\ (App.verification_result <$> App.active_sessions app' !! "session-1")
       = Some (Some result)
    /\ Alerting.vr_status result = Some "FAILED".
Proof.
  destruct (complete_verification_without_face (fun _ => "2024-01-01T00:00:02")
              (fun _ => "0.00") (server_with [faceless_entry]) "session-1"
              (session_with [faceless_entry]) [faceless_entry])
    as (app' & result & Hcall & _ & Hstored & _ & Hstatus & _).
  - apply lookup_insert_eq.
  - reflexivity.
  - discriminate.
  - repeat constructor.
  - exists app', result.
    split; [exact Hcall |]. split; [exact Hstored | exact Hstatus].
Defined.

Lemma complete_verification_severity_witness :
  let out :=
    App.complete_verification (fun _ => "2024-01-01T00:00:02")
      (fun _ => "0.00") (server_with [forged_entry; faceless_entry])
      (Some (Some "session-1")) in
  exists result : Alerting.VerificationResult,
    (App.verification_result <$> App.active_sessions (fst out) !! "session-1")
    = Some (Some result)
    /\ map Alerting.severity
         (filter (fun a => Alerting.alert_type a = Alerting.DEEPFAKE_DETECTED)
            (Alerting.vr_alerts result))
       = [Alerting.CRITICAL]
    /\ snd out = App.ServerError500.
Proof.
  intros out.
  assert (Havg : App.avg_deepfake [forged_entry; faceless_entry] = 0.9%R).
  { unfold App.avg_deepfake.
    rewrite filter_cons_True by reflexivity.
    rewrite filter_cons_False by (cbn; discriminate).
    cbn [filter list_filter map forged_entry App.deepfake
         Deepfake.deepfake_score].
    unfold mean, Rsum. cbn. lra. }
  assert (H60 : Rgtb (App.avg_deepfake [forged_entry; faceless_entry]) 0.6
                = true) by (rewrite Havg; apply Rgtb_true; lra).
  assert (H85 : Rgtb (App.avg_deepfake [forged_entry; faceless_entry]) 0.85
                = true) by (rewrite Havg; apply Rgtb_true; lra).
  destruct (complete_verification_severity (fun _ => "2024-01-01T00:00:02")
              (fun _ => "0.00") (server_with [forged_entry; faceless_entry])
              "session-1" (session_with [forged_entry; faceless_entry])
              [forged_entry; faceless_entry])
    as (result & Hstored & Hsev & Hresp).
  - apply lookup_insert_eq.
  - reflexivity.
  - discriminate.
  - exists result. split; [exact Hstored |].
    rewrite H60, H85 in Hsev. split; [exact Hsev |].
    apply Hresp. exact H60.
Defined.

Lemma complete_verification_again_witness :
  let first :=
    App.complete_verification (fun _ => "2024-01-01T00:00:02")
      (fun _ => "0.00") (server_with [faceless_entry])
      (Some (Some "session-1")) in
  let second :=
    App.complete_verification (fun _ => "2024-01-01T00:00:02")
      (fun _ => "0.00") (fst first) (Some (Some "session-1")) in
  exists r1 r2 : Alerting.VerificationResult,
    snd second = snd first
    /\ Alerting.alerts (App.spoof_alerter (fst second))
       = Alerting.alerts Alerting.init
         ++ Alerting.vr_alerts r1 ++ Alerting.vr_alerts r2.
Proof.
  intros first second.
  destruct (complete_verification_again (fun _ => "2024-01-01T00:00:02")
              (fun _ => "0.00") (server_with [faceless_entry]) "session-1"
              (session_with [faceless_entry]) [faceless_entry])
    as (r1 & r2 & _ & _ & Hsame & _ & _ & _ & _ & Hstore).
  - apply lookup_insert_eq.
  - reflexivity.
  - discriminate.
  - exists r1, r2. split; [exact Hsame | exact Hstore].
Defined.
